(** * PixelLink: the message protocol engine of src/pixels.py

    A shallow embedding of the [PixelLink] class: typed message kinds, the
    dispatcher [_process_message], the blocking primitives
    [wait_for_message] and [_send_and_ack], the chunked upload
    [_upload_bulk_data] and the identification handshake of [__init__].

    The Python object and everything it talks to are one explicit state
    ([PixelLink] below).  Methods are computations in a state-and-exception
    monad [M]; [try ... finally] and [try ... except: ...; raise] are
    combinators of that monad.  Time is counted in integer clock ticks.

    The peripheral of the bluepy library is outside the sources: it is
    modelled as the list of notifications still to come, handed one at a
    time to [_process_message] while [waitForNotifications] runs, and
    nowhere else.  Scanning and connecting, which precede the [try] block of
    [__init__], and everything that is only printed are left out. *)

From Stdlib Require Import ZArith List Bool Lia.
From stdpp Require Import base gmap list.
Import ListNotations.
Open Scope Z_scope.

(** ** Enumerations *)

Module DiceType.
Inductive t := _None | _6 | _20.

Definition value (d : t) : Z :=
  match d with _None => 0 | _6 => 1 | _20 => 2 end.

(** [DiceType(v)]: [None] stands for the [ValueError] of the enum. *)
Definition of_Z (v : Z) : option t :=
  match v with 0 => Some _None | 1 => Some _6 | 2 => Some _20 | _ => None end.
End DiceType.

Module MessageType.
Inductive t :=
| _None | WhoAreYou | IAmADie | State | Telemetry
| BulkSetup | BulkSetupAck | BulkData | BulkDataAck
| TransferAnimSet | TransferAnimSetAck
| TransferSettings | TransferSettingsAck
| DebugLog | PlayAnim | PlayAnimEvent | StopAnim
| RequestState | RequestAnimSet | RequestSettings | RequestTelemetry
| ProgramDefaultAnimSet | ProgramDefaultAnimSetFinished
| Flash | FlashFinished
| RequestDefaultAnimSetColor | DefaultAnimSetColor
| RequestBatteryLevel | BatteryLevel
| Calibrate | CalibrateFace
| NotifyUser | NotifyUserAck
| TestHardware | SetStandardState | SetLEDAnimState | SetBattleState
| ProgramDefaultParameters | ProgramDefaultParametersFinished.

Definition value (k : t) : Z :=
  match k with
  | _None => 0 | WhoAreYou => 1 | IAmADie => 2 | State => 3 | Telemetry => 4
  | BulkSetup => 5 | BulkSetupAck => 6 | BulkData => 7 | BulkDataAck => 8
  | TransferAnimSet => 9 | TransferAnimSetAck => 10
  | TransferSettings => 11 | TransferSettingsAck => 12
  | DebugLog => 13 | PlayAnim => 14 | PlayAnimEvent => 15 | StopAnim => 16
  | RequestState => 17 | RequestAnimSet => 18 | RequestSettings => 19
  | RequestTelemetry => 20
  | ProgramDefaultAnimSet => 21 | ProgramDefaultAnimSetFinished => 22
  | Flash => 23 | FlashFinished => 24
  | RequestDefaultAnimSetColor => 25 | DefaultAnimSetColor => 26
  | RequestBatteryLevel => 27 | BatteryLevel => 28
  | Calibrate => 29 | CalibrateFace => 30
  | NotifyUser => 31 | NotifyUserAck => 32
  | TestHardware => 33 | SetStandardState => 34 | SetLEDAnimState => 35
  | SetBattleState => 36
  | ProgramDefaultParameters => 37 | ProgramDefaultParametersFinished => 38
  end.

(** [MessageType(v)]: [None] stands for the [ValueError] of the enum. *)
Definition of_Z (v : Z) : option t :=
  match v with
  | 0 => Some _None | 1 => Some WhoAreYou | 2 => Some IAmADie
  | 3 => Some State | 4 => Some Telemetry
  | 5 => Some BulkSetup | 6 => Some BulkSetupAck
  | 7 => Some BulkData | 8 => Some BulkDataAck
  | 9 => Some TransferAnimSet | 10 => Some TransferAnimSetAck
  | 11 => Some TransferSettings | 12 => Some TransferSettingsAck
  | 13 => Some DebugLog | 14 => Some PlayAnim | 15 => Some PlayAnimEvent
  | 16 => Some StopAnim
  | 17 => Some RequestState | 18 => Some RequestAnimSet
  | 19 => Some RequestSettings | 20 => Some RequestTelemetry
  | 21 => Some ProgramDefaultAnimSet
  | 22 => Some ProgramDefaultAnimSetFinished
  | 23 => Some Flash | 24 => Some FlashFinished
  | 25 => Some RequestDefaultAnimSetColor | 26 => Some DefaultAnimSetColor
  | 27 => Some RequestBatteryLevel | 28 => Some BatteryLevel
  | 29 => Some Calibrate | 30 => Some CalibrateFace
  | 31 => Some NotifyUser | 32 => Some NotifyUserAck
  | 33 => Some TestHardware | 34 => Some SetStandardState
  | 35 => Some SetLEDAnimState | 36 => Some SetBattleState
  | 37 => Some ProgramDefaultParameters
  | 38 => Some ProgramDefaultParametersFinished
  | _ => None
  end.
End MessageType.

(** ** Python values the code relies on *)

(** The exceptions the modelled code can raise.  The three [Exception(...)]
    of the source are told apart by their message. *)
Inductive exn :=
| AssertionError
| IndexError
| ValueError
| TypeError
| AttributeError
| struct_error
| UnicodeDecodeError
| Exception_service_not_found
| Exception_type_not_identified
| Exception_ack_not_received (ack_type : MessageType.t) (timeout : Z).

(** A message is the Python list of ints [list(data)]. *)
Abbreviation message := (list Z) (only parsing).

Definition is_byte (b : Z) : bool := (0 <=? b) && (b <? 256).

(** [bytes(l)] succeeds exactly on lists of ints in [range(256)]. *)
Definition all_bytes (l : list Z) : bool := forallb is_byte l.

(** Truth value of a list-or-None: [None] and [[]] are falsy. *)
Definition truthy (o : option message) : bool :=
  match o with
  | None => false
  | Some [] => false
  | Some (_ :: _) => true
  end.

(** [l[a:b]] for non-negative [a] and [b]. *)
Definition slice (l : list Z) (a b : Z) : list Z :=
  firstn (Z.to_nat (b - a)) (skipn (Z.to_nat a) l).

(** [len(l)] *)
Definition len (l : list Z) : Z := Z.of_nat (length l).

(** Modelled from the spec: [utils.integer_to_bytes] is imported by
    pixels.py and is not part of the sources at hand.  The spec describes
    its result as the little-endian bytes of the value, low byte first
    ("2-byte little-endian total length", "[offsetLow:1][offsetHigh:1]"). *)
Fixpoint integer_to_bytes_nat (n : Z) (num_bytes : nat) : list Z :=
  match num_bytes with
  | O => []
  | S k => n mod 256 :: integer_to_bytes_nat (n / 256) k
  end.

Definition integer_to_bytes (n : Z) (num_bytes : Z) : list Z :=
  integer_to_bytes_nat n (Z.to_nat num_bytes).

(** Strict UTF-8 well-formedness, the condition under which
    [bytes.decode("utf-8")] returns instead of raising. *)
Definition between (lo b hi : Z) : bool := (lo <=? b) && (b <=? hi).

Fixpoint utf8_valid (l : list Z) : bool :=
  match l with
  | [] => true
  | b0 :: l1 =>
    if between 0 b0 0x7F then utf8_valid l1
    else if between 0xC2 b0 0xDF then
      match l1 with
      | b1 :: l2 => between 0x80 b1 0xBF && utf8_valid l2
      | _ => false
      end
    else if between 0xE0 b0 0xEF then
      match l1 with
      | b1 :: b2 :: l3 =>
        between (if b0 =? 0xE0 then 0xA0 else 0x80) b1
                (if b0 =? 0xED then 0x9F else 0xBF)
        && between 0x80 b2 0xBF && utf8_valid l3
      | _ => false
      end
    else if between 0xF0 b0 0xF4 then
      match l1 with
      | b1 :: b2 :: b3 :: l4 =>
        between (if b0 =? 0xF0 then 0x90 else 0x80) b1
                (if b0 =? 0xF4 then 0x8F else 0xBF)
        && between 0x80 b2 0xBF && between 0x80 b3 0xBF && utf8_valid l4
      | _ => false
      end
    else false
  end.

(** A battery voltage is kept as the 32 bits of the IEEE-754 single that
    [struct.unpack('<f', ...)] reads; comparing two such floats only needs
    the bit patterns. *)
Definition float32 := Z.

Definition float_of_le_bytes (b0 b1 b2 b3 : Z) : float32 :=
  b0 + 256 * b1 + 65536 * b2 + 16777216 * b3.

Definition float_is_nan (x : float32) : bool :=
  ((x / 8388608) mod 256 =? 255) && negb (x mod 8388608 =? 0).

Definition float_is_zero (x : float32) : bool := x mod 2147483648 =? 0.

(** Python's [x != y] on floats: a NaN differs from everything, the two
    zeros are equal. *)
Definition float_ne (x y : float32) : bool :=
  float_is_nan x || float_is_nan y
  || negb ((x =? y) || (float_is_zero x && float_is_zero y)).

(** The initial [-1] of [_battery_voltage], as a float. *)
Definition minus_one : float32 := 0xBF800000.

(** ** Callbacks and the event bus *)

(** The callables attached to [message_received].  The two closures named
    [on_message] in the source write a variable of their enclosing call;
    that variable is a cell of the store [cells], and the cell is also the
    identity of the closure.  [observer] stands for a subscriber of the
    surrounding application, which does not touch the link. *)
Inductive Callback :=
| wait_on_message (cell : nat)
| ack_on_message (cell : nat) (ack_type : MessageType.t)
| observer (id : nat).

Definition Callback_eqb (a b : Callback) : bool :=
  match a, b with
  | wait_on_message c, wait_on_message c' => Nat.eqb c c'
  | ack_on_message c k, ack_on_message c' k' =>
      Nat.eqb c c' && (MessageType.value k =? MessageType.value k')
  | observer i, observer i' => Nat.eqb i i'
  | _, _ => false
  end.

(** Modelled from the spec: [utils.Event] is imported by pixels.py and is
    not part of the sources at hand.  The spec gives it three operations on
    a callback list: [attach] appends, [detach] removes the callback, and
    [notify] calls every attached callback in attachment order. *)
Module Event.
Definition t := list Callback.

Definition attach (cb : Callback) (ev : t) : t := ev ++ [cb].

Fixpoint detach (cb : Callback) (ev : t) : t :=
  match ev with
  | [] => []
  | x :: ev' => if Callback_eqb cb x then ev' else x :: detach cb ev'
  end.
End Event.

(** What the link does that can be seen from outside, in order. *)
Inductive Action :=
| Subscribe
| Write (data : list Z)
| Disconnect
| Notification (data : list Z)
| Attach (cb : Callback)
| Detach (cb : Callback)
| MessageReceived (msg : message)
| FaceUpChanged (face : Z)
| BatteryVoltageChanged (voltage : float32).

(** ** The state *)

Record PixelLink := mkPixelLink {
  (* class attribute *)
  _trace : bool;
  (* instance attributes; [_battery_voltage] is [None] until assigned *)
  _dtype : option DiceType.t;
  _face_up : Z;
  _battery_voltage : option float32;
  message_received : Event.t;
  (* the peripheral: notifications still to come, each with the delay
     after which it arrives, and the clock of [time.perf_counter] *)
  pending : list (Z * list Z);
  clock : Z;
  (* the variables captured by the [on_message] closures *)
  cells : gmap nat message;
  next_cell : nat;
  (* the prompt collaborator: the answer of the n-th [_get_continue] *)
  getch_is_return : nat -> bool;
  prompts : nat;
  (* everything done so far *)
  log : list Action
}.

Definition with_dtype (v : option DiceType.t) (s : PixelLink) : PixelLink :=
  mkPixelLink (_trace s) v (_face_up s) (_battery_voltage s)
    (message_received s) (pending s) (clock s) (cells s) (next_cell s)
    (getch_is_return s) (prompts s) (log s).

Definition with_face_up (v : Z) (s : PixelLink) : PixelLink :=
  mkPixelLink (_trace s) (_dtype s) v (_battery_voltage s)
    (message_received s) (pending s) (clock s) (cells s) (next_cell s)
    (getch_is_return s) (prompts s) (log s).

Definition with_battery_voltage (v : option float32) (s : PixelLink) : PixelLink :=
  mkPixelLink (_trace s) (_dtype s) (_face_up s) v
    (message_received s) (pending s) (clock s) (cells s) (next_cell s)
    (getch_is_return s) (prompts s) (log s).

Definition with_message_received (v : Event.t) (s : PixelLink) : PixelLink :=
  mkPixelLink (_trace s) (_dtype s) (_face_up s) (_battery_voltage s)
    v (pending s) (clock s) (cells s) (next_cell s)
    (getch_is_return s) (prompts s) (log s).

Definition with_transport (p : list (Z * list Z)) (t : Z) (s : PixelLink) : PixelLink :=
  mkPixelLink (_trace s) (_dtype s) (_face_up s) (_battery_voltage s)
    (message_received s) p t (cells s) (next_cell s)
    (getch_is_return s) (prompts s) (log s).

Definition with_cells (v : gmap nat message) (n : nat) (s : PixelLink) : PixelLink :=
  mkPixelLink (_trace s) (_dtype s) (_face_up s) (_battery_voltage s)
    (message_received s) (pending s) (clock s) v n
    (getch_is_return s) (prompts s) (log s).

Definition with_prompts (n : nat) (s : PixelLink) : PixelLink :=
  mkPixelLink (_trace s) (_dtype s) (_face_up s) (_battery_voltage s)
    (message_received s) (pending s) (clock s) (cells s) (next_cell s)
    (getch_is_return s) n (log s).

Definition with_log (v : list Action) (s : PixelLink) : PixelLink :=
  mkPixelLink (_trace s) (_dtype s) (_face_up s) (_battery_voltage s)
    (message_received s) (pending s) (clock s) (cells s) (next_cell s)
    (getch_is_return s) (prompts s) v.

(** ** The monad *)

(** [Diverge] is the outcome of a loop that runs out of the iterations it
    was given; the loops below are given enough, and the lemmas on them
    show that this outcome does not occur. *)
Inductive outcome (A : Type) :=
| Ret (a : A)
| Raise (e : exn)
| Diverge.
Arguments Ret {A} a.
Arguments Raise {A} e.
Arguments Diverge {A}.

Definition M (A : Type) := PixelLink -> outcome A * PixelLink.

Definition ret {A} (a : A) : M A := fun s => (Ret a, s).

Definition raise {A} (e : exn) : M A := fun s => (Raise e, s).

Definition diverge {A} : M A := fun s => (Diverge, s).

Definition bind {A B} (m : M A) (f : A -> M B) : M B := fun s =>
  match m s with
  | (Ret a, s') => f a s'
  | (Raise e, s') => (Raise e, s')
  | (Diverge, s') => (Diverge, s')
  end.

Declare Scope link_scope.
Delimit Scope link_scope with link.
Notation "x <- m ;; k" := (bind m (fun x => k))
  (at level 100, m at next level, right associativity) : link_scope.
Notation "m ;; k" := (bind m (fun _ => k))
  (at level 100, right associativity) : link_scope.
Open Scope link_scope.

Definition gets {A} (f : PixelLink -> A) : M A := fun s => (Ret (f s), s).

Definition modify (f : PixelLink -> PixelLink) : M unit := fun s => (Ret tt, f s).

Definition emit (a : Action) : M unit :=
  modify (fun s => with_log (log s ++ [a]) s).

(** [assert(b)] *)
Definition assert (b : bool) : M unit :=
  if b then ret tt else raise AssertionError.

(** [try: body finally: final] *)
Definition try_finally {A} (body : M A) (final : M unit) : M A := fun s =>
  match body s with
  | (Diverge, s1) => (Diverge, s1)
  | (r, s1) =>
    match final s1 with
    | (Ret _, s2) => (r, s2)
    | (Raise e, s2) => (Raise e, s2)
    | (Diverge, s2) => (Diverge, s2)
    end
  end.

(** [try: body except: handler; raise] *)
Definition try_except_reraise {A} (body : M A) (handler : M unit) : M A := fun s =>
  match body s with
  | (Raise e, s1) =>
    match handler s1 with
    | (Ret _, s2) => (Raise e, s2)
    | (Raise e', s2) => (Raise e', s2)
    | (Diverge, s2) => (Diverge, s2)
    end
  | other => other
  end.

(** ** The event [message_received] *)

Definition attach (cb : Callback) : M unit :=
  emit (Attach cb);;
  modify (fun s => with_message_received (Event.attach cb (message_received s)) s).

Definition detach (cb : Callback) : M unit :=
  emit (Detach cb);;
  modify (fun s => with_message_received (Event.detach cb (message_received s)) s).

(** A fresh closure variable, holding [None]. *)
Definition new_cell : M nat := fun s =>
  (Ret (next_cell s),
   with_cells (delete (next_cell s) (cells s)) (S (next_cell s)) s).

Definition read_cell (c : nat) : M (option message) :=
  gets (fun s => cells s !! c).

Definition write_cell (c : nat) (msg : message) : M unit :=
  modify (fun s => with_cells (<[c := msg]> (cells s)) (next_cell s) s).

(** [msg[0]] *)
Definition item0 (msg : message) : M Z :=
  match msg with
  | [] => raise IndexError
  | k :: _ => ret k
  end.

(** The body of a callback, called with [msg]. *)
Definition call (cb : Callback) (msg : message) : M unit :=
  match cb with
  | wait_on_message c =>
      (* first_msg = msg *)
      write_cell c msg
  | ack_on_message c ack_type =>
      (* if not ack_msg and msg[0] == ack_type: ack_msg = msg *)
      ack_msg <- read_cell c;;
      if truthy ack_msg then ret tt
      else
        k <- item0 msg;;
        if k =? MessageType.value ack_type then write_cell c msg else ret tt
  | observer _ => ret tt
  end.

Fixpoint call_all (cbs : list Callback) (msg : message) : M unit :=
  match cbs with
  | [] => ret tt
  | cb :: cbs' => call cb msg;; call_all cbs' msg
  end.

(** [self.message_received.notify(msg)] *)
Definition message_received_notify (msg : message) : M unit :=
  emit (MessageReceived msg);;
  cbs <- gets message_received;;
  call_all cbs msg.

(** ** Sending *)

(** [_send(message_type, *args)]: [bytes([message_type, *args])] raises
    [ValueError] unless every argument is in [range(256)]; the bytes then go
    to the write characteristic.  The printing under [_trace] has no effect
    on the link. *)
Definition _send (message_type : MessageType.t) (args : list Z) : M unit :=
  if all_bytes args
  then emit (Write (MessageType.value message_type :: args))
  else raise ValueError.

Definition play (index remap_face loop : Z) : M unit :=
  _send MessageType.PlayAnim [index; remap_face; loop].

Definition calibrate : M unit := _send MessageType.Calibrate [].

Definition refresh_battery_voltage : M unit :=
  _send MessageType.RequestBatteryLevel [].

(** ** Handlers of inbound messages *)

(** [bytes(l).decode("utf-8")]; the text itself is only printed. *)
Definition decode_utf8 (l : list Z) : M unit :=
  if all_bytes l
  then if utf8_valid l then ret tt else raise UnicodeDecodeError
  else raise ValueError.

(** [struct.unpack('<f', bytes(l))] *)
Definition unpack_float (l : list Z) : M float32 :=
  if all_bytes l
  then match l with
       | [b0; b1; b2; b3] => ret (float_of_le_bytes b0 b1 b2 b3)
       | _ => raise struct_error
       end
  else raise ValueError.

Definition _update_state (state face : Z) : M unit :=
  let face := if state =? 1 then face + 1 else 0 in
  cur <- gets _face_up;;
  if negb (cur =? face) then
    modify (with_face_up face);;
    emit (FaceUpChanged face)
  else ret tt.

Definition _update_battery_voltage (voltage : float32) : M unit :=
  cur <- gets _battery_voltage;;
  match cur with
  | None => raise AttributeError
  | Some cur =>
    if float_ne cur voltage then
      modify (with_battery_voltage (Some voltage));;
      emit (BatteryVoltageChanged voltage)
    else ret tt
  end.

(** [PixelLink._get_continue()]: the next answer of the prompt. *)
Definition _get_continue : M bool := fun s =>
  (Ret (getch_is_return s (prompts s)), with_prompts (S (prompts s)) s).

Definition _notify_user (msg : message) : M bool :=
  k <- item0 msg;;
  assert (k =? MessageType.value MessageType.NotifyUser);;
  match slice msg 1 4 with
  | [timeout; ok; cancel] =>
    decode_utf8 (skipn 4 msg);;
    let can_abort := negb (ok =? 0) && negb (cancel =? 0) in
    ok <- _get_continue;;
    let ok := if negb can_abort then true else ok in
    _send MessageType.NotifyUserAck [if ok then 1 else 0];;
    ret ok
  | _ => raise ValueError
  end.

(** [not self._dtype]: [None] and the member of value 0 are falsy. *)
Definition dtype_unset (d : option DiceType.t) : bool :=
  match d with
  | None => true
  | Some d => DiceType.value d =? 0
  end.

(** The print of [_process_message] under [_trace]: only
    [MessageType(msg[0]).name] can fail. *)
Definition trace_message (msg : message) : M unit :=
  tr <- gets _trace;;
  if tr then
    k <- item0 msg;;
    match MessageType.of_Z k with
    | Some _ => ret tt
    | None => raise ValueError
    end
  else ret tt.

(** The [if]/[elif] chain of [_process_message]. *)
Definition handle_by_kind (msg : message) : M unit :=
  k <- item0 msg;;
  if k =? MessageType.value MessageType.IAmADie then
    d <- gets _dtype;;
    if dtype_unset d then
      match tl msg with
      | [] => raise IndexError
      | v :: _ =>
        match DiceType.of_Z v with
        | Some d' => modify (with_dtype (Some d'))
        | None => raise ValueError
        end
      end
    else ret tt
  else if k =? MessageType.value MessageType.DebugLog then
    decode_utf8 (tl msg)
  else if k =? MessageType.value MessageType.BatteryLevel then
    voltage <- unpack_float (tl msg);;
    _update_battery_voltage voltage
  else if k =? MessageType.value MessageType.State then
    match tl msg with
    | [state; face] => _update_state state face
    | _ => raise TypeError
    end
  else if k =? MessageType.value MessageType.NotifyUser then
    _notify_user msg;; ret tt
  else ret tt.

Definition _process_message (msg : message) : M unit :=
  trace_message msg;;
  handle_by_kind msg;;
  message_received_notify msg.

(** ** Waiting *)

(** [self._device.waitForNotifications(timeout)] with the delegate set in
    [__init__]: if the next notification arrives within [timeout] it is
    handed to [_process_message] and the call returns [True]; otherwise the
    call returns [False] once [timeout] has passed.  An exception of the
    handler leaves through the call. *)
Definition waitForNotifications (timeout : Z) : M bool := fun s =>
  match pending s with
  | (delay, data) :: rest =>
    if delay <=? timeout then
      (emit (Notification data);;
       _process_message data;;
       ret true) (with_transport rest (clock s + delay) s)
    else
      (Ret false,
       with_transport ((delay - Z.max 0 timeout, data) :: rest)
                      (clock s + Z.max 0 timeout) s)
  | [] => (Ret false, with_transport [] (clock s + Z.max 0 timeout) s)
  end.

(** [time.perf_counter()] *)
Definition perf_counter : M Z := gets clock.

Definition wait_for_message (timeout : Z) (msg_type : MessageType.t)
  : M (option message) :=
  first_msg <- new_cell;;
  try_finally
    (attach (wait_on_message first_msg);;
     waitForNotifications timeout;;
     read_cell first_msg)
    (detach (wait_on_message first_msg)).

(** The [while] loop of [_send_and_ack], followed by the [raise] that ends
    the [try] block.  [fuel] bounds the number of iterations. *)
Fixpoint ack_loop (fuel : nat) (ack_msg : nat) (ack_type : MessageType.t)
    (timeout t0 elapsed : Z) : M message :=
  match fuel with
  | O => diverge
  | S fuel' =>
    if elapsed <=? timeout then
      got <- wait_for_message (timeout - elapsed) MessageType._None;;
      if negb (truthy got) then
        raise (Exception_ack_not_received ack_type timeout)
      else
        ack <- read_cell ack_msg;;
        match ack with
        | Some (b :: l) => ret (b :: l)
        | _ =>
          now <- perf_counter;;
          ack_loop fuel' ack_msg ack_type timeout t0 (now - t0)
        end
    else raise (Exception_ack_not_received ack_type timeout)
  end.

Definition _send_and_ack (msg_type : MessageType.t) (msg_data : list Z)
    (ack_type : MessageType.t) (timeout : Z) : M message :=
  assert (0 <=? timeout);;
  _send msg_type msg_data;;
  ack_msg <- new_cell;;
  try_finally
    (attach (ack_on_message ack_msg ack_type);;
     t0 <- perf_counter;;
     n <- gets (fun s => length (pending s));;
     ack_loop (S n) ack_msg ack_type timeout t0 0)
    (detach (ack_on_message ack_msg ack_type)).

(** ** Bulk transfer *)

Definition PIXELS_MESSAGE_BULK_DATA_SIZE : Z := 16.

(** The [while remainingSize > 0] loop of [_upload_bulk_data]. *)
Fixpoint bulk_loop (fuel : nat) (data : list Z) (timeout : Z)
    (remainingSize offset : Z) : M unit :=
  match fuel with
  | O => diverge
  | S fuel' =>
    if 0 <? remainingSize then
      let size := Z.min remainingSize PIXELS_MESSAGE_BULK_DATA_SIZE in
      let header := size :: integer_to_bytes offset 2 in
      _send_and_ack MessageType.BulkData
        (header ++ slice data offset (offset + size))
        MessageType.BulkDataAck timeout;;
      bulk_loop fuel' data timeout (remainingSize - size) (offset + size)
    else ret tt
  end.

Definition _upload_bulk_data (data : list Z) (timeout : Z) : M unit :=
  assert (negb (len data =? 0));;
  assert (0 <=? timeout);;
  _send_and_ack MessageType.BulkSetup (integer_to_bytes (len data) 2)
    MessageType.BulkSetupAck timeout;;
  bulk_loop (S (length data)) data timeout (len data) 0.

(** ** Construction *)

(** What [__init__] finds on the peripheral it has connected to. *)
Record ScanEntry := mkScanEntry {
  has_service : bool;
  has_subscriber : bool;
  has_writer : bool
}.

(** One second, in clock ticks. *)
Definition second : Z := 1000.

Definition __init__ (bluepy_entry : ScanEntry) : M unit :=
  try_except_reraise
    ((if has_service bluepy_entry then ret tt
      else raise Exception_service_not_found);;
     (if has_subscriber bluepy_entry then ret tt else raise IndexError);;
     (if has_writer bluepy_entry then ret tt else raise IndexError);;
     emit Subscribe;;
     modify (with_message_received []);;
     modify (with_face_up 0);;
     modify (with_dtype None);;
     _send MessageType.WhoAreYou [];;
     wait_for_message (1 * second) MessageType.IAmADie;;
     d <- gets _dtype;;
     (if dtype_unset d then raise Exception_type_not_identified else ret tt);;
     modify (with_battery_voltage (Some minus_one));;
     refresh_battery_voltage;;
     wait_for_message (1 * second) MessageType.BatteryLevel;;
     ret tt)
    (emit Disconnect).

(** The object before [__init__] has assigned anything: the peripheral
    will deliver [notifications], the prompt will answer [answers]. *)
Definition blank (tracing : bool) (notifications : list (Z * list Z))
    (answers : nat -> bool) : PixelLink :=
  mkPixelLink tracing None 0 None [] notifications 0 ∅ 0%nat answers 0%nat [].

(** ** Notions used by the statements *)

(** The closure variable a callback writes, if any. *)
Definition cb_cell (cb : Callback) : option nat :=
  match cb with
  | wait_on_message c => Some c
  | ack_on_message c _ => Some c
  | observer _ => None
  end.

Definition cb_below (n : nat) (cb : Callback) : Prop :=
  match cb_cell cb with
  | Some c => (c < n)%nat
  | None => True
  end.

(** Closures are created with a fresh variable, so every attached closure
    refers to a variable allocated earlier. *)
Definition fresh (s : PixelLink) : Prop :=
  Forall (cb_below (next_cell s)) (message_received s).

(** [_battery_voltage] has been assigned. *)
Definition ready (s : PixelLink) : Prop := _battery_voltage s <> None.

(** What can be logged while [waitForNotifications] runs inside
    [wait_for_message]: the inbound notification, the events it fires, the
    reply to [NotifyUser], and the observer of [wait_for_message] itself. *)
Definition during_wait (a : Action) : bool :=
  match a with
  | Notification _ | MessageReceived _ | FaceUpChanged _
  | BatteryVoltageChanged _ => true
  | Attach (wait_on_message _) | Detach (wait_on_message _) => true
  | Write (k :: _) => k =? MessageType.value MessageType.NotifyUserAck
  | _ => false
  end.

(** The effect of the callbacks on the closure variables. *)
Definition deliver_cb (msg : message) (σ : gmap nat message) (cb : Callback)
  : gmap nat message :=
  match cb with
  | wait_on_message c => <[c := msg]> σ
  | ack_on_message c k =>
    if truthy (σ !! c) then σ
    else if hd 0 msg =? MessageType.value k then <[c := msg]> σ else σ
  | observer _ => σ
  end.

Definition deliver (cbs : list Callback) (msg : message) (σ : gmap nat message)
  : gmap nat message :=
  fold_left (deliver_cb msg) cbs σ.

(** A message whose payload has the shape its kind's handler reads. *)
Definition well_formed (msg : message) : bool :=
  match msg with
  | [] => false
  | k :: payload =>
    all_bytes payload
    && match MessageType.of_Z k with Some _ => true | None => false end
    && (if k =? MessageType.value MessageType.IAmADie then
          match payload with
          | v :: _ => match DiceType.of_Z v with Some _ => true | None => false end
          | [] => false
          end
        else if k =? MessageType.value MessageType.DebugLog then
          utf8_valid payload
        else if k =? MessageType.value MessageType.BatteryLevel then
          Nat.eqb (length payload) 4
        else if k =? MessageType.value MessageType.State then
          Nat.eqb (length payload) 2
        else if k =? MessageType.value MessageType.NotifyUser then
          Nat.leb 3 (length payload) && utf8_valid (skipn 3 payload)
        else true)
  end.

(** The kind byte of a message. *)
Definition kind_is (k : MessageType.t) (msg : message) : bool :=
  match msg with
  | [] => false
  | b :: _ => b =? MessageType.value k
  end.

(** The payloads written to the transport, in order. *)
Fixpoint writes (l : list Action) : list (list Z) :=
  match l with
  | [] => []
  | Write data :: l' => data :: writes l'
  | _ :: l' => writes l'
  end.

(** The bulk-transfer messages among them. *)
Definition is_bulk (data : list Z) : bool :=
  kind_is MessageType.BulkSetup data || kind_is MessageType.BulkData data.

Definition bulk_messages (l : list Action) : list (list Z) :=
  List.filter is_bulk (writes l).

(** The values [face_up_changed] fired with, in order. *)
Fixpoint face_events (l : list Action) : list Z :=
  match l with
  | [] => []
  | FaceUpChanged v :: l' => v :: face_events l'
  | _ :: l' => face_events l'
  end.

(** The spec's chunk number [i] of a payload: size, 16-bit offset, bytes. *)
Definition chunk_size (data : list Z) (i : nat) : Z :=
  Z.min (len data - 16 * Z.of_nat i) 16.

Definition chunk_offset (i : nat) : Z := 16 * Z.of_nat i.

Definition chunk_message (data : list Z) (i : nat) : list Z :=
  MessageType.value MessageType.BulkData
  :: chunk_size data i
  :: chunk_offset i mod 256 :: chunk_offset i / 256 mod 256
  :: slice data (chunk_offset i) (chunk_offset i + chunk_size data i).

(** [ceil(L / 16)] *)
Definition chunk_count (data : list Z) : nat := Z.to_nat ((len data + 15) / 16).

(** The link once [wait_for_message] has created and attached its
    observer, and once it has detached it. *)
Definition begin_wait (s : PixelLink) : PixelLink :=
  with_message_received
    (Event.attach (wait_on_message (next_cell s)) (message_received s))
    (with_log (log s ++ [Attach (wait_on_message (next_cell s))])
       (with_cells (delete (next_cell s) (cells s)) (S (next_cell s)) s)).

Definition end_wait (c : nat) (s : PixelLink) : PixelLink :=
  with_message_received
    (Event.detach (wait_on_message c) (message_received s))
    (with_log (log s ++ [Detach (wait_on_message c)]) s).

(** The link when the next notification has arrived after [delay] and is
    about to be handled. *)
Definition arrive (delay : Z) (data : list Z) (rest : list (Z * list Z))
    (s : PixelLink) : PixelLink :=
  with_log (log s ++ [Notification data])
    (with_transport rest (clock s + delay) s).

(** The link when [timeout] has passed without a notification. *)
Definition expire (timeout : Z) (s : PixelLink) : PixelLink :=
  with_transport
    match pending s with
    | (delay, data) :: rest => (delay - Z.max 0 timeout, data) :: rest
    | [] => []
    end
    (clock s + Z.max 0 timeout) s.

(** Whether the next notification arrives within [timeout]. *)
Definition arrives_within (timeout : Z) (s : PixelLink) : option (Z * list Z) :=
  match pending s with
  | (delay, data) :: _ => if delay <=? timeout then Some (delay, data) else None
  | [] => None
  end.

(** The link once [_send_and_ack] has written its request and attached
    its observer, and once it has detached it. *)
Definition begin_ack (msg_type : MessageType.t) (msg_data : list Z)
    (ack_type : MessageType.t) (s : PixelLink) : PixelLink :=
  with_message_received
    (Event.attach (ack_on_message (next_cell s) ack_type) (message_received s))
    (with_log
       ((log s ++ [Write (MessageType.value msg_type :: msg_data)])
        ++ [Attach (ack_on_message (next_cell s) ack_type)])
       (with_cells (delete (next_cell s) (cells s)) (S (next_cell s)) s)).

Definition end_ack (c : nat) (ack_type : MessageType.t) (s : PixelLink)
  : PixelLink :=
  with_message_received
    (Event.detach (ack_on_message c ack_type) (message_received s))
    (with_log (log s ++ [Detach (ack_on_message c ack_type)]) s).

(** [a] is logged before [b]. *)
Definition precedes (a b : Action) (l : list Action) : Prop :=
  exists l1 l2 l3, l = l1 ++ a :: l2 ++ b :: l3.

(** The messages of kind [k] among the payloads written. *)
Definition sent (k : MessageType.t) (l : list Action) : list (list Z) :=
  List.filter (kind_is k) (writes l).

(** A computation that leaves [_dtype] alone. *)
Definition keeps_dtype {A} (m : M A) : Prop :=
  forall s, _dtype (m s).2 = _dtype s.

(** How a step can have set [_dtype]: by an [IAmADie] message. *)
Definition identified_by (msg : list Z) (s' : PixelLink) : Prop :=
  exists v rest d,
    msg = MessageType.value MessageType.IAmADie :: v :: rest
    /\ DiceType.of_Z v = Some d /\ _dtype s' = Some d.

(** The link of [__init__] once [WhoAreYou] is written, once
    [RequestBatteryLevel] is written, and once the transport is
    disconnected. *)
Definition greeted (s : PixelLink) : PixelLink :=
  with_log
    ((log s ++ [Subscribe]) ++ [Write [MessageType.value MessageType.WhoAreYou]])
    (with_dtype None (with_face_up 0 (with_message_received [] s))).

Definition asked (s : PixelLink) : PixelLink :=
  with_log
    (log s ++ [Write [MessageType.value MessageType.RequestBatteryLevel]])
    (with_battery_voltage (Some minus_one) s).

Definition hung_up (s : PixelLink) : PixelLink :=
  with_log (log s ++ [Disconnect]) s.

(** ** What each layer can change *)

Definition log_grows (s s' : PixelLink) : Prop :=
  exists d, log s' = log s ++ d /\ forallb during_wait d = true.

(** The handlers leave the event and the transport alone. *)
Record handled (s s' : PixelLink) : Prop := mk_handled {
  hd_trace : _trace s' = _trace s;
  hd_getch : getch_is_return s' = getch_is_return s;
  hd_event : message_received s' = message_received s;
  hd_pending : pending s' = pending s;
  hd_clock : clock s' = clock s;
  hd_next : next_cell s' = next_cell s;
  hd_log : log_grows s s';
  hd_ready : ready s -> ready s';
  hd_dtype : dtype_unset (_dtype s) = false -> _dtype s' = _dtype s
}.

(** A computation that terminates, stays within [handled] and does not
    touch the closure variables. *)
Definition safe {A} (m : M A) : Prop :=
  forall s, handled s (m s).2 /\ cells (m s).2 = cells s /\ (m s).1 <> Diverge.

(** What [wait_for_message] can change. *)
Record waited (s s' : PixelLink) : Prop := mk_waited {
  wt_trace : _trace s' = _trace s;
  wt_getch : getch_is_return s' = getch_is_return s;
  wt_next : next_cell s' = S (next_cell s);
  wt_log : log_grows s s';
  wt_ready : ready s -> ready s';
  wt_dtype : dtype_unset (_dtype s) = false -> _dtype s' = _dtype s;
  wt_event : message_received s' =
             Event.detach (wait_on_message (next_cell s))
               (Event.attach (wait_on_message (next_cell s)) (message_received s));
  wt_pending : (length (pending s') <= length (pending s))%nat
}.

(** What a balanced sequence of waits can change. *)
Record looped (s s' : PixelLink) : Prop := mk_looped {
  lp_trace : _trace s' = _trace s;
  lp_getch : getch_is_return s' = getch_is_return s;
  lp_next : (next_cell s <= next_cell s')%nat;
  lp_log : log_grows s s';
  lp_ready : ready s -> ready s';
  lp_dtype : dtype_unset (_dtype s) = false -> _dtype s' = _dtype s;
  lp_event : message_received s' = message_received s;
  lp_pending : (length (pending s') <= length (pending s))%nat
}.

(** How a call of [_send_and_ack] for the kind [k] can end: with a message
    of kind [k], the first such message among the notifications, which are
    consumed up to it; or with an exception, which, when the notifications
    are well formed, is the timeout one, every notification consumed being
    of another kind. *)
Definition consumed (k : MessageType.t) (s s' : PixelLink)
    (last : list (list Z)) : Prop :=
  exists pre,
    map snd (pending s) = pre ++ last ++ map snd (pending s')
    /\ Forall (fun m => kind_is k m = false) pre.

Definition ack_outcome (k : MessageType.t) (timeout : Z) (s s' : PixelLink)
    (r : outcome (list Z)) : Prop :=
  match r with
  | Ret m => kind_is k m = true /\ consumed k s s' [m]
  | Raise e =>
    Forall (fun p => well_formed p.2 = true) (pending s) -> ready s ->
    e = Exception_ack_not_received k timeout /\ consumed k s s' []
  | Diverge => False
  end.

(** What a call of [_send_and_ack] that got past its checks changes. *)
Record acked (msg_type : MessageType.t) (msg_data : list Z)
    (ack_type : MessageType.t) (s s' : PixelLink) : Prop := mk_acked {
  ak_trace : _trace s' = _trace s;
  ak_getch : getch_is_return s' = getch_is_return s;
  ak_next : (next_cell s < next_cell s')%nat;
  ak_ready : ready s -> ready s';
  ak_dtype : dtype_unset (_dtype s) = false -> _dtype s' = _dtype s;
  ak_event : message_received s' = message_received s;
  ak_pending : (length (pending s') <= length (pending s))%nat;
  ak_log : exists mid,
      log s' = log s
               ++ Write (MessageType.value msg_type :: msg_data)
               :: Attach (ack_on_message (next_cell s) ack_type)
               :: mid ++ [Detach (ack_on_message (next_cell s) ack_type)]
      /\ forallb during_wait mid = true
}.

(** ** Sample links *)

(** A constructed link of a 20-sided die: the state [__init__] leaves when
    no battery reading came, with [notifications] still to arrive. *)
Definition session (tracing : bool) (notifications : list (Z * list Z))
    (answers : nat -> bool) : PixelLink :=
  with_battery_voltage (Some minus_one)
    (with_dtype (Some DiceType._20) (blank tracing notifications answers)).

(** A link with a subscriber of the application on [message_received]; a
    [State] message, then two [BulkSetupAck] are on their way. *)
Definition listening : PixelLink :=
  with_message_received [observer 0]
    (session false [(5, [3; 1; 3]); (5, [6]); (5, [6])] (fun _ => true)).

(** A link on which a 40-byte upload will be acknowledged throughout, a
    [State] message coming in between. *)
Definition acknowledging : PixelLink :=
  session false
    [(1, [6]); (3, [3; 1; 3]); (1, [8]); (1, [8]); (1, [8])] (fun _ => true).

Definition payload40 : list Z := map Z.of_nat (seq 0 40).

(** A link on which no [BulkSetupAck] will come. *)
Definition silent : PixelLink :=
  session false [(1, [3; 1; 3]); (2, [8])] (fun _ => true).

(** ** Uploading an animation set *)

(** Modelled from the spec: [animation.AnimationSet] is imported by
    pixels.py and is not part of the sources at hand.
    [upload_animation_set] reads the length of five of its tables, its
    [heat_track_index], and the bytes its [pack()] returns; the record holds
    just these. *)
Record AnimationSet := mkAnimationSet {
  palette : nat;
  keyframes : nat;
  rgb_tracks : nat;
  tracks : nat;
  animations : nat;
  heat_track_index : Z;
  pack : list Z
}.

(** The list [data] that [upload_animation_set] builds with [append]. *)
Definition animation_set_header (anim_set : AnimationSet) : list Z :=
  integer_to_bytes (Z.of_nat (palette anim_set)) 2
  ++ integer_to_bytes (Z.of_nat (keyframes anim_set)) 2
  ++ integer_to_bytes (Z.of_nat (rgb_tracks anim_set)) 2
  ++ integer_to_bytes (Z.of_nat (tracks anim_set)) 2
  ++ integer_to_bytes (Z.of_nat (animations anim_set)) 2
  ++ integer_to_bytes (heat_track_index anim_set) 2.

Definition upload_animation_set (anim_set : AnimationSet) (timeout : Z)
  : M unit :=
  _send_and_ack MessageType.TransferAnimSet (animation_set_header anim_set)
    MessageType.TransferAnimSetAck timeout;;
  _upload_bulk_data (pack anim_set) timeout.

(** ** Further notions *)

(** The requests written: every payload but the replies to [NotifyUser]. *)
Definition requests (l : list Action) : list (list Z) :=
  List.filter (fun d => negb (kind_is MessageType.NotifyUserAck d)) (writes l).

(** The values [battery_voltage_changed] fired with, in order. *)
Fixpoint battery_events (l : list Action) : list float32 :=
  match l with
  | [] => []
  | BatteryVoltageChanged v :: l' => v :: battery_events l'
  | _ :: l' => battery_events l'
  end.

(** The messages published on [message_received], in order. *)
Fixpoint published (l : list Action) : list (list Z) :=
  match l with
  | [] => []
  | MessageReceived msg :: l' => msg :: published l'
  | _ :: l' => published l'
  end.

(** What a kind-specific handler can log: the two state events and the
    reply to [NotifyUser]. *)
Definition handler_action (a : Action) : bool :=
  match a with
  | FaceUpChanged _ | BatteryVoltageChanged _ => true
  | Write (k :: _) => k =? MessageType.value MessageType.NotifyUserAck
  | _ => false
  end.

(** A computation that logs handler actions only. *)
Definition logs_handler_actions {A} (m : M A) : Prop :=
  forall s, exists d,
    log (m s).2 = log s ++ d /\ forallb handler_action d = true.

(** What a wait takes from the transport, it publishes. *)
Definition passes_on (s s' : PixelLink) : Prop :=
  exists taken,
    map snd (pending s) = taken ++ map snd (pending s')
    /\ published (log s') = published (log s) ++ taken.

(** The bytes a [BulkData] message carries after its kind, size and
    offset. *)
Definition chunk_bytes (msg : list Z) : list Z := skipn 4 msg.

(** The whole sequence of bulk-transfer messages of a payload. *)
Definition bulk_sequence (data : list Z) : list (list Z) :=
  (MessageType.value MessageType.BulkSetup :: integer_to_bytes (len data) 2)
  :: map (chunk_message data) (seq 0 (chunk_count data)).

(** A link on which a [BatteryLevel] reading of 4.0 volts is on its way,
    and an animation set of 40 packed bytes. *)
Definition measuring : PixelLink :=
  session false [(5, [28; 0; 0; 128; 64])] (fun _ => true).

Definition animation40 : AnimationSet :=
  mkAnimationSet 3 2 1 1 1 0 payload40.


(** ** Deadlines and acknowledgements *)

(** The notifications that arrive while a call waits until a deadline
    [budget] away: each comes [delay] after the one before it, and counts
    if that is within what is then left of the budget. *)
Fixpoint arrivals (budget : Z) (p : list (Z * list Z)) : list (list Z) :=
  match p with
  | (delay, data) :: rest =>
    if delay <=? budget then data :: arrivals (budget - delay) rest else []
  | [] => []
  end.

(** The first message of kind [k] in a list, and the list up to and
    including it (the whole list when it has none). *)
Fixpoint first_ack (k : MessageType.t) (l : list (list Z)) : option (list Z) :=
  match l with
  | [] => None
  | m :: l' => if kind_is k m then Some m else first_ack k l'
  end.

Fixpoint up_to_ack (k : MessageType.t) (l : list (list Z)) : list (list Z) :=
  match l with
  | [] => []
  | m :: l' => if kind_is k m then [m] else m :: up_to_ack k l'
  end.

(** What [_send_and_ack] does once its request is written: the [try]
    block with its [finally] clause. *)
Definition ack_block (ack_type : MessageType.t) (timeout : Z) : M message :=
  ack_msg <- new_cell;;
  try_finally
    (attach (ack_on_message ack_msg ack_type);;
     t0 <- perf_counter;;
     n <- gets (fun s => length (pending s));;
     ack_loop (S n) ack_msg ack_type timeout t0 0)
    (detach (ack_on_message ack_msg ack_type)).

(** The link once a request is written. *)
Definition written (msg_type : MessageType.t) (msg_data : list Z)
    (s : PixelLink) : PixelLink :=
  with_log (log s ++ [Write (MessageType.value msg_type :: msg_data)]) s.

(** The acknowledgement a request of the bulk transfer waits for. *)
Definition ack_of (request : list Z) : option MessageType.t :=
  if kind_is MessageType.BulkSetup request then Some MessageType.BulkSetupAck
  else if kind_is MessageType.BulkData request then Some MessageType.BulkDataAck
  else None.

(** A log read as a stop-and-wait exchange.  [awaited] is the
    acknowledgement the last request written is still waiting for; it is
    received when a message of that kind is published.  The result is
    [None] when a request is written while the one before it is still
    waiting, and otherwise what is awaited at the end. *)
Fixpoint stop_and_wait (awaited : option MessageType.t) (l : list Action)
  : option (option MessageType.t) :=
  match l with
  | [] => Some awaited
  | Write data :: l' =>
    match ack_of data, awaited with
    | Some k, None => stop_and_wait (Some k) l'
    | Some _, Some _ => None
    | None, _ => stop_and_wait awaited l'
    end
  | MessageReceived msg :: l' =>
    match awaited with
    | Some k => stop_and_wait (if kind_is k msg then None else Some k) l'
    | None => stop_and_wait None l'
    end
  | _ :: l' => stop_and_wait awaited l'
  end.

(** How a call that waits for an acknowledgement of kind [k] ends, given
    the notifications that arrive before [budget] has passed: with the first
    of them that is of kind [k], everything up to it being taken and
    published; with the timeout error when none is of kind [k], all of them
    being taken and published; or with the exception [e] that the dispatch
    of one of them raises, those before it being published. *)
Definition ack_result (k : MessageType.t) (timeout budget : Z)
    (s s' : PixelLink) (r : outcome (list Z)) : Prop :=
  let A := arrivals budget (pending s) in
  match r with
  | Ret m =>
    first_ack k A = Some m
    /\ map snd (pending s) = up_to_ack k A ++ map snd (pending s')
    /\ published (log s') = published (log s) ++ up_to_ack k A
  | Raise e =>
    (e = Exception_ack_not_received k timeout
     /\ first_ack k A = None
     /\ map snd (pending s) = A ++ map snd (pending s')
     /\ published (log s') = published (log s) ++ A)
    \/ (exists pre m later σ,
          A = pre ++ m :: later /\ first_ack k pre = None
          /\ (ready s -> ready σ)
          /\ (_process_message m σ).1 = Raise e
          /\ map snd (pending s) = pre ++ m :: map snd (pending s')
          /\ published (log s') = published (log s) ++ pre)
  | Diverge => False
  end.

(** A link on which a [BatteryLevel] reading that is one byte short is on
    its way, ahead of the [BulkSetupAck]; one on which the [BulkSetupAck]
    comes one tick after a deadline of ten; and one on which a [State]
    message and both acknowledgements of a 16-byte upload come in time. *)
Definition garbled : PixelLink :=
  session false [(1, [28; 0; 0; 128]); (1, [6])] (fun _ => true).

Definition late : PixelLink :=
  session false [(4, [3; 1; 3]); (7, [6])] (fun _ => true).

(** ** Basic facts *)

Lemma with_cells_same s : with_cells (cells s) (next_cell s) s = s.
Proof. by destruct s. Qed.

Lemma call_nonempty cb b l s :
  call cb (b :: l) s =
  (Ret tt, with_cells (deliver_cb (b :: l) (cells s) cb) (next_cell s) s).
Proof.
  destruct cb as [c|c k|i]; cbn; try by rewrite with_cells_same.
  - reflexivity.
  - unfold bind, read_cell, gets. cbn.
    destruct (truthy (cells s !! c)); cbn; [by rewrite with_cells_same|].
    destruct (b =? MessageType.value k); cbn; [done|by rewrite with_cells_same].
Qed.

Lemma call_all_nonempty cbs b l s :
  call_all cbs (b :: l) s =
  (Ret tt, with_cells (deliver cbs (b :: l) (cells s)) (next_cell s) s).
Proof.
  revert s. induction cbs as [|cb cbs IH]; intros s; cbn.
  - by rewrite with_cells_same.
  - unfold bind. rewrite call_nonempty, IH. by destruct s.
Qed.

Lemma notify_nonempty b l s :
  message_received_notify (b :: l) s =
  (Ret tt,
   with_cells (deliver (message_received s) (b :: l) (cells s)) (next_cell s)
     (with_log (log s ++ [MessageReceived (b :: l)]) s)).
Proof.
  unfold message_received_notify, bind, emit, modify, gets. cbn.
  by rewrite call_all_nonempty.
Qed.

(** ** The Python values, on examples *)

Example integer_to_bytes_300 : integer_to_bytes 300 2 = [44; 1].
Proof. reflexivity. Qed.

Example slice_middle : slice [10; 11; 12; 13; 14] 1 4 = [11; 12; 13].
Proof. reflexivity. Qed.

Example slice_past_end : slice [10; 11; 12] 2 18 = [12].
Proof. reflexivity. Qed.

Example utf8_two_bytes : utf8_valid [0x48; 0xC3; 0xA9] = true.
Proof. reflexivity. Qed.

Example utf8_overlong : utf8_valid [0xC0; 0x80] = false.
Proof. reflexivity. Qed.

Example utf8_surrogate : utf8_valid [0xED; 0xA0; 0x80] = false.
Proof. reflexivity. Qed.

Example utf8_truncated : utf8_valid [0xE2; 0x82] = false.
Proof. reflexivity. Qed.

(** 4.0 differs from the initial -1; -0.0 equals 0.0; a NaN differs from
    itself. *)
Example float_ne_examples :
  float_ne minus_one (float_of_le_bytes 0 0 128 64) = true
  /\ float_ne 0x80000000 0 = false
  /\ float_ne 0x7FC00000 0x7FC00000 = true
  /\ float_ne minus_one minus_one = false.
Proof. by vm_compute. Qed.

Example detach_first_only :
  Event.detach (observer 1) [observer 0; observer 1; observer 2; observer 1]
  = [observer 0; observer 2; observer 1].
Proof. reflexivity. Qed.

(** ** What a handler can change *)

Lemma log_grows_refl s : log_grows s s.
Proof. exists []. by rewrite app_nil_r. Qed.

Lemma log_grows_same s s' : log s' = log s -> log_grows s s'.
Proof. intros E. exists []. by rewrite app_nil_r. Qed.

Lemma log_grows_trans s1 s2 s3 :
  log_grows s1 s2 -> log_grows s2 s3 -> log_grows s1 s3.
Proof.
  intros (d1 & E1 & F1) (d2 & E2 & F2). exists (d1 ++ d2). split.
  - by rewrite E2, E1, app_assoc.
  - by rewrite forallb_app, F1, F2.
Qed.

Lemma handled_refl s : handled s s.
Proof. split; auto using log_grows_refl. Qed.

Lemma handled_trans s1 s2 s3 : handled s1 s2 -> handled s2 s3 -> handled s1 s3.
Proof.
  intros [] []. split; try congruence; eauto using log_grows_trans.
  intros Hd. rewrite <- hd_dtype0 by done. apply hd_dtype1. by rewrite hd_dtype0.
Qed.

Lemma safe_ret {A} (a : A) : safe (ret a).
Proof. intros s. cbn. auto using handled_refl. Qed.

Lemma safe_raise {A} e : safe (@raise A e).
Proof. intros s. cbn. auto using handled_refl. Qed.

Lemma safe_gets {A} (f : PixelLink -> A) : safe (gets f).
Proof. intros s. cbn. auto using handled_refl. Qed.

Lemma safe_bind {A B} (m : M A) (f : A -> M B) :
  safe m -> (forall a, safe (f a)) -> safe (bind m f).
Proof.
  intros Hm Hf s. unfold bind. destruct (Hm s) as (H1 & H2 & H3).
  destruct (m s) as [[a|e|] s1]; cbn in *; try done.
  destruct (Hf a s1) as (G1 & G2 & G3).
  split; [by eapply handled_trans|]. split; [congruence|done].
Qed.

Lemma safe_emit a : during_wait a = true -> safe (emit a).
Proof.
  intros Ha s. cbn. split; [|done]. split; cbn; try done.
  exists [a]. cbn. by rewrite Ha.
Qed.

Lemma safe_assert b : safe (assert b).
Proof. destruct b; [apply safe_ret|apply safe_raise]. Qed.

Ltac quiet_update :=
  split; [|done]; split; cbn; try done; try (by apply log_grows_same).

Lemma safe_face_up v : safe (modify (with_face_up v)).
Proof. intros s. cbn. quiet_update. Qed.

Lemma safe_battery v : safe (modify (with_battery_voltage (Some v))).
Proof. intros s. cbn. quiet_update. Qed.

Lemma safe_get_continue : safe _get_continue.
Proof. intros s. cbn. quiet_update. Qed.

Lemma safe_item0 msg : safe (item0 msg).
Proof. destruct msg; [apply safe_raise|apply safe_ret]. Qed.

Ltac safe_step :=
  match goal with
  | |- safe (bind _ _) => apply safe_bind; [|intros ?]
  | |- safe (ret _) => apply safe_ret
  | |- safe (raise _) => apply safe_raise
  | |- safe (gets _) => apply safe_gets
  | |- safe (assert _) => apply safe_assert
  | |- safe (item0 _) => apply safe_item0
  | |- safe (emit _) => apply safe_emit; cbn; rewrite ?Z.eqb_refl; reflexivity
  | |- safe (modify (with_face_up _)) => apply safe_face_up
  | |- safe (modify (with_battery_voltage (Some _))) => apply safe_battery
  | |- safe _get_continue => apply safe_get_continue
  | |- safe (if ?b then _ else _) => destruct b
  | |- safe (match ?x with _ => _ end) => destruct x
  end.

Lemma safe_send_ack args : safe (_send MessageType.NotifyUserAck args).
Proof. unfold _send. repeat safe_step. Qed.

Lemma safe_decode_utf8 l : safe (decode_utf8 l).
Proof. unfold decode_utf8. repeat safe_step. Qed.

Lemma safe_unpack_float l : safe (unpack_float l).
Proof. unfold unpack_float. repeat safe_step. Qed.

Lemma safe_update_state state face : safe (_update_state state face).
Proof. unfold _update_state. repeat safe_step. Qed.

Lemma safe_update_battery_voltage v : safe (_update_battery_voltage v).
Proof. unfold _update_battery_voltage. repeat safe_step. Qed.

Lemma safe_notify_user msg : safe (_notify_user msg).
Proof.
  unfold _notify_user.
  repeat first [apply safe_send_ack | apply safe_decode_utf8 | safe_step].
Qed.

Lemma safe_trace_message msg : safe (trace_message msg).
Proof. unfold trace_message. repeat safe_step. Qed.

Lemma safe_handle_by_kind msg : safe (handle_by_kind msg).
Proof.
  unfold handle_by_kind. apply safe_bind; [apply safe_item0|intros k].
  destruct (k =? _).
  { intros s. unfold bind, gets, modify, ret, raise. cbn.
    destruct (dtype_unset (_dtype s)) eqn:E; cbn; auto using handled_refl.
    destruct (tl msg) as [|v ?]; cbn; auto using handled_refl.
    destruct (DiceType.of_Z v); cbn; auto using handled_refl.
    quiet_update. congruence. }
  repeat first [apply safe_decode_utf8 | apply safe_unpack_float
               | apply safe_update_state | apply safe_update_battery_voltage
               | apply safe_notify_user | safe_step].
Qed.

(** ** Well-formed messages are handled without an exception *)

Lemma decode_utf8_ok l s :
  all_bytes l = true -> utf8_valid l = true -> decode_utf8 l s = (Ret tt, s).
Proof. unfold decode_utf8. by intros -> ->. Qed.

Lemma update_state_ret state face s : (_update_state state face s).1 = Ret tt.
Proof.
  unfold _update_state, bind, gets, modify, emit. cbn.
  by destruct (negb _).
Qed.

Lemma update_battery_voltage_ret v s :
  ready s -> (_update_battery_voltage v s).1 = Ret tt.
Proof.
  unfold _update_battery_voltage, ready, bind, gets, modify, emit. cbn.
  destruct (_battery_voltage s); [|done]. intros _. by destruct (float_ne _ _).
Qed.

Lemma trace_message_ok msg s :
  well_formed msg = true -> trace_message msg s = (Ret tt, s).
Proof.
  destruct msg as [|k payload]; [done|]. cbn.
  unfold trace_message, bind, gets. cbn.
  destruct (_trace s); [|done]. cbn.
  destruct (MessageType.of_Z k); [done|]. by rewrite andb_false_r.
Qed.

Lemma handle_by_kind_ok msg s :
  well_formed msg = true -> ready s -> (handle_by_kind msg s).1 = Ret tt.
Proof.
  destruct msg as [|k payload]; [done|]. cbn -[MessageType.value].
  intros Hwf Hready.
  apply andb_prop in Hwf as [Hwf Hshape]. apply andb_prop in Hwf as [Hbytes _].
  unfold handle_by_kind. cbn -[MessageType.value]. unfold bind at 1.
  cbn -[MessageType.value].
  destruct (k =? MessageType.value MessageType.IAmADie).
  { unfold bind, gets, modify. cbn.
    destruct (dtype_unset (_dtype s)); [|done].
    destruct payload as [|v ?]; [done|]. cbn. by destruct (DiceType.of_Z v). }
  destruct (k =? MessageType.value MessageType.DebugLog).
  { by rewrite decode_utf8_ok. }
  destruct (k =? MessageType.value MessageType.BatteryLevel).
  { destruct payload as [|b0 [|b1 [|b2 [|b3 [|]]]]]; try done.
    unfold bind, unpack_float. rewrite Hbytes. cbn.
    by apply update_battery_voltage_ret. }
  destruct (k =? MessageType.value MessageType.State).
  { destruct payload as [|st [|face [|]]]; try done. apply update_state_ret. }
  destruct (k =? MessageType.value MessageType.NotifyUser) eqn:Ek; [|done].
  destruct payload as [|t [|ok [|cancel txt]]]; try done.
  apply andb_prop in Hshape as [_ Hutf]. cbn in Hutf, Hbytes.
  apply andb_prop in Hbytes as [_ Hbytes]. apply andb_prop in Hbytes as [_ Hbytes].
  apply andb_prop in Hbytes as [_ Hbytes].
  unfold _notify_user, bind. cbn -[MessageType.value]. rewrite Ek. cbn.
  change (slice (k :: t :: ok :: cancel :: txt) 1 4) with [t; ok; cancel].
  change (drop 0 txt) with txt in *. cbn.
  rewrite decode_utf8_ok by done. cbn.
  by destruct (negb (negb (ok =? 0) && negb (cancel =? 0)));
    destruct (getch_is_return s (prompts s)).
Qed.

(** ** The dispatcher *)

(** [_process_message] terminates; it leaves the event and the transport
    alone; when it returns, the closure variables have received the
    message; and it returns on well-formed messages. *)
Lemma process_message_spec msg s r s' :
  _process_message msg s = (r, s') ->
  handled s s' /\ r <> Diverge
  /\ match r with
     | Ret _ => msg <> [] /\ cells s' = deliver (message_received s) msg (cells s)
     | _ => cells s' = cells s
     end
  /\ (well_formed msg = true -> ready s -> r = Ret tt).
Proof.
  unfold _process_message, bind.
  destruct (safe_trace_message msg s) as (T1 & T2 & T3).
  pose proof (trace_message_ok msg s) as Tok.
  destruct (trace_message msg s) as [[[]|e|] s1]; cbn [fst snd] in *;
    [|by intros [= <- <-]; intuition congruence|done].
  destruct (safe_handle_by_kind msg s1) as (H1 & H2 & H3).
  pose proof (handle_by_kind_ok msg s1) as Hok.
  destruct (handle_by_kind msg s1) as [[[]|e|] s2] eqn:Hk; cbn [fst snd] in *;
    [| |done].
  - destruct msg as [|b l]; [done|]. rewrite notify_nonempty. intros [= <- <-].
    split.
    + eapply handled_trans; [done|]. eapply handled_trans; [done|].
      split; cbn; try done. exists [MessageReceived (b :: l)]. by cbn.
    + cbn. split; [done|]. split; [|done]. split; [done|].
      rewrite H2, T2, (hd_event _ _ H1), (hd_event _ _ T1). done.
  - intros [= <- <-]. split; [by eapply handled_trans|]. split; [done|].
    split; [congruence|]. intros Hwf Hr. specialize (Tok Hwf). simplify_eq.
    by specialize (Hok Hwf Hr).
Qed.

(** ** Waiting for a message *)

Lemma wait_for_message_unfold timeout msg_type s :
  wait_for_message timeout msg_type s =
  let c := next_cell s in
  match arrives_within timeout s with
  | Some (delay, data) =>
    match _process_message data
            (arrive delay data (tl (pending s)) (begin_wait s)) with
    | (Ret _, s2) => (Ret (cells s2 !! c), end_wait c s2)
    | (Raise e, s2) => (Raise e, end_wait c s2)
    | (Diverge, s2) => (Diverge, s2)
    end
  | None => (Ret None, end_wait c (expire timeout (begin_wait s)))
  end.
Proof.
  unfold wait_for_message, arrives_within, try_finally, bind, new_cell, attach,
    waitForNotifications, expire, arrive, detach, emit, modify, read_cell,
    gets, ret.
  cbn. destruct (pending s) as [|[delay data] rest]; cbn.
  - by rewrite lookup_delete_eq.
  - destruct (delay <=? timeout); cbn; [|by rewrite lookup_delete_eq].
    unfold bind, begin_wait, Event.attach. cbn.
    by destruct (_process_message data _) as [[[]|e|] s2].
Qed.

Lemma Callback_eqb_refl cb : Callback_eqb cb cb = true.
Proof.
  destruct cb; cbn; rewrite ?Nat.eqb_refl, ?Z.eqb_refl; done.
Qed.

Lemma Callback_eqb_cell a b : Callback_eqb a b = true -> cb_cell a = cb_cell b.
Proof.
  destruct a, b; cbn; try done.
  - by intros ->%Nat.eqb_eq.
  - by intros [->%Nat.eqb_eq _]%andb_prop.
Qed.

(** Attaching a closure with a fresh variable and detaching it again gives
    the callback list back. *)
Lemma detach_attach cb n ev :
  cb_cell cb = Some n -> Forall (cb_below n) ev ->
  Event.detach cb (Event.attach cb ev) = ev.
Proof.
  intros Hc. unfold Event.attach. induction 1 as [|x ev Hx _ IH]; cbn.
  - by rewrite Callback_eqb_refl.
  - destruct (Callback_eqb cb x) eqn:E; [|by rewrite IH].
    apply Callback_eqb_cell in E. unfold cb_below in Hx.
    rewrite <- E, Hc in Hx. lia.
Qed.

Lemma cb_below_mono n m cb : (n <= m)%nat -> cb_below n cb -> cb_below m cb.
Proof. unfold cb_below. destruct (cb_cell cb); [lia|done]. Qed.

Lemma waited_event s s' :
  waited s s' -> fresh s -> message_received s' = message_received s.
Proof. intros W F. rewrite (wt_event _ _ W). by eapply detach_attach. Qed.

Lemma waited_fresh s s' : waited s s' -> fresh s -> fresh s'.
Proof.
  intros W F. unfold fresh. rewrite (waited_event _ _ W F), (wt_next _ _ W).
  eapply Forall_impl; [exact F|]. intros cb. apply cb_below_mono. lia.
Qed.

Lemma handled_end_wait s s0 s2 :
  _trace s0 = _trace s -> getch_is_return s0 = getch_is_return s ->
  next_cell s0 = S (next_cell s) -> log_grows s s0 ->
  _battery_voltage s0 = _battery_voltage s -> _dtype s0 = _dtype s ->
  message_received s0 =
    Event.attach (wait_on_message (next_cell s)) (message_received s) ->
  (length (pending s0) <= length (pending s))%nat ->
  handled s0 s2 ->
  waited s (end_wait (next_cell s) s2).
Proof.
  intros E1 E2 E3 E4 E5 E6 E7 E8 [].
  split; cbn; try congruence.
  - eapply log_grows_trans; [exact E4|]. eapply log_grows_trans; [exact hd_log0|].
    exists [Detach (wait_on_message (next_cell s))]. by cbn.
  - unfold ready in *. cbn. rewrite <- E5. done.
  - rewrite <- E6. done.
Qed.

Lemma wait_for_message_spec timeout msg_type s r s' :
  wait_for_message timeout msg_type s = (r, s') ->
  waited s s' /\ r <> Diverge.
Proof.
  rewrite wait_for_message_unfold. cbn zeta.
  destruct (arrives_within timeout s) as [[delay data]|] eqn:Ea.
  - destruct (_process_message data _) as [r0 s2] eqn:Ep.
    apply process_message_spec in Ep as (Hh & Hd & _).
    assert (waited s (end_wait (next_cell s) s2)) as W.
    { eapply handled_end_wait; [..|exact Hh]; cbn; try done.
      - exists [Attach (wait_on_message (next_cell s)); Notification data].
        cbn. by rewrite <- app_assoc.
      - destruct (pending s); cbn; lia. }
    destruct r0; intros [= <- <-]; done.
  - intros [= <- <-]. split; [|done].
    eapply handled_end_wait; [..|apply handled_refl]; cbn; try done.
    + exists [Attach (wait_on_message (next_cell s))]. by cbn.
    + destruct (pending s) as [|[] ?]; cbn; lia.
Qed.

Lemma deliver_app ev1 ev2 msg σ :
  deliver (ev1 ++ ev2) msg σ = deliver ev2 msg (deliver ev1 msg σ).
Proof. apply fold_left_app. Qed.

Lemma deliver_other ev msg σ a :
  Forall (fun cb => cb_cell cb <> Some a) ev ->
  deliver ev msg σ !! a = σ !! a.
Proof.
  intros H. revert σ. induction H as [|cb ev Hcb _ IH]; intros σ; [done|].
  cbn. fold (deliver ev msg (deliver_cb msg σ cb)). rewrite IH.
  destruct cb as [c|c k|i]; cbn in *; [|repeat case_match|]; try done;
    rewrite lookup_insert_ne; congruence.
Qed.

Lemma cb_below_other a ev :
  Forall (cb_below a) ev -> Forall (fun cb => cb_cell cb <> Some a) ev.
Proof.
  intros H. eapply Forall_impl; [exact H|]. intros cb. unfold cb_below.
  destruct (cb_cell cb); [|done]. intros ? [= ->]. lia.
Qed.

Lemma wait_for_message_arrived timeout msg_type s delay data r s' :
  arrives_within timeout s = Some (delay, data) ->
  wait_for_message timeout msg_type s = (r, s') ->
  pending s' = tl (pending s)
  /\ match r with
     | Ret got =>
       got = Some data /\ data <> []
       /\ cells s' = <[next_cell s := data]>
                       (deliver (message_received s) data
                          (delete (next_cell s) (cells s)))
     | Raise _ => True
     | Diverge => False
     end
  /\ (well_formed data = true -> ready s -> r = Ret (Some data)).
Proof.
  intros Ea. rewrite wait_for_message_unfold, Ea. cbn zeta.
  destruct (_process_message data _) as [r0 s2] eqn:Ep.
  apply process_message_spec in Ep as (Hh & Hd & Hc & Hok).
  assert (pending s2 = tl (pending s)) as Hp by (by rewrite (hd_pending _ _ Hh)).
  destruct r0 as [[]|e|]; [| |done].
  - destruct Hc as [Hne Hc].
    change (cells s2 =
            deliver (message_received s ++ [wait_on_message (next_cell s)]) data
              (delete (next_cell s) (cells s))) in Hc.
    rewrite deliver_app in Hc.
    intros [= <- <-]. cbn. rewrite Hc. cbn. rewrite lookup_insert_eq. done.
  - intros [= <- <-]. cbn. split; [done|]. split; [done|].
    intros Hwf Hr. by specialize (Hok Hwf Hr).
Qed.

Lemma wait_for_message_expired timeout msg_type s :
  arrives_within timeout s = None ->
  wait_for_message timeout msg_type s =
  (Ret None, end_wait (next_cell s) (expire timeout (begin_wait s))).
Proof. intros Ea. by rewrite wait_for_message_unfold, Ea. Qed.

(** ** The acknowledgement loop *)

Lemma looped_refl s : looped s s.
Proof. split; auto using log_grows_refl. Qed.

Lemma looped_trans s1 s2 s3 : looped s1 s2 -> looped s2 s3 -> looped s1 s3.
Proof.
  intros [] []. split; try congruence; try lia; eauto using log_grows_trans.
  intros Hd. rewrite <- lp_dtype0 by done. apply lp_dtype1. by rewrite lp_dtype0.
Qed.

Lemma waited_looped s s' : fresh s -> waited s s' -> looped s s'.
Proof.
  intros F W. pose proof (waited_event _ _ W F). destruct W.
  split; try done. lia.
Qed.

Lemma ack_loop_spec a k timeout t0 ev :
  Forall (cb_below a) ev ->
  forall fuel s elapsed r s',
    message_received s = Event.attach (ack_on_message a k) ev ->
    (a < next_cell s)%nat ->
    cells s !! a = None ->
    (length (pending s) < fuel)%nat ->
    ack_loop fuel a k timeout t0 elapsed s = (r, s') ->
    looped s s' /\ ack_outcome k timeout s s' r.
Proof.
  intros Hev. induction fuel as [|fuel IH]; intros s elapsed r s' Hmr Ha Hcell Hfuel;
    [lia|].
  cbn [ack_loop]. destruct (elapsed <=? timeout);
    [|intros [= <- <-]; split; [apply looped_refl|]; intros _ _;
      split; [done|by exists []]].
  assert (fresh s) as Hfresh.
  { unfold fresh, Event.attach in *. rewrite Hmr. apply Forall_app. split.
    - eapply Forall_impl; [exact Hev|]. intros cb. apply cb_below_mono. lia.
    - by repeat constructor. }
  unfold bind at 1.
  destruct (wait_for_message _ _ s) as [r1 s1] eqn:Ew.
  pose proof (wait_for_message_spec _ _ _ _ _ Ew) as [W Hd].
  pose proof (waited_looped _ _ Hfresh W) as Hl.
  destruct (arrives_within (timeout - elapsed) s) as [[delay data]|] eqn:Ea.
  - apply (wait_for_message_arrived _ _ _ _ _ _ _ Ea) in Ew as (Hp & Hr & Hok).
    unfold arrives_within in Ea.
    destruct (pending s) as [|[d0 m0] rest] eqn:Eps; [done|].
    destruct (d0 <=? timeout - elapsed); [|done]. simplify_eq. cbn in Hp.
    destruct r1 as [got|e|]; [| |done].
    + destruct Hr as (-> & Hne & Hc). destruct data as [|b l]; [done|]. cbn.
      unfold bind, read_cell, gets. cbn.
      assert (cells s1 !! a = if kind_is k (b :: l) then Some (b :: l) else None)
        as Hca.
      { rewrite Hc, lookup_insert_ne by lia. rewrite Hmr.
        unfold Event.attach. rewrite deliver_app. cbn.
        rewrite deliver_other by by apply cb_below_other.
        rewrite lookup_delete_ne by lia. rewrite Hcell. cbn.
        destruct (b =? MessageType.value k); [by rewrite lookup_insert_eq|].
        rewrite deliver_other by by apply cb_below_other.
        by rewrite lookup_delete_ne by lia. }
      rewrite Hca.
      destruct (kind_is k (b :: l)) eqn:Ek.
      * intros [= <- <-]. split; [done|]. split; [done|].
        exists []. by rewrite Eps, Hp.
      * unfold perf_counter. cbn. intros Hloop.
        apply IH in Hloop as [Hl2 Ho];
          [|by rewrite (lp_event _ _ Hl), Hmr|pose proof (lp_next _ _ Hl); lia
           |by rewrite Hca|rewrite Hp; cbn in Hfuel; lia].
        split; [by eapply looped_trans|].
        destruct r as [m|e|]; [| |done].
        -- destruct Ho as (Hk & pre & Hpre & Hno). split; [done|].
           exists ((b :: l) :: pre). split; [|by constructor].
           rewrite Eps. cbn. rewrite Hp in Hpre. by rewrite Hpre.
        -- intros Hwf Hrd. rewrite Eps in Hwf.
           apply Forall_cons in Hwf as [Hw1 Hw2].
           destruct Ho as (-> & pre & Hpre & Hno);
             [by rewrite Hp|by apply (lp_ready _ _ Hl)|].
           split; [done|]. exists ((b :: l) :: pre). split; [|by constructor].
           rewrite Eps. cbn. rewrite Hp in Hpre. by rewrite Hpre.
    + cbn. intros [= <- <-]. split; [done|]. intros Hwf Hrd.
      rewrite Eps in Hwf. apply Forall_cons in Hwf as [Hw1 Hw2].
      by specialize (Hok Hw1 Hrd).
  - rewrite wait_for_message_expired in Ew by done. simplify_eq.
    cbn. intros [= <- <-]. split; [done|]. intros _ _. split; [done|].
    exists []. split; [|done]. cbn. by destruct (pending s) as [|[] ?].
Qed.

(** ** Sending a request and waiting for its acknowledgement *)

Lemma send_and_ack_unfold msg_type msg_data ack_type timeout s :
  _send_and_ack msg_type msg_data ack_type timeout s =
  if 0 <=? timeout then
    if all_bytes msg_data then
      match ack_loop (S (length (pending s))) (next_cell s) ack_type timeout
              (clock s) 0 (begin_ack msg_type msg_data ack_type s) with
      | (Diverge, s2) => (Diverge, s2)
      | (r, s2) => (r, end_ack (next_cell s) ack_type s2)
      end
    else (Raise ValueError, s)
  else (Raise AssertionError, s).
Proof.
  unfold _send_and_ack, _send, assert, try_finally, new_cell, attach, detach,
    emit, modify, perf_counter, gets, begin_ack, end_ack.
  destruct (0 <=? timeout); [|done]. unfold bind at 1. cbn -[ack_loop].
  destruct (all_bytes msg_data); [|done]. unfold bind. cbn -[ack_loop].
  by destruct (ack_loop _ _ _ _ _ _ _) as [[m|e|] s2].
Qed.

Lemma send_and_ack_spec msg_type msg_data ack_type timeout s r s' :
  fresh s ->
  _send_and_ack msg_type msg_data ack_type timeout s = (r, s') ->
  (r = Raise AssertionError /\ s' = s /\ timeout < 0)
  \/ (r = Raise ValueError /\ s' = s /\ all_bytes msg_data = false)
  \/ (0 <= timeout /\ all_bytes msg_data = true
      /\ acked msg_type msg_data ack_type s s'
      /\ ack_outcome ack_type timeout s s' r).
Proof.
  intros Hfresh. rewrite send_and_ack_unfold.
  destruct (0 <=? timeout) eqn:Et;
    [|intros [= <- <-]; left; apply Z.leb_gt in Et; done].
  destruct (all_bytes msg_data) eqn:Eb; [|intros [= <- <-]; right; left; done].
  destruct (ack_loop _ _ _ _ _ _ _) as [r2 s2] eqn:El.
  eapply ack_loop_spec in El as [Hl Ho];
    [|exact Hfresh|done|unfold begin_ack; cbn; lia
     |unfold begin_ack; cbn; apply lookup_delete_eq
     |unfold begin_ack; cbn; lia].
  assert (r2 <> Diverge) as Hd by (by destruct r2).
  intros Hr. right; right. apply Z.leb_le in Et. split; [done|]. split; [done|].
  assert (r = r2 /\ s' = end_ack (next_cell s) ack_type s2) as [-> ->]
    by (by destruct r2; simplify_eq).
  destruct Hl. cbn in *. split.
  - split; cbn; try congruence; try lia.
    + exact lp_ready0.
    + exact lp_dtype0.
    + rewrite lp_event0. by eapply detach_attach.
    + destruct lp_log0 as (mid & Hlog & Hmid). cbn in Hlog. exists mid.
      split; [|done]. rewrite Hlog. by rewrite <- !app_assoc.
  - unfold ack_outcome, consumed in *. cbn in *. by destruct r2.
Qed.

Lemma acked_fresh msg_type msg_data ack_type s s' :
  acked msg_type msg_data ack_type s s' -> fresh s -> fresh s'.
Proof.
  intros A F. unfold fresh. rewrite (ak_event _ _ _ _ _ A).
  eapply Forall_impl; [exact F|]. intros cb. apply cb_below_mono.
  pose proof (ak_next _ _ _ _ _ A). lia.
Qed.

(** ** Bulk transfer *)

Lemma writes_app l1 l2 : writes (l1 ++ l2) = writes l1 ++ writes l2.
Proof.
  induction l1 as [|a l1 IH]; [done|]. destruct a; cbn; by rewrite ?IH.
Qed.

Lemma bulk_messages_app l1 l2 :
  bulk_messages (l1 ++ l2) = bulk_messages l1 ++ bulk_messages l2.
Proof. unfold bulk_messages. by rewrite writes_app, List.filter_app. Qed.

Lemma bulk_messages_during_wait d :
  forallb during_wait d = true -> bulk_messages d = [].
Proof.
  induction d as [|a d IH]; [done|]. cbn. intros [Ha Hd]%andb_prop.
  specialize (IH Hd). destruct a as [|data| | | | | | |]; try done.
  destruct data as [|k data]; [done|]. cbn in Ha. apply Z.eqb_eq in Ha as ->.
  done.
Qed.

Lemma bulk_messages_acked msg_type msg_data ack_type s s' :
  acked msg_type msg_data ack_type s s' ->
  exists d, log s' = log s ++ d
    /\ bulk_messages d =
       if is_bulk (MessageType.value msg_type :: msg_data)
       then [MessageType.value msg_type :: msg_data] else [].
Proof.
  intros A. destruct (ak_log _ _ _ _ _ A) as (mid & Hlog & Hmid).
  eexists. split; [exact Hlog|].
  change (?a :: ?b :: mid ++ ?c) with ([a] ++ [b] ++ mid ++ c).
  rewrite !bulk_messages_app, (bulk_messages_during_wait mid) by done.
  unfold bulk_messages at 1. cbn -[is_bulk].
  by destruct (is_bulk _).
Qed.

Lemma chunk_count_gt data i :
  16 * Z.of_nat i < len data -> (i < chunk_count data)%nat.
Proof.
  intros H. unfold chunk_count.
  assert (Z.of_nat i + 1 <= (len data + 15) / 16)
    by (apply Z.div_le_lower_bound; lia).
  lia.
Qed.

Lemma chunk_count_le data i :
  len data <= 16 * Z.of_nat i -> (chunk_count data <= i)%nat.
Proof.
  intros H. unfold chunk_count.
  assert ((len data + 15) / 16 < Z.of_nat i + 1)
    by (apply Z.div_lt_upper_bound; lia).
  lia.
Qed.

Lemma bulk_loop_spec data timeout :
  forall fuel i remainingSize offset s r s',
    fresh s ->
    0 <= remainingSize < Z.of_nat fuel ->
    offset + remainingSize = len data ->
    (0 < remainingSize -> offset = 16 * Z.of_nat i) ->
    (remainingSize <= 0 -> (chunk_count data <= i)%nat) ->
    bulk_loop fuel data timeout remainingSize offset s = (r, s') ->
    r <> Diverge /\ fresh s' /\ message_received s' = message_received s
    /\ exists d, log s' = log s ++ d
         /\ (r = Ret tt ->
             bulk_messages d =
             map (chunk_message data) (seq i (chunk_count data - i))).
Proof.
  induction fuel as [|fuel IH];
    intros i remainingSize offset s r s' Hfresh Hfuel Hsum Hoff Hend.
  { lia. }
  cbn [bulk_loop]. destruct (0 <? remainingSize) eqn:E.
  - apply Z.ltb_lt in E. specialize (Hoff E). subst offset.
    unfold bind. destruct (_send_and_ack _ _ _ _ s) as [r1 s1] eqn:Es.
    apply send_and_ack_spec in Es as
      [(-> & -> & _)|[(-> & -> & _)|(_ & _ & A & Ho)]]; [| | |done].
    + intros [= <- <-]. repeat split; try done. exists []. by rewrite app_nil_r.
    + intros [= <- <-]. repeat split; try done. exists []. by rewrite app_nil_r.
    + pose proof (acked_fresh _ _ _ _ _ A Hfresh) as Hfresh1.
      destruct (bulk_messages_acked _ _ _ _ _ A) as (d1 & Hlog1 & Hb1).
      destruct r1 as [m|e|]; [| |done].
      * intros Hloop.
        apply (IH (S i)) in Hloop as (Hd & Hf & Hmr & d2 & Hlog2 & Hb2);
          [|done|unfold PIXELS_MESSAGE_BULK_DATA_SIZE; lia|lia
           |unfold PIXELS_MESSAGE_BULK_DATA_SIZE; lia
           |unfold PIXELS_MESSAGE_BULK_DATA_SIZE; intros ?;
            apply chunk_count_le; lia].
        split; [done|]. split; [done|].
        split; [by rewrite Hmr, (ak_event _ _ _ _ _ A)|].
        exists (d1 ++ d2). split; [by rewrite Hlog2, Hlog1, app_assoc|].
        intros Hr. rewrite bulk_messages_app, Hb1, (Hb2 Hr).
        pose proof (chunk_count_gt data i ltac:(lia)) as Hi.
        replace (chunk_count data - i)%nat with (S (chunk_count data - S i))
          by lia.
        change (is_bulk (MessageType.value MessageType.BulkData :: ?l))
          with true.
        cbn [seq map app]. f_equal.
        unfold chunk_message, chunk_size, chunk_offset.
        replace remainingSize with (len data - 16 * Z.of_nat i) by lia.
        reflexivity.
      * intros [= <- <-]. split; [done|]. split; [done|].
        split; [by rewrite (ak_event _ _ _ _ _ A)|].
        exists d1. split; [done|]. done.
  - intros [= <- <-]. apply Z.ltb_ge in E. specialize (Hend E).
    repeat split; try done. exists []. rewrite app_nil_r. split; [done|].
    intros _. by replace (chunk_count data - i)%nat with 0%nat by lia.
Qed.

(** * The claims *)

(** C9: on every exit path of [wait_for_message] and of [_send_and_ack]
    (normal return, timeout, exception) the callback list of
    [message_received] is, when the call ends, exactly what it was when the
    call began; and both calls do end. *)
Theorem observer_detached_on_every_exit
    timeout msg_type msg_data ack_type wait_type s :
  fresh s ->
  message_received (wait_for_message timeout wait_type s).2 = message_received s
  /\ (wait_for_message timeout wait_type s).1 <> Diverge
  /\ message_received (_send_and_ack msg_type msg_data ack_type timeout s).2
     = message_received s
  /\ (_send_and_ack msg_type msg_data ack_type timeout s).1 <> Diverge.
Proof.
  intros Hfresh.
  destruct (wait_for_message timeout wait_type s) as [r1 s1] eqn:Ew.
  apply wait_for_message_spec in Ew as [W Hd].
  split; [by apply waited_event|]. split; [done|].
  destruct (_send_and_ack msg_type msg_data ack_type timeout s) as [r2 s2] eqn:Es.
  apply send_and_ack_spec in Es as
    [(-> & -> & _)|[(-> & -> & _)|(_ & _ & A & Ho)]]; [done|done| |done].
  split; [exact (ak_event _ _ _ _ _ A)|]. by destruct r2.
Qed.

Lemma observer_detached_on_every_exit_witness :
  fresh listening
  /\ message_received (wait_for_message 10 MessageType._None listening).2
     = message_received listening
  /\ (wait_for_message 10 MessageType._None listening).1 <> Diverge
  /\ message_received
       (_send_and_ack MessageType.BulkSetup [40; 0] MessageType.BulkSetupAck
          10 listening).2
     = message_received listening
  /\ (_send_and_ack MessageType.BulkSetup [40; 0] MessageType.BulkSetupAck
        10 listening).1 <> Diverge.
Proof.
  split.
  - repeat constructor.
  - apply (observer_detached_on_every_exit 10 MessageType.BulkSetup [40; 0]
             MessageType.BulkSetupAck MessageType._None listening).
    repeat constructor.
Defined.


(** ** Dispatch of particular messages *)

Lemma trace_message_known k t payload s :
  MessageType.of_Z k = Some t -> trace_message (k :: payload) s = (Ret tt, s).
Proof.
  intros Hk. unfold trace_message, bind, gets. cbn.
  destruct (_trace s); [|done]. cbn. by rewrite Hk.
Qed.

Lemma unknown_kind_differs k t :
  MessageType.of_Z k = None -> (k =? MessageType.value t) = false.
Proof.
  intros Hk. destruct (k =? MessageType.value t) eqn:E; [|done].
  apply Z.eqb_eq in E. subst k. by destruct t.
Qed.

(** The link after [message_received.notify(msg)]. *)
Lemma process_message_state state face s :
  let msg := [MessageType.value MessageType.State; state; face] in
  let new := if state =? 1 then face + 1 else 0 in
  let s1 := if _face_up s =? new then s
            else with_log (log s ++ [FaceUpChanged new]) (with_face_up new s) in
  _process_message msg s =
  (Ret tt,
   with_cells (deliver (message_received s1) msg (cells s1)) (next_cell s1)
     (with_log (log s1 ++ [MessageReceived msg]) s1)).
Proof.
  cbn zeta. unfold _process_message, bind.
  rewrite (trace_message_known _ MessageType.State) by done.
  unfold handle_by_kind, _update_state, bind, gets, modify, emit.
  cbn -[message_received_notify].
  destruct (_face_up s =? _); cbn -[message_received_notify];
    by rewrite notify_nonempty.
Qed.

(** C7: a dispatched [State] message with [state = 1] and [face = f] sets
    [face_up] to [f + 1], any other [state] sets it to 0;
    [face_up_changed] fires, once and with the new value, exactly when the
    new value differs from the current one; the same message dispatched
    again fires nothing. *)
Theorem state_message_updates_face_up state face s :
  let msg := [MessageType.value MessageType.State; state; face] in
  let new := if state =? 1 then face + 1 else 0 in
  let s1 := (_process_message msg s).2 in
  let s2 := (_process_message msg s1).2 in
  (_process_message msg s).1 = Ret tt
  /\ _face_up s1 = new
  /\ face_events (log s1)
     = face_events (log s) ++ (if _face_up s =? new then [] else [new])
  /\ (_process_message msg s1).1 = Ret tt
  /\ _face_up s2 = new
  /\ face_events (log s2) = face_events (log s1).
Proof.
  cbn zeta. set (new := if state =? 1 then face + 1 else 0).
  assert (forall l1 l2, face_events (l1 ++ l2) = face_events l1 ++ face_events l2)
    as Happ.
  { induction l1 as [|a l1 IH]; intros l2; [done|]. destruct a; cbn; by rewrite ?IH. }
  assert (forall s0,
    (_process_message [MessageType.value MessageType.State; state; face] s0).1
      = Ret tt
    /\ _face_up (_process_message
                  [MessageType.value MessageType.State; state; face] s0).2 = new
    /\ face_events (log (_process_message
                  [MessageType.value MessageType.State; state; face] s0).2)
       = face_events (log s0) ++ (if _face_up s0 =? new then [] else [new]))
    as Hstep.
  { intros s0. rewrite process_message_state. fold new. cbn.
    destruct (_face_up s0 =? new) eqn:E; cbn.
    - apply Z.eqb_eq in E. by rewrite Happ.
    - by rewrite !Happ, app_nil_r. }
  destruct (Hstep s) as (H1 & H2 & H3).
  destruct (Hstep (_process_message
                     [MessageType.value MessageType.State; state; face] s).2)
    as (G1 & G2 & G3).
  repeat split; try done.
  rewrite G3, H2, Z.eqb_refl. by rewrite app_nil_r.
Qed.

(** The scenario of C7: from no face up, [state=1, face=3] fires once with
    the value 4, and the identical message that follows fires nothing. *)
Example state_message_scenario :
  let s0 := session false [] (fun _ => true) in
  let s1 := (_process_message [3; 1; 3] s0).2 in
  let s2 := (_process_message [3; 1; 3] s1).2 in
  face_events (log s1) = [4] /\ face_events (log s2) = [4]
  /\ _face_up s2 = 4.
Proof. by vm_compute. Qed.

Lemma process_message_notify_user timeout ok cancel txt s :
  all_bytes txt = true -> utf8_valid txt = true ->
  let msg := MessageType.value MessageType.NotifyUser
             :: timeout :: ok :: cancel :: txt in
  let go := if negb (negb (ok =? 0) && negb (cancel =? 0)) then true
            else getch_is_return s (prompts s) in
  let s1 := with_log (log s ++ [Write [MessageType.value MessageType.NotifyUserAck;
                                       if go then 1 else 0]])
              (with_prompts (S (prompts s)) s) in
  _process_message msg s =
  (Ret tt,
   with_cells (deliver (message_received s1) msg (cells s1)) (next_cell s1)
     (with_log (log s1 ++ [MessageReceived msg]) s1)).
Proof.
  intros Hb Hu. cbn zeta. unfold _process_message, bind.
  rewrite (trace_message_known _ MessageType.NotifyUser) by done.
  unfold handle_by_kind, _notify_user, bind. cbn -[message_received_notify].
  change (slice (31 :: timeout :: ok :: cancel :: txt) 1 4)
    with [timeout; ok; cancel].
  change (drop 0 txt) with txt. cbn -[message_received_notify].
  rewrite decode_utf8_ok by done. cbn -[message_received_notify].
  destruct (negb (negb (ok =? 0) && negb (cancel =? 0)));
    [|destruct (getch_is_return s (prompts s))];
    cbn -[message_received_notify]; by rewrite notify_nonempty.
Qed.

(** C8: for a dispatched [NotifyUser] message whose flags do not permit
    cancellation ([allowOk = 0] or [allowCancel = 0]), the link answers
    with [NotifyUserAck] carrying 1, whatever the prompt returned; that
    reply is the only thing written. *)
Theorem notify_user_forced_to_continue timeout ok cancel txt s :
  all_bytes txt = true -> utf8_valid txt = true ->
  ok = 0 \/ cancel = 0 ->
  let msg := MessageType.value MessageType.NotifyUser
             :: timeout :: ok :: cancel :: txt in
  (_process_message msg s).1 = Ret tt
  /\ writes (log (_process_message msg s).2)
     = writes (log s) ++ [[MessageType.value MessageType.NotifyUserAck; 1]].
Proof.
  intros Hb Hu Hflags. cbn zeta.
  rewrite process_message_notify_user by done. cbn.
  split; [done|]. rewrite !writes_app. cbn. rewrite app_nil_r.
  by destruct Hflags as [-> | ->]; cbn; rewrite ?andb_false_r.
Qed.

Lemma notify_user_forced_to_continue_witness :
  all_bytes [79; 75; 63] = true /\ utf8_valid [79; 75; 63] = true
  /\ (0 = 0 \/ 1 = 0)
  /\ let msg := MessageType.value MessageType.NotifyUser
                :: 30 :: 0 :: 1 :: [79; 75; 63] in
     let s := session false [] (fun _ => false) in
     (_process_message msg s).1 = Ret tt
     /\ writes (log (_process_message msg s).2)
        = writes (log s) ++ [[MessageType.value MessageType.NotifyUserAck; 1]].
Proof.
  split; [reflexivity|]. split; [reflexivity|]. split; [by left|].
  apply (notify_user_forced_to_continue 30 0 1 [79; 75; 63]
           (session false [] (fun _ => false)));
    [reflexivity|reflexivity|by left].
Defined.

(** C6, as stated, fails: with tracing off, a message whose first byte is
    no [MessageType] is dispatched without any error. *)
Lemma unknown_kind_raises_nothing :
  ~ (forall k payload s,
       MessageType.of_Z k = None ->
       exists e, (_process_message (k :: payload) s).1 = Raise e).
Proof.
  intros H.
  destruct (H 200 [1; 2] (session false [] (fun _ => true)) eq_refl) as [e He].
  vm_compute in He. discriminate.
Qed.

(** C6, amended: for an inbound message whose first byte is no
    [MessageType] value, with tracing off no error is raised: no handler
    runs, no attribute of the link changes, and the message is published
    on [message_received] like any other; with tracing on, the conversion
    [MessageType(msg[0])] of the trace print raises [ValueError] and the
    link is left as it was, the message unpublished. *)
Theorem unknown_kind_is_only_published k payload s :
  MessageType.of_Z k = None ->
  let msg := k :: payload in
  _process_message msg s =
  if _trace s then (Raise ValueError, s)
  else (Ret tt,
        with_cells (deliver (message_received s) msg (cells s)) (next_cell s)
          (with_log (log s ++ [MessageReceived msg]) s)).
Proof.
  intros Hk. cbn zeta. unfold _process_message, bind.
  unfold trace_message at 1. unfold bind, gets. cbn -[handle_by_kind message_received_notify].
  destruct (_trace s); cbn -[handle_by_kind message_received_notify].
  - by rewrite Hk.
  - unfold handle_by_kind, bind. cbn -[MessageType.value message_received_notify].
    rewrite !unknown_kind_differs by done. cbn -[message_received_notify].
    by rewrite notify_nonempty.
Qed.

Lemma unknown_kind_is_only_published_witness :
  MessageType.of_Z 200 = None
  /\ let s := session false [] (fun _ => true) in
     let msg := 200 :: [1; 2] in
     _process_message msg s =
     if _trace s then (Raise ValueError, s)
     else (Ret tt,
           with_cells (deliver (message_received s) msg (cells s)) (next_cell s)
             (with_log (log s ++ [MessageReceived msg]) s)).
Proof.
  split; [reflexivity|].
  apply (unknown_kind_is_only_published 200 [1; 2]
           (session false [] (fun _ => true))).
  reflexivity.
Defined.

(** C1, as stated, fails: in a call of [_send_and_ack] the observer is not
    attached before the request is written; the write comes first. *)
Lemma observer_attached_after_write :
  let s := session false [] (fun _ => true) in
  let s' := (_send_and_ack MessageType.BulkSetup [40; 0]
               MessageType.BulkSetupAck 10 s).2 in
  ~ precedes (Attach (ack_on_message 0 MessageType.BulkSetupAck))
             (Write [5; 40; 0]) (log s')
  /\ precedes (Write [5; 40; 0])
              (Attach (ack_on_message 0 MessageType.BulkSetupAck)) (log s').
Proof.
  cbn zeta. set (l := log _). vm_compute in l. subst l. split.
  - intros (l1 & l2 & l3 & H). destruct l1 as [|x l1]; [done|].
    injection H as _ H.
    assert (In (Write [5; 40; 0]) (l1 ++ Attach (ack_on_message 0 MessageType.BulkSetupAck) :: l2 ++ Write [5; 40; 0] :: l3)) as Hin.
    { apply in_or_app. right. right. apply in_or_app. right. by left. }
    rewrite <- H in Hin. cbn in Hin. intuition discriminate.
  - by exists [], [], [Attach (wait_on_message 1); Detach (wait_on_message 1);
                      Detach (ack_on_message 0 MessageType.BulkSetupAck)].
Qed.

(** ** The claims on bulk transfer *)

Lemma length_slice data a b :
  0 <= a -> a <= b -> b <= len data -> len (slice data a b) = b - a.
Proof.
  unfold slice, len. intros. rewrite length_take, length_drop. lia.
Qed.

Lemma upload_unfold data timeout s r s' :
  fresh s ->
  _upload_bulk_data data timeout s = (r, s') ->
  r = Ret tt ->
  0 < len data /\ 0 <= timeout
  /\ exists s1 m,
      _send_and_ack MessageType.BulkSetup (integer_to_bytes (len data) 2)
        MessageType.BulkSetupAck timeout s = (Ret m, s1)
      /\ bulk_loop (S (length data)) data timeout (len data) 0 s1 = (Ret tt, s').
Proof.
  intros Hfresh. unfold _upload_bulk_data, assert, bind.
  destruct (len data =? 0) eqn:El; cbn -[bulk_loop]; [by intros [= <- <-]|].
  destruct (0 <=? timeout) eqn:Et; cbn -[bulk_loop]; [|by intros [= <- <-]].
  destruct (_send_and_ack _ _ _ _ s) as [[m|e|] s1];
    [|by intros [= <- <-]|by intros [= <- <-]].
  intros Hl ->. apply Z.eqb_neq in El. apply Z.leb_le in Et.
  split; [unfold len in *; lia|]. split; [done|]. by exists s1, m.
Qed.

(** C3: an upload of a payload of length [L] (at most 65535, the largest a
    2-byte length can carry) that is acknowledged throughout sends, among
    its bulk-transfer messages and in this order, one [BulkSetup] carrying
    [L] as two bytes, low byte first, then [ceil(L / 16)] [BulkData]
    messages; chunk [i] is [[size; offsetLow; offsetHigh] ++ bytes] with
    [size = min(remaining, 16)] bytes taken at its offset; offsets start
    at 0 and grow by the size of each chunk, and the last offset plus the
    last size is [L]; for [L = 40] the sizes are [16, 16, 8] at the offsets
    [0, 16, 32]. *)
Theorem upload_sends_setup_then_chunks data timeout s s' :
  fresh s -> len data <= 65535 ->
  _upload_bulk_data data timeout s = (Ret tt, s') ->
  let L := len data in
  let n := chunk_count data in
  0 < L
  /\ (exists d, log s' = log s ++ d
       /\ bulk_messages d =
          (MessageType.value MessageType.BulkSetup :: [L mod 256; L / 256])
          :: map (chunk_message data) (seq 0 n))
  /\ L mod 256 + 256 * (L / 256) = L /\ 0 <= L / 256 < 256
  /\ 16 * (Z.of_nat n - 1) < L <= 16 * Z.of_nat n
  /\ chunk_offset 0 = 0
  /\ (forall i, (i < n)%nat ->
        chunk_size data i = Z.min (L - chunk_offset i) 16
        /\ 1 <= chunk_size data i
        /\ len (slice data (chunk_offset i) (chunk_offset i + chunk_size data i))
           = chunk_size data i
        /\ chunk_offset (S i) = chunk_offset i + 16
        /\ ((S i < n)%nat -> chunk_size data i = 16)
        /\ (S i = n -> chunk_offset i + chunk_size data i = L))
  /\ (L = 40 ->
      map (chunk_size data) (seq 0 n) = [16; 16; 8]
      /\ map chunk_offset (seq 0 n) = [0; 16; 32]).
Proof.
  intros Hfresh Hmax Hup. cbn zeta.
  destruct (upload_unfold _ _ _ _ _ Hfresh Hup eq_refl)
    as (Hpos & Ht & s1 & m & Hsetup & Hloop).
  assert (16 * (Z.of_nat (chunk_count data) - 1) < len data
          <= 16 * Z.of_nat (chunk_count data)) as Hceil.
  { unfold chunk_count. rewrite Z2Nat.id by (apply Z.div_pos; lia).
    pose proof (Z.div_mod (len data + 15) 16 ltac:(lia)).
    pose proof (Z.mod_pos_bound (len data + 15) 16 ltac:(lia)). lia. }
  split; [done|]. split.
  { apply send_and_ack_spec in Hsetup as
      [(? & _)|[(? & _)|(_ & _ & A & _)]]; [done|done| |done].
    destruct (bulk_messages_acked _ _ _ _ _ A) as (d1 & Hlog1 & Hb1).
    apply (bulk_loop_spec data timeout _ 0%nat) in Hloop
      as (_ & _ & _ & d2 & Hlog2 & Hb2);
      [|by eapply acked_fresh|unfold len in *; lia|lia|intros; lia|intros; lia].
    exists (d1 ++ d2). split; [by rewrite Hlog2, Hlog1, app_assoc|].
    rewrite bulk_messages_app, Hb1, (Hb2 eq_refl), Nat.sub_0_r.
    cbn [app]. change (is_bulk (MessageType.value MessageType.BulkSetup :: ?l))
      with true. cbn [app]. f_equal. f_equal.
    change (integer_to_bytes (len data) 2)
      with [len data mod 256; len data / 256 mod 256].
    f_equal. f_equal. apply Z.mod_small. split.
    - apply Z.div_pos; lia.
    - apply Z.div_lt_upper_bound; lia. }
  split; [pose proof (Z.div_mod (len data) 256 ltac:(lia)); lia|].
  split; [split; [apply Z.div_pos; lia|apply Z.div_lt_upper_bound; lia]|].
  split; [done|]. split; [done|]. split.
  - intros i Hi. unfold chunk_size, chunk_offset.
    assert (16 * Z.of_nat i < len data) by lia.
    split; [reflexivity|]. split; [lia|]. split.
    { rewrite length_slice; lia. }
    split; [lia|]. split; lia.
  - intros HL. unfold chunk_count, chunk_size, chunk_offset. rewrite HL.
    by vm_compute.
Qed.

Lemma upload_sends_setup_then_chunks_witness :
  let s' := (_upload_bulk_data payload40 10 acknowledging).2 in
  fresh acknowledging /\ len payload40 <= 65535
  /\ _upload_bulk_data payload40 10 acknowledging = (Ret tt, s')
  /\ exists d, log s' = log acknowledging ++ d
       /\ bulk_messages d =
          (MessageType.value MessageType.BulkSetup :: [40; 0])
          :: map (chunk_message payload40) (seq 0 3).
Proof.
  cbn zeta.
  assert (fresh acknowledging) as Hf by repeat constructor.
  assert (len payload40 <= 65535) as Hm by (vm_compute; discriminate).
  assert (_upload_bulk_data payload40 10 acknowledging
          = (Ret tt, (_upload_bulk_data payload40 10 acknowledging).2)) as Hr
    by (vm_compute; reflexivity).
  split; [exact Hf|]. split; [exact Hm|]. split; [exact Hr|].
  exact (proj1 (proj2 (upload_sends_setup_then_chunks _ _ _ _ Hf Hm Hr))).
Defined.

(** The upload always ends: the bounds given to its loops are never
    reached. *)
Lemma upload_terminates data timeout s :
  fresh s -> (_upload_bulk_data data timeout s).1 <> Diverge.
Proof.
  intros Hfresh. unfold _upload_bulk_data, assert, bind.
  destruct (len data =? 0) eqn:El; cbn -[bulk_loop]; [done|].
  destruct (0 <=? timeout); cbn -[bulk_loop]; [|done].
  destruct (_send_and_ack _ _ _ _ s) as [r1 s1] eqn:Es.
  apply send_and_ack_spec in Es as
    [(-> & _)|[(-> & _)|(_ & _ & A & Ho)]]; [done|done| |done].
  destruct r1 as [m|e|]; [|done|done].
  destruct (bulk_loop _ _ _ _ _ s1) as [r2 s2] eqn:Hloop. cbn [fst].
  apply Z.eqb_neq in El.
  apply (bulk_loop_spec data timeout _ 0%nat) in Hloop as (Hd & _);
    [done|by eapply acked_fresh|unfold len in *; lia|lia|intros; lia
     |unfold len in *; intros; lia].
Qed.


Lemma sent_app k l1 l2 : sent k (l1 ++ l2) = sent k l1 ++ sent k l2.
Proof. unfold sent. by rewrite writes_app, List.filter_app. Qed.

Lemma sent_during_wait k d :
  MessageType.value k <> MessageType.value MessageType.NotifyUserAck ->
  forallb during_wait d = true -> sent k d = [].
Proof.
  intros Hk. induction d as [|a d IH]; [done|]. cbn. intros [Ha Hd]%andb_prop.
  specialize (IH Hd). destruct a as [|data| | | | | | |]; try done.
  destruct data as [|b data]; [done|]. cbn in Ha. apply Z.eqb_eq in Ha as ->.
  unfold sent in *. cbn [writes List.filter].
  destruct (kind_is k (32 :: data)) eqn:E; [|done].
  unfold kind_is in E. apply Z.eqb_eq in E. by rewrite <- E in Hk.
Qed.

(** ** Who sets the device type *)

Lemma keeps_ret {A} (a : A) : keeps_dtype (ret a).
Proof. done. Qed.

Lemma keeps_raise {A} e : keeps_dtype (@raise A e).
Proof. done. Qed.

Lemma keeps_gets {A} (f : PixelLink -> A) : keeps_dtype (gets f).
Proof. done. Qed.

Lemma keeps_emit a : keeps_dtype (emit a).
Proof. done. Qed.

Lemma keeps_bind {A B} (m : M A) (f : A -> M B) :
  keeps_dtype m -> (forall a, keeps_dtype (f a)) -> keeps_dtype (bind m f).
Proof.
  intros Hm Hf s. unfold bind. specialize (Hm s).
  destruct (m s) as [[a|e|] s1]; cbn in *; try done.
  by rewrite Hf.
Qed.

Ltac keeps_step :=
  match goal with
  | |- keeps_dtype (bind _ _) => apply keeps_bind; [|intros ?]
  | |- keeps_dtype (ret _) => apply keeps_ret
  | |- keeps_dtype (raise _) => apply keeps_raise
  | |- keeps_dtype (gets _) => apply keeps_gets
  | |- keeps_dtype (emit _) => apply keeps_emit
  | |- keeps_dtype (modify (with_face_up _)) => by intros ?
  | |- keeps_dtype (modify (with_battery_voltage _)) => by intros ?
  | |- keeps_dtype _get_continue => by intros ?
  | |- keeps_dtype (if ?b then _ else _) => destruct b
  | |- keeps_dtype (match ?x with _ => _ end) => destruct x
  end.

Lemma keeps_handlers :
  (forall l, keeps_dtype (decode_utf8 l))
  /\ (forall l, keeps_dtype (voltage <- unpack_float l;;
                               _update_battery_voltage voltage))
  /\ (forall state face, keeps_dtype (_update_state state face))
  /\ (forall msg, keeps_dtype (_notify_user msg;; ret tt)).
Proof.
  repeat split; intros;
    unfold decode_utf8, unpack_float, _update_battery_voltage, _update_state,
      _notify_user, _send, assert, item0;
    repeat (keeps_step; unfold decode_utf8).
Qed.

Lemma handle_by_kind_dtype msg s :
  _dtype (handle_by_kind msg s).2 = _dtype s
  \/ identified_by msg (handle_by_kind msg s).2.
Proof.
  destruct keeps_handlers as (K1 & K2 & K3 & K4).
  unfold handle_by_kind. destruct msg as [|k payload]; [by left|].
  cbn [item0]. unfold bind at 1, ret at 1.
  destruct (k =? MessageType.value MessageType.IAmADie) eqn:E.
  { apply Z.eqb_eq in E. subst k. unfold bind, gets, modify. cbn.
    destruct (dtype_unset (_dtype s)); [|by left].
    destruct payload as [|v rest]; [by left|]. cbn.
    destruct (DiceType.of_Z v) as [d|] eqn:Ed; [|by left].
    right. by exists v, rest, d. }
  left.
  destruct (k =? MessageType.value MessageType.DebugLog); [apply K1|].
  destruct (k =? MessageType.value MessageType.BatteryLevel); [apply K2|].
  destruct (k =? MessageType.value MessageType.State).
  { destruct (tl (k :: payload)) as [|st [|face [|]]]; try done. apply K3. }
  destruct (k =? MessageType.value MessageType.NotifyUser); [apply K4|done].
Qed.

Lemma trace_message_state msg s : (trace_message msg s).2 = s.
Proof.
  unfold trace_message, bind, gets. cbn. destruct (_trace s); [|done].
  destruct msg as [|k l]; [done|]. cbn. by destruct (MessageType.of_Z k).
Qed.

Lemma process_message_dtype msg s :
  _dtype (_process_message msg s).2 = _dtype s
  \/ identified_by msg (_process_message msg s).2.
Proof.
  unfold _process_message, bind.
  pose proof (trace_message_state msg s) as Ht.
  destruct (trace_message msg s) as [[[]|e|] s1]; cbn in Ht; subst s1;
    [|by left|by left].
  pose proof (handle_by_kind_dtype msg s) as Hh.
  destruct (handle_by_kind msg s) as [[[]|e|] s2] eqn:Ek; cbn [snd] in *;
    [|done|done].
  destruct msg as [|b l]; [by vm_compute in Ek|].
  rewrite notify_nonempty. cbn [snd].
  destruct Hh as [Hh|(v & rest & d & ? & ? & ?)]; [by left|].
  right. by exists v, rest, d.
Qed.

Lemma wait_for_message_dtype timeout msg_type s :
  _dtype (wait_for_message timeout msg_type s).2 = _dtype s
  \/ exists delay data,
       arrives_within timeout s = Some (delay, data)
       /\ identified_by data (wait_for_message timeout msg_type s).2.
Proof.
  rewrite wait_for_message_unfold. cbn zeta.
  destruct (arrives_within timeout s) as [[delay data]|]; [|by left].
  pose proof (process_message_dtype data
                (arrive delay data (tl (pending s)) (begin_wait s))) as Hp.
  destruct (_process_message data _) as [[[]|e|] s2]; cbn [snd] in *.
  - destruct Hp as [Hp|(v & rest & d & ? & ? & ?)]; [by left|].
    right. exists delay, data. split; [done|]. by exists v, rest, d.
  - destruct Hp as [Hp|(v & rest & d & ? & ? & ?)]; [by left|].
    right. exists delay, data. split; [done|]. by exists v, rest, d.
  - destruct Hp as [Hp|(v & rest & d & ? & ? & ?)]; [by left|].
    right. exists delay, data. split; [done|]. by exists v, rest, d.
Qed.

(** ** Construction *)

Lemma process_message_i_am_a_die v rest d s :
  dtype_unset (_dtype s) = true -> DiceType.of_Z v = Some d ->
  let msg := MessageType.value MessageType.IAmADie :: v :: rest in
  _process_message msg s =
  (Ret tt,
   with_cells (deliver (message_received s) msg (cells s)) (next_cell s)
     (with_log (log s ++ [MessageReceived msg]) (with_dtype (Some d) s))).
Proof.
  intros Hu Hd. cbn zeta. unfold _process_message, bind.
  rewrite (trace_message_known _ MessageType.IAmADie) by done.
  unfold handle_by_kind, bind, gets, modify. cbn -[message_received_notify].
  rewrite Hu, Hd. cbn -[message_received_notify]. by rewrite notify_nonempty.
Qed.

Lemma during_wait_no_disconnect d :
  forallb during_wait d = true -> ~ In Disconnect d.
Proof.
  induction d as [|a d IH]; [by intros _ []|]. cbn.
  intros [Ha Hd]%andb_prop [->|Hin]; [done|by apply IH].
Qed.

(** C2, as stated, fails: when the [BatteryLevel] reply never arrives,
    construction still returns, and the transport is not disconnected. *)
Lemma construction_succeeds_without_battery_level :
  let s0 := blank false [(10, [2; 2])] (fun _ => true) in
  let r := (__init__ (mkScanEntry true true true) s0).1 in
  let s' := (__init__ (mkScanEntry true true true) s0).2 in
  Forall (fun p => kind_is MessageType.BatteryLevel p.2 = false) (pending s0)
  /\ r = Ret tt
  /\ ~ In Disconnect (log s')
  /\ _battery_voltage s' = Some minus_one.
Proof.
  cbn zeta. split; [by repeat constructor|]. split; [by vm_compute|].
  split; [|by vm_compute].
  set (l := log _). vm_compute in l. subst l. cbn. intuition discriminate.
Qed.

Lemma init_unfold entry s :
  __init__ entry s =
  if has_service entry then
    if has_subscriber entry then
      if has_writer entry then
        match wait_for_message (1 * second) MessageType.IAmADie (greeted s) with
        | (Ret _, s2) =>
          if dtype_unset (_dtype s2)
          then (Raise Exception_type_not_identified, hung_up s2)
          else
            match wait_for_message (1 * second) MessageType.BatteryLevel
                    (asked s2) with
            | (Ret _, s5) => (Ret tt, s5)
            | (Raise e, s5) => (Raise e, hung_up s5)
            | (Diverge, s5) => (Diverge, s5)
            end
        | (Raise e, s2) => (Raise e, hung_up s2)
        | (Diverge, s2) => (Diverge, s2)
        end
      else (Raise IndexError, hung_up s)
    else (Raise IndexError, hung_up s)
  else (Raise Exception_service_not_found, hung_up s).
Proof.
  unfold __init__, try_except_reraise, refresh_battery_voltage, _send, emit,
    modify, gets, hung_up.
  destruct (has_service entry); [|done].
  destruct (has_subscriber entry); [|done].
  destruct (has_writer entry); [|reflexivity].
  unfold bind. cbn -[wait_for_message second].
  match goal with
  | |- context [wait_for_message _ MessageType.IAmADie ?x] =>
    change x with (greeted s)
  end.
  destruct (wait_for_message _ _ (greeted s)) as [[got|e|] s2];
    cbn -[wait_for_message second]; [|done|done].
  destruct (dtype_unset (_dtype s2)); cbn -[wait_for_message second]; [done|].
  match goal with
  | |- context [wait_for_message _ MessageType.BatteryLevel ?x] =>
    change x with (asked s2)
  end.
  by destruct (wait_for_message _ _ (asked s2)) as [[got'|e|] s5].
Qed.

(** * Further properties of the code *)

(** ** The enumerations *)

(** X1: the two enumerations convert to and from their byte without loss:
    [MessageType(v)] is the member [k] exactly when [k]'s value is [v], and
    likewise for [DiceType]; so no two members share a value, and every
    value fits the kind byte of a message. *)
Theorem enum_value_round_trip k d v :
  (MessageType.of_Z v = Some k <-> MessageType.value k = v)
  /\ (DiceType.of_Z v = Some d <-> DiceType.value d = v)
  /\ is_byte (MessageType.value k) = true
  /\ kind_is k (MessageType.value k :: []) = true.
Proof.
  split; [|split; [|split]].
  - split.
    + intros H. destruct v as [|p|p]; cbn in H; [by simplify_eq|..|done].
      do 6 (try destruct p as [p|p|]); by simplify_eq.
    + intros <-. by destruct k.
  - split.
    + intros H. destruct v as [|p|p]; cbn in H; [by simplify_eq|..|done].
      do 2 (try destruct p as [p|p|]); by simplify_eq.
    + intros <-. by destruct d.
  - by destruct k.
  - cbn. apply Z.eqb_refl.
Qed.

(** ** Battery readings *)

Lemma battery_events_app l1 l2 :
  battery_events (l1 ++ l2) = battery_events l1 ++ battery_events l2.
Proof.
  induction l1 as [|a l1 IH]; [done|]. destruct a; cbn; by rewrite ?IH.
Qed.

Lemma float_ne_same v : float_ne v v = float_is_nan v.
Proof.
  unfold float_ne. rewrite Z.eqb_refl. cbn. by destruct (float_is_nan v).
Qed.

Lemma process_message_battery_level b0 b1 b2 b3 cur s :
  all_bytes [b0; b1; b2; b3] = true ->
  _battery_voltage s = Some cur ->
  let msg := [MessageType.value MessageType.BatteryLevel; b0; b1; b2; b3] in
  let v := float_of_le_bytes b0 b1 b2 b3 in
  let s1 := if float_ne cur v
            then with_log (log s ++ [BatteryVoltageChanged v])
                   (with_battery_voltage (Some v) s)
            else s in
  _process_message msg s =
  (Ret tt,
   with_cells (deliver (message_received s1) msg (cells s1)) (next_cell s1)
     (with_log (log s1 ++ [MessageReceived msg]) s1)).
Proof.
  intros Hb Hcur. cbn zeta. unfold _process_message, bind.
  rewrite (trace_message_known _ MessageType.BatteryLevel) by done.
  unfold handle_by_kind, unpack_float, _update_battery_voltage, bind, gets,
    modify, emit.
  cbn -[message_received_notify all_bytes float_ne float_of_le_bytes].
  rewrite Hb. cbn -[message_received_notify float_ne float_of_le_bytes].
  rewrite Hcur.
  destruct (float_ne cur _);
    cbn -[message_received_notify float_ne float_of_le_bytes];
    by rewrite notify_nonempty.
Qed.

(** X2: on a constructed link, a [BatteryLevel] message carrying the four
    bytes of a float sets the battery voltage to that float and fires
    [battery_voltage_changed] with it exactly when it differs, as a float,
    from the current voltage; dispatched a second time, the same message
    fires again only if the reading is a NaN, which differs from itself. *)
Theorem battery_level_updates_voltage b0 b1 b2 b3 cur s :
  all_bytes [b0; b1; b2; b3] = true ->
  _battery_voltage s = Some cur ->
  let msg := [MessageType.value MessageType.BatteryLevel; b0; b1; b2; b3] in
  let v := float_of_le_bytes b0 b1 b2 b3 in
  let s1 := (_process_message msg s).2 in
  let s2 := (_process_message msg s1).2 in
  (_process_message msg s).1 = Ret tt
  /\ _battery_voltage s1 = Some (if float_ne cur v then v else cur)
  /\ battery_events (log s1)
     = battery_events (log s) ++ (if float_ne cur v then [v] else [])
  /\ (_process_message msg s1).1 = Ret tt
  /\ battery_events (log s2)
     = battery_events (log s1)
       ++ (if float_ne cur v && float_is_nan v then [v] else []).
Proof.
  intros Hb Hcur. cbn zeta.
  set (v := float_of_le_bytes b0 b1 b2 b3).
  rewrite (process_message_battery_level b0 b1 b2 b3 cur s Hb Hcur).
  fold v. cbn [fst snd].
  destruct (float_ne cur v) eqn:Ene.
  - cbn [_battery_voltage with_cells with_log with_battery_voltage log].
    rewrite (process_message_battery_level b0 b1 b2 b3 v) by done.
    fold v. rewrite float_ne_same. cbn [fst snd andb].
    destruct (float_is_nan v); cbn; rewrite !battery_events_app; cbn;
      by rewrite ?app_nil_r.
  - cbn [_battery_voltage with_cells with_log with_battery_voltage log].
    rewrite (process_message_battery_level b0 b1 b2 b3 cur) by done.
    fold v. rewrite Ene. cbn. rewrite !battery_events_app. cbn.
    by rewrite ?app_nil_r.
Qed.

Lemma battery_level_updates_voltage_witness :
  all_bytes [0; 0; 128; 64] = true
  /\ _battery_voltage measuring = Some minus_one
  /\ let msg := [MessageType.value MessageType.BatteryLevel; 0; 0; 128; 64] in
     let v := float_of_le_bytes 0 0 128 64 in
     let s1 := (_process_message msg measuring).2 in
     let s2 := (_process_message msg s1).2 in
     (_process_message msg measuring).1 = Ret tt
     /\ _battery_voltage s1 = Some (if float_ne minus_one v then v else minus_one)
     /\ battery_events (log s1)
        = battery_events (log measuring)
          ++ (if float_ne minus_one v then [v] else [])
     /\ (_process_message msg s1).1 = Ret tt
     /\ battery_events (log s2)
        = battery_events (log s1)
          ++ (if float_ne minus_one v && float_is_nan v then [v] else []).
Proof.
  split; [reflexivity|]. split; [reflexivity|].
  apply (battery_level_updates_voltage 0 0 128 64 minus_one measuring);
    reflexivity.
Defined.

(** ** The user prompt *)

(** X3: for a dispatched [NotifyUser] message whose two flags are both
    non-zero, the prompt decides: it is asked exactly once and the reply
    written is [NotifyUserAck] with 1 if it answered to continue and 0 if
    not. *)
Theorem notify_user_follows_prompt timeout ok cancel txt s :
  all_bytes txt = true -> utf8_valid txt = true ->
  ok <> 0 -> cancel <> 0 ->
  let msg := MessageType.value MessageType.NotifyUser
             :: timeout :: ok :: cancel :: txt in
  let s' := (_process_message msg s).2 in
  (_process_message msg s).1 = Ret tt
  /\ writes (log s')
     = writes (log s)
       ++ [[MessageType.value MessageType.NotifyUserAck;
            if getch_is_return s (prompts s) then 1 else 0]]
  /\ prompts s' = S (prompts s).
Proof.
  intros Hb Hu Hok Hcancel. cbn zeta.
  rewrite process_message_notify_user by done. cbn.
  apply Z.eqb_neq in Hok, Hcancel. rewrite Hok, Hcancel. cbn.
  split; [done|]. split; [|done]. rewrite !writes_app. cbn.
  by rewrite app_nil_r.
Qed.

Lemma notify_user_follows_prompt_witness :
  all_bytes [79; 75; 63] = true /\ utf8_valid [79; 75; 63] = true
  /\ 1 <> 0 /\ 1 <> 0
  /\ let s := session false [] (fun n => Nat.even n) in
     let msg := MessageType.value MessageType.NotifyUser
                :: 30 :: 1 :: 1 :: [79; 75; 63] in
     let s' := (_process_message msg s).2 in
     (_process_message msg s).1 = Ret tt
     /\ writes (log s')
        = writes (log s)
          ++ [[MessageType.value MessageType.NotifyUserAck;
               if getch_is_return s (prompts s) then 1 else 0]]
     /\ prompts s' = S (prompts s).
Proof.
  split; [reflexivity|]. split; [reflexivity|].
  split; [discriminate|]. split; [discriminate|].
  apply (notify_user_follows_prompt 30 1 1 [79; 75; 63]
           (session false [] (fun n => Nat.even n)));
    [reflexivity|reflexivity|discriminate|discriminate].
Defined.

(** X4: a [NotifyUser] message that is too short to hold the timeout and
    the two flags raises [ValueError], and one whose text is not UTF-8
    raises [UnicodeDecodeError]; in both cases the prompt is not asked,
    nothing is written to the die and the message is not published: the
    link is left exactly as it was. *)
Theorem notify_user_rejects_malformed payload s :
  let msg := MessageType.value MessageType.NotifyUser :: payload in
  all_bytes payload = true ->
  (Nat.ltb (length payload) 3 = true ->
   _process_message msg s = (Raise ValueError, s))
  /\ (Nat.leb 3 (length payload) = true ->
      utf8_valid (skipn 3 payload) = false ->
      _process_message msg s = (Raise UnicodeDecodeError, s)).
Proof.
  cbn zeta. intros Hb.
  assert (forall r, handle_by_kind (31 :: payload) s = (Raise r, s) ->
          _process_message (31 :: payload) s = (Raise r, s)) as Hp.
  { intros r Hr. unfold _process_message, bind.
    rewrite (trace_message_known _ MessageType.NotifyUser) by done.
    by rewrite Hr. }
  split.
  - intros Hlen. apply Hp.
    destruct payload as [|t [|ok [|cancel txt]]]; try done.
  - intros Hlen Hutf. apply Hp.
    destruct payload as [|t [|ok [|cancel txt]]]; try done.
    cbn in Hb. apply andb_prop in Hb as [_ Hb]. apply andb_prop in Hb as [_ Hb].
    apply andb_prop in Hb as [_ Hb].
    unfold handle_by_kind, _notify_user, bind. cbn.
    change (slice (31 :: t :: ok :: cancel :: txt) 1 4) with [t; ok; cancel].
    change (drop 0 txt) with txt in *. cbn.
    change (drop 3 (t :: ok :: cancel :: txt)) with txt in Hutf.
    unfold decode_utf8, all_bytes. by rewrite Hb, Hutf.
Qed.

Lemma notify_user_rejects_malformed_witness :
  let s := session true [] (fun _ => true) in
  all_bytes [30; 1; 1; 255] = true
  /\ Nat.leb 3 (length [30; 1; 1; 255]) = true
  /\ utf8_valid (skipn 3 [30; 1; 1; 255]) = false
  /\ _process_message
       (MessageType.value MessageType.NotifyUser :: [30; 1; 1; 255]) s
     = (Raise UnicodeDecodeError, s).
Proof.
  cbn zeta. split; [reflexivity|]. split; [reflexivity|]. split; [reflexivity|].
  exact (proj2 (notify_user_rejects_malformed [30; 1; 1; 255]
                  (session true [] (fun _ => true)) eq_refl)
           eq_refl eq_refl).
Defined.

(** ** Payloads of the wrong length *)

(** X5: the dispatcher does not check payload lengths, the handlers fail
    on them: an empty message raises [IndexError], an [IAmADie] without a
    type byte raises [IndexError] on a link not yet identified, a [State]
    message whose payload is not two bytes raises [TypeError], and a
    [BatteryLevel] whose payload is not four bytes raises [struct.error];
    each time the link is left exactly as it was, the message
    unpublished. *)
Theorem wrong_length_payload_raises payload s :
  all_bytes payload = true ->
  _process_message [] s = (Raise IndexError, s)
  /\ (dtype_unset (_dtype s) = true ->
      _process_message [MessageType.value MessageType.IAmADie] s
      = (Raise IndexError, s))
  /\ (length payload <> 2%nat ->
      _process_message (MessageType.value MessageType.State :: payload) s
      = (Raise TypeError, s))
  /\ (length payload <> 4%nat ->
      _process_message (MessageType.value MessageType.BatteryLevel :: payload) s
      = (Raise struct_error, s)).
Proof.
  intros Hb. split; [|split; [|split]].
  - unfold _process_message, bind, trace_message, gets. cbn.
    by destruct (_trace s).
  - intros Hu. unfold _process_message, bind.
    rewrite (trace_message_known _ MessageType.IAmADie) by done.
    unfold handle_by_kind, bind, gets. cbn. by rewrite Hu.
  - intros Hlen. unfold _process_message, bind.
    rewrite (trace_message_known _ MessageType.State) by done.
    unfold handle_by_kind, bind. cbn.
    by destruct payload as [|st [|face [|]]].
  - intros Hlen. unfold _process_message, bind.
    rewrite (trace_message_known _ MessageType.BatteryLevel) by done.
    unfold handle_by_kind, unpack_float, bind.
    cbn -[all_bytes]. rewrite Hb.
    by destruct payload as [|b0 [|b1 [|b2 [|b3 [|]]]]].
Qed.

Lemma wrong_length_payload_raises_witness :
  let s := session false [] (fun _ => true) in
  all_bytes [1] = true /\ length [1] <> 2%nat
  /\ _process_message (MessageType.value MessageType.State :: [1]) s
     = (Raise TypeError, s).
Proof.
  cbn zeta. split; [reflexivity|]. split; [discriminate|].
  apply (wrong_length_payload_raises [1] (session false [] (fun _ => true))
           eq_refl).
  discriminate.
Defined.

(** ** A battery reading during identification *)

Lemma process_message_battery_level_unassigned b0 b1 b2 b3 s :
  all_bytes [b0; b1; b2; b3] = true ->
  _battery_voltage s = None ->
  _process_message [MessageType.value MessageType.BatteryLevel; b0; b1; b2; b3] s
  = (Raise AttributeError, s).
Proof.
  intros Hb Hcur. unfold _process_message, bind.
  rewrite (trace_message_known _ MessageType.BatteryLevel) by done.
  unfold handle_by_kind, unpack_float, _update_battery_voltage, bind, gets.
  cbn -[all_bytes float_of_le_bytes]. rewrite Hb.
  cbn -[float_of_le_bytes]. by rewrite Hcur.
Qed.

(** X6: [__init__] assigns [_battery_voltage] only after the first wait, so
    a [BatteryLevel] reading that is the notification of that first wait
    makes its handler raise [AttributeError]: construction disconnects and
    fails with that exception, whatever follows. *)
Theorem battery_level_during_identification_fails
    entry tracing delay b0 b1 b2 b3 tail answers :
  has_service entry = true -> has_subscriber entry = true ->
  has_writer entry = true ->
  all_bytes [b0; b1; b2; b3] = true -> delay <= 1 * second ->
  let s0 := blank tracing
              ((delay, [MessageType.value MessageType.BatteryLevel;
                        b0; b1; b2; b3]) :: tail) answers in
  (__init__ entry s0).1 = Raise AttributeError
  /\ (exists l, log (__init__ entry s0).2 = l ++ [Disconnect])
  /\ message_received (__init__ entry s0).2 = []
  /\ pending (__init__ entry s0).2 = tail.
Proof.
  intros Hs Hsub Hw Hb Hdelay. cbn zeta.
  rewrite init_unfold, Hs, Hsub, Hw. rewrite wait_for_message_unfold. cbn zeta.
  match goal with
  | |- context [arrives_within ?t ?st] =>
    assert (arrives_within t st
            = Some (delay, [MessageType.value MessageType.BatteryLevel;
                            b0; b1; b2; b3])) as ->
  end.
  { unfold arrives_within. cbn -[second]. apply Z.leb_le in Hdelay.
    by rewrite Hdelay. }
  rewrite process_message_battery_level_unassigned by done.
  cbn. split; [done|]. split; [|done].
  by exists [Subscribe; Write [1]; Attach (wait_on_message 0);
             Notification [28; b0; b1; b2; b3]; Detach (wait_on_message 0)].
Qed.

Lemma battery_level_during_identification_fails_witness :
  let entry := mkScanEntry true true true in
  let s0 := blank false
              ((10, [MessageType.value MessageType.BatteryLevel; 0; 0; 128; 64])
               :: [(5, [2; 2])]) (fun _ => true) in
  has_service entry = true /\ has_subscriber entry = true
  /\ has_writer entry = true
  /\ all_bytes [0; 0; 128; 64] = true /\ 10 <= 1 * second
  /\ (__init__ entry s0).1 = Raise AttributeError
  /\ (exists l, log (__init__ entry s0).2 = l ++ [Disconnect])
  /\ message_received (__init__ entry s0).2 = []
  /\ pending (__init__ entry s0).2 = [(5, [2; 2])].
Proof.
  cbn zeta.
  assert (10 <= 1 * second) as Hd by (vm_compute; discriminate).
  do 4 (split; [reflexivity|]). split; [exact Hd|].
  exact (battery_level_during_identification_fails
           (mkScanEntry true true true) false 10 0 0 128 64 [(5, [2; 2])]
           (fun _ => true) eq_refl eq_refl eq_refl eq_refl Hd).
Defined.

(** ** Publication on [message_received] *)

Lemma published_app l1 l2 : published (l1 ++ l2) = published l1 ++ published l2.
Proof.
  induction l1 as [|a l1 IH]; [done|]. destruct a; cbn; by rewrite ?IH.
Qed.

Lemma published_handler_actions d :
  forallb handler_action d = true -> published d = [].
Proof.
  induction d as [|a d IH]; [done|]. cbn. intros [Ha Hd]%andb_prop.
  destruct a; try done; by apply IH.
Qed.

Lemma quiet_ret {A} (a : A) : logs_handler_actions (ret a).
Proof. intros s. exists []. by rewrite app_nil_r. Qed.

Lemma quiet_raise {A} e : logs_handler_actions (@raise A e).
Proof. intros s. exists []. by rewrite app_nil_r. Qed.

Lemma quiet_same {A} (m : M A) :
  (forall s, log (m s).2 = log s) -> logs_handler_actions m.
Proof. intros H s. exists []. by rewrite app_nil_r, H. Qed.

Lemma quiet_emit a : handler_action a = true -> logs_handler_actions (emit a).
Proof. intros Ha s. exists [a]. cbn. by rewrite Ha. Qed.

Lemma quiet_bind {A B} (m : M A) (f : A -> M B) :
  logs_handler_actions m -> (forall a, logs_handler_actions (f a)) ->
  logs_handler_actions (bind m f).
Proof.
  intros Hm Hf s. unfold bind. destruct (Hm s) as (d1 & E1 & F1).
  destruct (m s) as [[a|e|] s1]; cbn in *; [|by exists d1|by exists d1].
  destruct (Hf a s1) as (d2 & E2 & F2). exists (d1 ++ d2).
  split; [by rewrite E2, E1, app_assoc|by rewrite forallb_app, F1, F2].
Qed.

Ltac quiet_step :=
  match goal with
  | |- logs_handler_actions (bind _ _) => apply quiet_bind; [|intros ?]
  | |- logs_handler_actions (ret _) => apply quiet_ret
  | |- logs_handler_actions (raise _) => apply quiet_raise
  | |- logs_handler_actions (emit _) =>
    apply quiet_emit; cbn; rewrite ?Z.eqb_refl; reflexivity
  | |- logs_handler_actions (gets _) => by apply quiet_same
  | |- logs_handler_actions (modify (with_face_up _)) => by apply quiet_same
  | |- logs_handler_actions (modify (with_battery_voltage _)) =>
    by apply quiet_same
  | |- logs_handler_actions (modify (with_dtype _)) => by apply quiet_same
  | |- logs_handler_actions _get_continue => by apply quiet_same
  | |- logs_handler_actions (if ?b then _ else _) => destruct b
  | |- logs_handler_actions (match ?x with _ => _ end) => destruct x
  end.

Lemma quiet_handle_by_kind msg : logs_handler_actions (handle_by_kind msg).
Proof.
  unfold handle_by_kind, decode_utf8, unpack_float, _update_battery_voltage,
    _update_state, _notify_user, _send, assert, item0.
  repeat (quiet_step; unfold decode_utf8).
Qed.

(** What a dispatch logs. *)
Lemma process_message_log msg s :
  let r := (_process_message msg s).1 in
  let s' := (_process_message msg s).2 in
  exists d,
    forallb handler_action d = true
    /\ log s' = log s ++ d
                ++ match r with Ret _ => [MessageReceived msg] | _ => [] end
    /\ published (log s')
       = published (log s)
         ++ match r with Ret _ => [msg] | _ => [] end
    /\ match r with
       | Ret _ => cells s' = deliver (message_received s) msg (cells s)
       | _ => cells s' = cells s
       end.
Proof.
  cbn zeta.
  assert (forall d r,
    forallb handler_action d = true ->
    published (log s ++ d ++ match r : outcome unit with
                             | Ret _ => [MessageReceived msg] | _ => [] end)
    = published (log s) ++ match r with Ret _ => [msg] | _ => [] end) as Hpub.
  { intros d r Hd. rewrite !published_app, (published_handler_actions d Hd).
    by destruct r. }
  destruct (_process_message msg s) as [r s'] eqn:Ep.
  pose proof (process_message_spec _ _ _ _ Ep) as (_ & _ & Hc & _).
  revert Ep. unfold _process_message, bind.
  pose proof (trace_message_state msg s) as Ht.
  destruct (trace_message msg s) as [[[]|e|] s1]; cbn in Ht; subst s1.
  - destruct (quiet_handle_by_kind msg s) as (d & Hlog & Hd).
    destruct (handle_by_kind msg s) as [[[]|e|] s2] eqn:Ek; cbn [snd] in *.
    + destruct msg as [|b l]; [by vm_compute in Ek|].
      rewrite notify_nonempty. intros [= <- <-]. exists d. cbn [fst snd].
      split; [done|]. split; [cbn; by rewrite Hlog, app_assoc|].
      split; [|by destruct Hc].
      cbn [log with_cells with_log]. rewrite Hlog, <- app_assoc.
      by apply (Hpub d (Ret tt)).
    + intros [= <- <-]. exists d. cbn [fst snd]. rewrite app_nil_r.
      split; [done|]. split; [done|]. split; [|done].
      rewrite Hlog. rewrite <- (app_nil_r d) at 1. by apply (Hpub d (Raise e)).
    + intros [= <- <-]. exists d. cbn [fst snd]. rewrite app_nil_r.
      split; [done|]. split; [done|]. split; [|done].
      rewrite Hlog. rewrite <- (app_nil_r d) at 1. by apply (Hpub d Diverge).
  - intros [= <- <-]. exists []. cbn. by rewrite !app_nil_r.
  - intros [= <- <-]. exists []. cbn. by rewrite !app_nil_r.
Qed.

(** X7: a dispatched message is published on [message_received] exactly
    once, as the last thing its dispatch does and after the events of its
    handler, if the handler returns; if the handler (or the trace print)
    raises, the message is not published and no callback sees it.  Apart
    from that, the dispatch logs only what a handler does: the two state
    events and the reply to [NotifyUser]. *)
Theorem handled_messages_are_published_once msg s :
  let r := (_process_message msg s).1 in
  let s' := (_process_message msg s).2 in
  exists d,
    forallb handler_action d = true
    /\ log s' = log s ++ d
                ++ match r with Ret _ => [MessageReceived msg] | _ => [] end
    /\ published (log s')
       = published (log s)
         ++ match r with Ret _ => [msg] | _ => [] end
    /\ match r with
       | Ret _ => cells s' = deliver (message_received s) msg (cells s)
       | _ => cells s' = cells s
       end.
Proof. exact (process_message_log msg s). Qed.


(** ** The time spent waiting *)

Lemma arrives_within_le timeout s delay data :
  arrives_within timeout s = Some (delay, data) -> delay <= timeout.
Proof.
  unfold arrives_within. destruct (pending s) as [|[d m] rest]; [done|].
  destruct (d <=? timeout) eqn:E; [|done]. intros [= <- <-]. by apply Z.leb_le.
Qed.

Lemma wait_for_message_clock timeout msg_type s :
  clock (wait_for_message timeout msg_type s).2
  = match arrives_within timeout s with
    | Some (delay, _) => clock s + delay
    | None => clock s + Z.max 0 timeout
    end.
Proof.
  rewrite wait_for_message_unfold. cbn zeta.
  destruct (arrives_within timeout s) as [[delay data]|]; [|done].
  destruct (_process_message data _) as [r s2] eqn:Ep.
  apply process_message_spec in Ep as (Hh & _).
  pose proof (hd_clock _ _ Hh) as Hc. cbn in Hc. by destruct r.
Qed.

Lemma ack_loop_clock a k timeout t0 :
  forall fuel s elapsed,
    elapsed = clock s - t0 -> clock s <= t0 + timeout ->
    clock (ack_loop fuel a k timeout t0 elapsed s).2 <= t0 + timeout.
Proof.
  induction fuel as [|fuel IH]; intros s elapsed He Hc; [done|].
  cbn [ack_loop]. destruct (elapsed <=? timeout) eqn:El; [|done].
  apply Z.leb_le in El. unfold bind at 1.
  pose proof (wait_for_message_clock (timeout - elapsed) MessageType._None s)
    as Hw.
  assert (clock (wait_for_message (timeout - elapsed) MessageType._None s).2
          <= t0 + timeout) as Hc1.
  { rewrite Hw. destruct (arrives_within _ s) as [[delay data]|] eqn:Ea.
    - apply arrives_within_le in Ea. lia.
    - lia. }
  clear Hw. destruct (wait_for_message _ _ s) as [[got|e|] s1]; cbn [snd] in *;
    [|done|done].
  destruct (negb (truthy got)); [done|].
  unfold bind, read_cell, perf_counter, gets. cbn [fst snd].
  destruct (cells s1 !! a) as [[|b l]|]; [|done|]; by apply IH.
Qed.

Lemma send_and_ack_clock msg_type msg_data ack_type timeout s :
  0 <= timeout ->
  clock (_send_and_ack msg_type msg_data ack_type timeout s).2
  <= clock s + timeout.
Proof.
  intros Ht. rewrite send_and_ack_unfold.
  destruct (0 <=? timeout); [|cbn; lia].
  destruct (all_bytes msg_data); [|cbn; lia].
  pose proof (ack_loop_clock (next_cell s) ack_type timeout (clock s)
                (S (length (pending s))) (begin_ack msg_type msg_data ack_type s)
                0 ltac:(cbn; lia) ltac:(cbn; lia)) as Hc.
  destruct (ack_loop _ _ _ _ _ _ _) as [[m|e|] s2]; cbn in *; lia.
Qed.

(** ** The requests of an upload *)

Lemma requests_app l1 l2 : requests (l1 ++ l2) = requests l1 ++ requests l2.
Proof. unfold requests. by rewrite writes_app, List.filter_app. Qed.

Lemma requests_during_wait d :
  forallb during_wait d = true -> requests d = [].
Proof.
  induction d as [|a d IH]; [done|]. cbn. intros [Ha Hd]%andb_prop.
  specialize (IH Hd). destruct a as [|data| | | | | | |]; try done.
  destruct data as [|k data]; [done|]. cbn in Ha.
  apply Z.eqb_eq in Ha as ->. exact IH.
Qed.

Lemma requests_acked msg_type msg_data ack_type s s' :
  MessageType.value msg_type <> MessageType.value MessageType.NotifyUserAck ->
  acked msg_type msg_data ack_type s s' ->
  exists d, log s' = log s ++ d
    /\ requests d = [MessageType.value msg_type :: msg_data].
Proof.
  intros Hk A. destruct (ak_log _ _ _ _ _ A) as (mid & Hlog & Hmid).
  eexists. split; [exact Hlog|].
  change (?a :: ?b :: mid ++ ?c) with ([a] ++ [b] ++ mid ++ c).
  rewrite !requests_app, (requests_during_wait mid) by done.
  unfold requests. cbn [writes List.filter app]. unfold kind_is at 1.
  apply Z.eqb_neq in Hk. by rewrite Hk.
Qed.

(** What one run of the chunk loop does, however it ends. *)
Lemma bulk_loop_run data timeout :
  0 <= timeout ->
  forall fuel i remainingSize offset s r s',
    fresh s ->
    0 <= remainingSize < Z.of_nat fuel ->
    offset + remainingSize = len data ->
    (0 < remainingSize -> offset = 16 * Z.of_nat i) ->
    (remainingSize <= 0 -> (chunk_count data <= i)%nat) ->
    bulk_loop fuel data timeout remainingSize offset s = (r, s') ->
    (dtype_unset (_dtype s) = false -> _dtype s' = _dtype s)
    /\ clock s' <= clock s + timeout * Z.of_nat (chunk_count data - i)
    /\ exists d, log s' = log s ++ d
         /\ requests d `prefix_of`
            map (chunk_message data) (seq i (chunk_count data - i))
         /\ (r = Ret tt ->
             requests d
             = map (chunk_message data) (seq i (chunk_count data - i))).
Proof.
  intros Ht. induction fuel as [|fuel IH];
    intros i remainingSize offset s r s' Hfresh Hfuel Hsum Hoff Hend; [lia|].
  cbn [bulk_loop]. destruct (0 <? remainingSize) eqn:E.
  - apply Z.ltb_lt in E. specialize (Hoff E). subst offset.
    pose proof (chunk_count_gt data i ltac:(lia)) as Hi.
    replace (chunk_count data - i)%nat with (S (chunk_count data - S i)) by lia.
    unfold bind.
    pose proof (send_and_ack_clock MessageType.BulkData
                  ((remainingSize `min` PIXELS_MESSAGE_BULK_DATA_SIZE
                    :: integer_to_bytes (16 * Z.of_nat i) 2)
                   ++ slice data (16 * Z.of_nat i)
                        (16 * Z.of_nat i
                         + remainingSize `min` PIXELS_MESSAGE_BULK_DATA_SIZE))
                  MessageType.BulkDataAck timeout s Ht) as Hc1.
    destruct (_send_and_ack _ _ _ _ s) as [r1 s1] eqn:Es. cbn [snd] in Hc1.
    apply send_and_ack_spec in Es as
      [(-> & -> & _)|[(-> & -> & _)|(_ & _ & A & Ho)]]; [| | |done].
    + intros [= <- <-]. split; [done|]. split; [nia|].
      exists []. rewrite app_nil_r. split; [done|]. split; [|done].
      apply prefix_nil.
    + intros [= <- <-]. split; [done|]. split; [nia|].
      exists []. rewrite app_nil_r. split; [done|]. split; [|done].
      apply prefix_nil.
    + pose proof (acked_fresh _ _ _ _ _ A Hfresh) as Hfresh1.
      destruct (requests_acked MessageType.BulkData _ _ _ _ ltac:(done) A)
        as (d1 & Hlog1 & Hb1).
      assert (requests d1 = [chunk_message data i]) as Hchunk.
      { rewrite Hb1. unfold chunk_message, chunk_size, chunk_offset.
        replace remainingSize with (len data - 16 * Z.of_nat i) by lia.
        reflexivity. }
      destruct r1 as [m|e|]; [| |done].
      * intros Hloop.
        apply (IH (S i)) in Hloop as (Hd & Hc & d2 & Hlog2 & Hp2 & Hb2);
          [|done|unfold PIXELS_MESSAGE_BULK_DATA_SIZE; lia|lia
           |unfold PIXELS_MESSAGE_BULK_DATA_SIZE; lia
           |unfold PIXELS_MESSAGE_BULK_DATA_SIZE; intros ?;
            apply chunk_count_le; lia].
        split.
        { intros Hu. rewrite Hd; [by apply (ak_dtype _ _ _ _ _ A)|].
          by rewrite (ak_dtype _ _ _ _ _ A). }
        split; [nia|].
        exists (d1 ++ d2). split; [by rewrite Hlog2, Hlog1, app_assoc|].
        rewrite requests_app, Hchunk. cbn [seq map app]. split.
        -- by apply prefix_cons.
        -- intros Hr. by rewrite (Hb2 Hr).
      * intros [= <- <-]. split; [by apply (ak_dtype _ _ _ _ _ A)|].
        split; [nia|].
        exists d1. split; [done|]. split; [|done]. rewrite Hchunk.
        cbn [seq map]. apply prefix_cons, prefix_nil.
  - intros [= <- <-]. apply Z.ltb_ge in E. specialize (Hend E).
    replace (chunk_count data - i)%nat with 0%nat by lia.
    split; [done|]. split; [lia|].
    exists []. by rewrite app_nil_r.
Qed.

(** What one run of [_upload_bulk_data] does, however it ends. *)
Lemma upload_run data timeout s r s' :
  fresh s ->
  _upload_bulk_data data timeout s = (r, s') ->
  r <> Diverge
  /\ (dtype_unset (_dtype s) = false -> _dtype s' = _dtype s)
  /\ clock s' <= clock s + Z.max 0 timeout * (1 + Z.of_nat (chunk_count data))
  /\ exists d, log s' = log s ++ d
       /\ requests d `prefix_of` bulk_sequence data
       /\ (r = Ret tt -> requests d = bulk_sequence data).
Proof.
  intros Hfresh. unfold _upload_bulk_data, assert, bind.
  assert (forall e, (Raise e : outcome unit) <> Diverge
    /\ (dtype_unset (_dtype s) = false -> _dtype s = _dtype s)
    /\ clock s <= clock s + Z.max 0 timeout * (1 + Z.of_nat (chunk_count data))
    /\ exists d, log s = log s ++ d
         /\ requests d `prefix_of` bulk_sequence data
         /\ (Raise e = Ret tt -> requests d = bulk_sequence data)) as Hnone.
  { intros e. split; [done|]. split; [done|]. split.
    { assert (0 <= Z.max 0 timeout * (1 + Z.of_nat (chunk_count data)))
        by (apply Z.mul_nonneg_nonneg; lia). lia. }
    exists []. rewrite app_nil_r. split; [done|]. split; [apply prefix_nil|done]. }
  destruct (len data =? 0) eqn:El; cbn -[bulk_loop];
    [intros [= <- <-]; apply Hnone|].
  destruct (0 <=? timeout) eqn:Et; cbn -[bulk_loop];
    [|intros [= <- <-]; apply Hnone].
  apply Z.eqb_neq in El. apply Z.leb_le in Et.
  pose proof (send_and_ack_clock MessageType.BulkSetup
                (integer_to_bytes (len data) 2) MessageType.BulkSetupAck
                timeout s Et) as Hc1.
  destruct (_send_and_ack _ _ _ _ s) as [r1 s1] eqn:Es. cbn [snd] in Hc1.
  apply send_and_ack_spec in Es as
    [(-> & -> & _)|[(-> & -> & _)|(_ & _ & A & Ho)]]; [| | |done].
  { intros [= <- <-]. apply Hnone. }
  { intros [= <- <-]. apply Hnone. }
  destruct (requests_acked MessageType.BulkSetup _ _ _ _ ltac:(done) A)
    as (d1 & Hlog1 & Hb1).
  destruct r1 as [m|e|]; [| |done].
  - destruct (bulk_loop _ _ _ _ _ s1) as [r2 s2] eqn:Hloop.
    pose proof Hloop as Hterm.
    apply (bulk_loop_spec data timeout _ 0%nat) in Hterm as (Hd & _);
      [|by eapply acked_fresh|unfold len in *; lia|lia|intros; lia
       |unfold len in *; intros; lia].
    apply (bulk_loop_run data timeout Et _ 0%nat) in Hloop
      as (Hdt & Hc2 & d2 & Hlog2 & Hp2 & Hb2);
      [|by eapply acked_fresh|unfold len in *; lia|lia|intros; lia
       |unfold len in *; intros; lia].
    rewrite Nat.sub_0_r in *.
    intros [= <- <-]. split; [done|]. split.
    { intros Hu. rewrite Hdt; [by apply (ak_dtype _ _ _ _ _ A)|].
      by rewrite (ak_dtype _ _ _ _ _ A). }
    split; [nia|].
    exists (d1 ++ d2). split; [by rewrite Hlog2, Hlog1, app_assoc|].
    rewrite requests_app, Hb1. unfold bulk_sequence. cbn [app]. split.
    + by apply prefix_cons.
    + intros Hr. by rewrite (Hb2 Hr).
  - intros [= <- <-]. split; [done|].
    split; [by apply (ak_dtype _ _ _ _ _ A)|]. split; [nia|].
    exists d1. split; [done|]. split; [|done]. rewrite Hb1.
    unfold bulk_sequence. apply prefix_cons, prefix_nil.
Qed.

Lemma bulk_sequence_fits data :
  Forall (fun m => (length m <= 20)%nat) (bulk_sequence data).
Proof.
  unfold bulk_sequence. constructor.
  { change (integer_to_bytes (len data) 2)
      with [len data mod 256; len data / 256 mod 256]. cbn. lia. }
  apply Forall_forall. intros m Hm. apply list_elem_of_In, in_map_iff in Hm
    as (i & <- & _).
  unfold chunk_message, slice. cbn [length]. rewrite length_take.
  unfold chunk_size, chunk_offset. lia.
Qed.

(** ** Putting the chunks together again *)

Lemma slice_chunk data i :
  slice data (chunk_offset i) (chunk_offset i + chunk_size data i)
  = take 16 (drop (16 * i) data).
Proof.
  unfold slice, chunk_offset, chunk_size, len.
  replace (Z.to_nat (16 * Z.of_nat i)) with (16 * i)%nat by lia.
  destruct (decide (length (drop (16 * i) data) <= 16)%nat) as [Hle|Hgt].
  - transitivity (drop (16 * i) data).
    + apply take_ge. rewrite length_drop in *. lia.
    + symmetry. by apply take_ge.
  - f_equal. rewrite length_drop in Hgt. lia.
Qed.

Lemma concat_chunks (data : list Z) (k : nat) :
  concat (map (fun i => take 16 (drop (16 * i) data)) (seq 0 k))
  = take (16 * k) data.
Proof.
  induction k as [|k IH]; [done|].
  rewrite seq_S, map_app, concat_app, IH. cbn [map concat].
  rewrite app_nil_r, take_take_drop. f_equal. lia.
Qed.

Lemma sent_requests k d :
  MessageType.value k <> MessageType.value MessageType.NotifyUserAck ->
  sent k d = List.filter (kind_is k) (requests d).
Proof.
  intros Hk. unfold sent, requests.
  induction (writes d) as [|m l IH]; [done|]. cbn [List.filter].
  destruct (kind_is MessageType.NotifyUserAck m) eqn:E; cbn [negb List.filter];
    [|by rewrite IH].
  destruct (kind_is k m) eqn:E'; [|done].
  destruct m as [|b m]; [done|]. unfold kind_is in *.
  apply Z.eqb_eq in E, E'. congruence.
Qed.

Lemma filter_chunks data l :
  List.filter (kind_is MessageType.BulkData) (map (chunk_message data) l)
  = map (chunk_message data) l
  /\ List.filter (kind_is MessageType.BulkSetup) (map (chunk_message data) l)
     = [].
Proof.
  induction l as [|i l [IH1 IH2]]; [done|]. cbn [map]. split.
  - change (List.filter ?f (chunk_message data i :: ?t))
      with (chunk_message data i :: List.filter f t). by rewrite IH1.
  - exact IH2.
Qed.

Lemma sent_bulk_data_sequence data :
  List.filter (kind_is MessageType.BulkData) (bulk_sequence data)
  = map (chunk_message data) (seq 0 (chunk_count data)).
Proof.
  unfold bulk_sequence.
  change (List.filter ?f (?m :: ?t)) with (List.filter f t).
  apply filter_chunks.
Qed.

(** X10: the chunks of an upload that returns carry the payload and
    nothing else: the bytes of its [BulkData] messages, taken after the
    size and the two offset bytes and put end to end in the order written,
    are the payload. *)
Theorem chunks_reassemble_to_payload data timeout s s' :
  fresh s ->
  _upload_bulk_data data timeout s = (Ret tt, s') ->
  exists d, log s' = log s ++ d
    /\ concat (map chunk_bytes (sent MessageType.BulkData d)) = data
    /\ length (sent MessageType.BulkData d) = chunk_count data
    /\ sent MessageType.BulkSetup d
       = [MessageType.value MessageType.BulkSetup
          :: integer_to_bytes (len data) 2].
Proof.
  intros Hfresh Eu.
  apply upload_run in Eu as (_ & _ & _ & d & Hlog & _ & Hr); [|done].
  specialize (Hr eq_refl). exists d. split; [done|].
  rewrite !sent_requests, Hr by done. rewrite sent_bulk_data_sequence.
  split; [|split].
  - rewrite map_map.
    rewrite (map_ext _ (fun i => take 16 (drop (16 * i) data)))
      by (intros i; apply slice_chunk).
    rewrite concat_chunks. apply take_ge.
    pose proof (chunk_count_le data (chunk_count data)) as Hle.
    assert (len data <= 16 * Z.of_nat (chunk_count data)) as Hlen.
    { unfold chunk_count. destruct (decide (len data + 15 < 0)) as [|Hn];
        [unfold len in *; lia|].
      rewrite Z2Nat.id by (apply Z.div_pos; lia).
      pose proof (Z.div_mod (len data + 15) 16 ltac:(lia)).
      pose proof (Z.mod_pos_bound (len data + 15) 16 ltac:(lia)). lia. }
    unfold len in Hlen. lia.
  - by rewrite length_map, length_seq.
  - unfold bulk_sequence.
    change (List.filter ?f (?m :: ?t)) with (m :: List.filter f t).
    f_equal. apply filter_chunks.
Qed.

Lemma chunks_reassemble_to_payload_witness :
  let s' := (_upload_bulk_data payload40 10 acknowledging).2 in
  fresh acknowledging
  /\ _upload_bulk_data payload40 10 acknowledging = (Ret tt, s')
  /\ exists d, log s' = log acknowledging ++ d
       /\ concat (map chunk_bytes (sent MessageType.BulkData d)) = payload40
       /\ length (sent MessageType.BulkData d) = chunk_count payload40
       /\ sent MessageType.BulkSetup d
          = [MessageType.value MessageType.BulkSetup
             :: integer_to_bytes (len payload40) 2].
Proof.
  cbn zeta.
  assert (fresh acknowledging) as Hf by repeat constructor.
  assert (_upload_bulk_data payload40 10 acknowledging
          = (Ret tt, (_upload_bulk_data payload40 10 acknowledging).2)) as Hr
    by (vm_compute; reflexivity).
  split; [exact Hf|]. split; [exact Hr|].
  exact (chunks_reassemble_to_payload _ _ _ _ Hf Hr).
Defined.

(** ** The device type *)

(** X11: the device type is set once.  A dispatch changes [_dtype] only if
    the type is still unset ([None], or the member of value 0, which is
    falsy) and the message is an [IAmADie] with a valid type byte; so once
    a die is identified, no message, no wait, no request and no upload
    changes its type. *)
Theorem device_type_is_set_once
    msg timeout wait_type msg_type msg_data ack_type data s :
  fresh s ->
  (_dtype (_process_message msg s).2 = _dtype s
   \/ (dtype_unset (_dtype s) = true
       /\ identified_by msg (_process_message msg s).2))
  /\ (dtype_unset (_dtype s) = false ->
      _dtype (_process_message msg s).2 = _dtype s
      /\ _dtype (wait_for_message timeout wait_type s).2 = _dtype s
      /\ _dtype (_send_and_ack msg_type msg_data ack_type timeout s).2 = _dtype s
      /\ _dtype (_upload_bulk_data data timeout s).2 = _dtype s).
Proof.
  intros Hfresh.
  assert (dtype_unset (_dtype s) = false ->
          _dtype (_process_message msg s).2 = _dtype s) as Hp.
  { intros Hu. destruct (_process_message msg s) as [r s'] eqn:Ep.
    apply process_message_spec in Ep as (Hh & _). by apply (hd_dtype _ _ Hh). }
  split.
  - destruct (dtype_unset (_dtype s)) eqn:Hu; [|by left; apply Hp].
    destruct (process_message_dtype msg s) as [?|?]; [by left|by right].
  - intros Hu. split; [by apply Hp|]. split; [|split].
    + destruct (wait_for_message timeout wait_type s) as [r s'] eqn:Ew.
      apply wait_for_message_spec in Ew as [W _]. by apply (wt_dtype _ _ W).
    + destruct (_send_and_ack msg_type msg_data ack_type timeout s)
        as [r s'] eqn:Es.
      apply send_and_ack_spec in Es as
        [(_ & -> & _)|[(_ & -> & _)|(_ & _ & A & _)]]; [done|done| |done].
      by apply (ak_dtype _ _ _ _ _ A).
    + destruct (_upload_bulk_data data timeout s) as [r s'] eqn:Eu.
      apply upload_run in Eu as (_ & Hd & _); [|done]. by apply Hd.
Qed.

Lemma device_type_is_set_once_witness :
  fresh listening
  /\ dtype_unset (_dtype listening) = false
  /\ _dtype (_process_message [2; 1] listening).2 = _dtype listening
  /\ _dtype (wait_for_message 10 MessageType.IAmADie listening).2
     = _dtype listening
  /\ _dtype (_send_and_ack MessageType.BulkSetup [40; 0]
               MessageType.BulkSetupAck 10 listening).2 = _dtype listening
  /\ _dtype (_upload_bulk_data payload40 10 listening).2 = _dtype listening.
Proof.
  assert (fresh listening) as Hf by repeat constructor.
  split; [exact Hf|]. split; [reflexivity|].
  exact (proj2 (device_type_is_set_once [2; 1] 10 MessageType.IAmADie
                  MessageType.BulkSetup [40; 0] MessageType.BulkSetupAck
                  payload40 listening Hf) eq_refl).
Defined.

(** ** Uploading an animation set *)

Lemma animation_set_header_length anim_set :
  length (animation_set_header anim_set) = 12%nat.
Proof. reflexivity. Qed.




(** ** Preconditions *)

(** X13: the checks come before any input or output.  A negative timeout
    makes [_send_and_ack] and [_upload_bulk_data] raise [AssertionError],
    arguments that are not bytes make [_send_and_ack] raise [ValueError],
    an empty payload makes [_upload_bulk_data] raise [AssertionError]; each
    time the link is left exactly as it was: nothing written, no observer
    attached, no notification taken.  In [upload_animation_set] the
    emptiness of the packed bytes is found only after the header exchange:
    if that returns, the call then raises [AssertionError]. *)
Theorem checks_precede_io msg_type msg_data ack_type data anim_set timeout s :
  (timeout < 0 ->
   _send_and_ack msg_type msg_data ack_type timeout s = (Raise AssertionError, s)
   /\ _upload_bulk_data data timeout s = (Raise AssertionError, s)
   /\ upload_animation_set anim_set timeout s = (Raise AssertionError, s))
  /\ (0 <= timeout -> all_bytes msg_data = false ->
      _send_and_ack msg_type msg_data ack_type timeout s = (Raise ValueError, s))
  /\ _upload_bulk_data [] timeout s = (Raise AssertionError, s)
  /\ (pack anim_set = [] ->
      forall m s1,
        _send_and_ack MessageType.TransferAnimSet (animation_set_header anim_set)
          MessageType.TransferAnimSetAck timeout s = (Ret m, s1) ->
        upload_animation_set anim_set timeout s = (Raise AssertionError, s1)).
Proof.
  split; [|split; [|split]].
  - intros Ht. apply Z.leb_gt in Ht.
    assert (forall k d a, _send_and_ack k d a timeout s = (Raise AssertionError, s))
      as Hs by (intros; by rewrite send_and_ack_unfold, Ht).
    split; [apply Hs|]. split.
    + unfold _upload_bulk_data, assert, bind.
      destruct (negb (len data =? 0)); cbn; [|done]. by rewrite Ht.
    + unfold upload_animation_set, bind. by rewrite Hs.
  - intros Ht Hb. apply Z.leb_le in Ht.
    by rewrite send_and_ack_unfold, Ht, Hb.
  - reflexivity.
  - intros Hp m s1 Hs. unfold upload_animation_set, bind. rewrite Hs, Hp.
    reflexivity.
Qed.

Lemma checks_precede_io_witness :
  -1 < 0
  /\ _send_and_ack MessageType.BulkSetup [40; 0] MessageType.BulkSetupAck
       (-1) listening = (Raise AssertionError, listening)
  /\ _upload_bulk_data payload40 (-1) listening
     = (Raise AssertionError, listening)
  /\ upload_animation_set animation40 (-1) listening
     = (Raise AssertionError, listening).
Proof.
  assert (-1 < 0) as Ht by lia. split; [exact Ht|].
  exact (proj1 (checks_precede_io MessageType.BulkSetup [40; 0]
                  MessageType.BulkSetupAck payload40 animation40 (-1) listening)
           Ht).
Defined.

(** ** Notifications received while waiting for an acknowledgement *)

Lemma process_message_published msg s :
  published (log (_process_message msg s).2)
  = published (log s)
    ++ match (_process_message msg s).1 with Ret _ => [msg] | _ => [] end.
Proof. by destruct (process_message_log msg s) as (d & _ & _ & H & _). Qed.

Lemma passes_on_refl s : passes_on s s.
Proof. exists []. by rewrite app_nil_r. Qed.

Lemma passes_on_trans s1 s2 s3 :
  passes_on s1 s2 -> passes_on s2 s3 -> passes_on s1 s3.
Proof.
  intros (t1 & P1 & L1) (t2 & P2 & L2). exists (t1 ++ t2).
  split; [by rewrite P1, P2, app_assoc|by rewrite L2, L1, app_assoc].
Qed.

Lemma expired_passes_on timeout s :
  ready s -> Forall (fun p => well_formed p.2 = true) (pending s) ->
  let s' := end_wait (next_cell s) (expire timeout (begin_wait s)) in
  passes_on s s' /\ ready s'
  /\ Forall (fun p => well_formed p.2 = true) (pending s').
Proof.
  intros Hready Hwf. cbn zeta. split; [|split; [exact Hready|]].
  - exists []. unfold end_wait, expire, begin_wait. cbn.
    rewrite !published_app. cbn. rewrite !app_nil_r. split; [|done].
    by destruct (pending s) as [|[] ?].
  - unfold end_wait, expire, begin_wait. cbn.
    destruct (pending s) as [|[delay data] rest]; [done|].
    apply Forall_cons in Hwf as [Hw Hrest]. by constructor.
Qed.

Lemma wait_for_message_passes_on timeout msg_type s :
  ready s -> Forall (fun p => well_formed p.2 = true) (pending s) ->
  let s' := (wait_for_message timeout msg_type s).2 in
  passes_on s s' /\ ready s'
  /\ Forall (fun p => well_formed p.2 = true) (pending s').
Proof.
  intros Hready Hwf. cbn zeta. rewrite wait_for_message_unfold. cbn zeta.
  destruct (arrives_within timeout s) as [[delay data]|] eqn:Ea;
    [|by apply expired_passes_on].
  unfold arrives_within in Ea.
  destruct (pending s) as [|[delay' data'] rest] eqn:Ep; [done|].
  destruct (delay' <=? timeout); [|done]. simplify_eq.
  apply Forall_cons in Hwf as [Hw Hrest]. cbn [snd] in Hw.
  pose proof (process_message_published data
                (arrive delay data (tl ((delay, data) :: rest)) (begin_wait s)))
    as Hpub.
  destruct (_process_message data _) as [r s2] eqn:Eq.
  pose proof (process_message_spec _ _ _ _ Eq) as (Hh & _ & _ & Hok).
  specialize (Hok Hw Hready). subst r. cbn [fst snd] in *.
  pose proof (hd_pending _ _ Hh) as Hpend. cbn in Hpend.
  split; [|split].
  - exists [data]. unfold end_wait. cbn. rewrite Hpend, Ep. split; [done|].
    rewrite published_app, Hpub. unfold arrive, begin_wait. cbn.
    rewrite !published_app. cbn. by rewrite !app_nil_r.
  - apply (hd_ready _ _ Hh). exact Hready.
  - unfold end_wait. cbn. by rewrite Hpend.
Qed.

Lemma ack_loop_passes_on a k timeout t0 :
  forall fuel s elapsed,
    ready s -> Forall (fun p => well_formed p.2 = true) (pending s) ->
    passes_on s (ack_loop fuel a k timeout t0 elapsed s).2.
Proof.
  induction fuel as [|fuel IH]; intros s elapsed Hready Hwf;
    [apply passes_on_refl|].
  cbn [ack_loop]. destruct (elapsed <=? timeout); [|apply passes_on_refl].
  unfold bind at 1.
  destruct (wait_for_message_passes_on (timeout - elapsed) MessageType._None s
              Hready Hwf) as (Hp & Hr1 & Hw1).
  destruct (wait_for_message _ _ s) as [[got|e|] s1]; cbn [snd] in *;
    [|done|done].
  destruct (negb (truthy got)); [done|].
  unfold bind, read_cell, perf_counter, gets. cbn [fst snd].
  destruct (cells s1 !! a) as [[|b l]|]; [|done|];
    (eapply passes_on_trans; [exact Hp|by apply IH]).
Qed.

(** X14: notifications that arrive while [_send_and_ack] waits are not
    dropped: on a constructed link with well-formed traffic, every
    notification the call takes from the transport, those before the
    acknowledgement and the acknowledgement itself, is dispatched and
    published on [message_received], in the order of arrival, and nothing
    else is published. *)
Theorem send_and_ack_passes_notifications_on
    msg_type msg_data ack_type timeout s :
  ready s -> Forall (fun p => well_formed p.2 = true) (pending s) ->
  let s' := (_send_and_ack msg_type msg_data ack_type timeout s).2 in
  exists taken,
    map snd (pending s) = taken ++ map snd (pending s')
    /\ published (log s') = published (log s) ++ taken.
Proof.
  intros Hready Hwf. cbn zeta. rewrite send_and_ack_unfold.
  destruct (0 <=? timeout); [|exact (passes_on_refl s)].
  destruct (all_bytes msg_data); [|exact (passes_on_refl s)].
  destruct (ack_loop_passes_on (next_cell s) ack_type timeout (clock s)
              (S (length (pending s))) (begin_ack msg_type msg_data ack_type s) 0
              Hready Hwf) as (taken & Hp & Hl).
  destruct (ack_loop _ _ _ _ _ _ _) as [r s2]. cbn [snd] in *.
  exists taken. cbn in Hp, Hl. rewrite !published_app in Hl. cbn in Hl.
  rewrite !app_nil_r in Hl.
  destruct r; cbn; rewrite ?published_app; cbn; by rewrite ?app_nil_r.
Qed.

Lemma send_and_ack_passes_notifications_on_witness :
  let s' := (_send_and_ack MessageType.BulkSetup [40; 0]
               MessageType.BulkSetupAck 10 listening).2 in
  ready listening
  /\ Forall (fun p => well_formed p.2 = true) (pending listening)
  /\ exists taken,
       map snd (pending listening) = taken ++ map snd (pending s')
       /\ published (log s') = published (log listening) ++ taken.
Proof.
  cbn zeta.
  assert (ready listening) as Hr by done.
  assert (Forall (fun p => well_formed p.2 = true) (pending listening)) as Hw
    by repeat constructor.
  split; [exact Hr|]. split; [exact Hw|].
  exact (send_and_ack_passes_notifications_on MessageType.BulkSetup [40; 0]
           MessageType.BulkSetupAck 10 listening Hr Hw).
Defined.

(** * Deadlines *)

(** ** The first acknowledgement in a list *)

Lemma first_ack_none_up_to k l : first_ack k l = None -> up_to_ack k l = l.
Proof.
  induction l as [|m l IH]; [done|]. cbn. destruct (kind_is k m); [done|].
  intros H. by rewrite IH.
Qed.

Lemma first_ack_app k pre l :
  first_ack k pre = None -> first_ack k (pre ++ l) = first_ack k l.
Proof.
  induction pre as [|m pre IH]; [done|]. cbn. destruct (kind_is k m); [done|].
  exact IH.
Qed.

Lemma up_to_ack_app k pre l :
  first_ack k pre = None -> up_to_ack k (pre ++ l) = pre ++ up_to_ack k l.
Proof.
  induction pre as [|m pre IH]; [done|]. cbn. destruct (kind_is k m); [done|].
  intros H. by rewrite IH.
Qed.

Lemma first_ack_kind k l m : first_ack k l = Some m -> kind_is k m = true.
Proof.
  induction l as [|x l IH]; [done|]. cbn. destruct (kind_is k x) eqn:E; [|done].
  by intros [= <-].
Qed.

Lemma first_ack_split k l m :
  first_ack k l = Some m ->
  exists pre later,
    l = pre ++ m :: later /\ first_ack k pre = None
    /\ up_to_ack k l = pre ++ [m].
Proof.
  induction l as [|x l IH]; [done|]. cbn. destruct (kind_is k x) eqn:E.
  - intros [= <-]. by exists [], l.
  - intros H. destruct (IH H) as (pre & later & -> & Hpre & Hup).
    exists (x :: pre), later. cbn. by rewrite E, Hup.
Qed.

(** ** What a wait takes and publishes *)

Lemma wait_for_message_taken timeout msg_type s delay data r s' :
  arrives_within timeout s = Some (delay, data) ->
  wait_for_message timeout msg_type s = (r, s') ->
  clock s' = clock s + delay
  /\ published (log s')
     = published (log s) ++ match r with Ret _ => [data] | _ => [] end
  /\ (forall e, r = Raise e ->
      exists σ, (ready s -> ready σ) /\ (_process_message data σ).1 = Raise e).
Proof.
  intros Ea. rewrite wait_for_message_unfold, Ea. cbn zeta.
  set (σ := arrive delay data (tl (pending s)) (begin_wait s)).
  pose proof (process_message_published data σ) as Hpub.
  destruct (_process_message data σ) as [r0 s2] eqn:Ep.
  pose proof (process_message_spec _ _ _ _ Ep) as (Hh & Hd & _).
  pose proof (hd_clock _ _ Hh) as Hc. cbn in Hc, Hpub.
  rewrite !published_app in Hpub. cbn in Hpub. rewrite !app_nil_r in Hpub.
  destruct r0 as [[]|e|]; [| |done]; intros [= <- <-]; cbn;
    rewrite published_app, Hpub; cbn; rewrite ?app_nil_r.
  - done.
  - split; [done|]. split; [done|]. intros e' [= <-]. exists σ.
    split; [done|]. by rewrite Ep.
Qed.

(** ** The acknowledgement loop, exactly *)

Lemma ack_loop_exact a k timeout t0 ev :
  Forall (cb_below a) ev ->
  forall fuel s elapsed r s',
    message_received s = Event.attach (ack_on_message a k) ev ->
    (a < next_cell s)%nat ->
    cells s !! a = None ->
    (length (pending s) < fuel)%nat ->
    elapsed = clock s - t0 -> elapsed <= timeout ->
    ack_loop fuel a k timeout t0 elapsed s = (r, s') ->
    ack_result k timeout (timeout - elapsed) s s' r.
Proof.
  intros Hev. induction fuel as [|fuel IH];
    intros s elapsed r s' Hmr Ha Hcell Hfuel He Hle; [lia|].
  cbn [ack_loop]. apply Z.leb_le in Hle as Hle'. rewrite Hle'.
  assert (fresh s) as Hfresh.
  { unfold fresh, Event.attach in *. rewrite Hmr. apply Forall_app. split.
    - eapply Forall_impl; [exact Hev|]. intros cb. apply cb_below_mono. lia.
    - by repeat constructor. }
  unfold bind at 1.
  destruct (wait_for_message _ _ s) as [r1 s1] eqn:Ew.
  pose proof (wait_for_message_spec _ _ _ _ _ Ew) as [W Hd].
  pose proof (waited_looped _ _ Hfresh W) as Hl.
  unfold ack_result. cbn zeta.
  destruct (arrives_within (timeout - elapsed) s) as [[delay data]|] eqn:Ea.
  - pose proof (wait_for_message_taken _ _ _ _ _ _ _ Ea Ew) as (Hclock & Hpub & Hraise).
    apply (wait_for_message_arrived _ _ _ _ _ _ _ Ea) in Ew as (Hp & Hr & Hok).
    unfold arrives_within in Ea.
    destruct (pending s) as [|[d0 m0] rest] eqn:Eps; [done|].
    destruct (d0 <=? timeout - elapsed) eqn:Ed; [|done]. simplify_eq.
    cbn in Hp. cbn [arrivals]. rewrite Ed.
    destruct r1 as [got|e|]; [| |done].
    + destruct Hr as (-> & Hne & Hc). destruct data as [|b l]; [done|].
      cbn -[first_ack up_to_ack].
      unfold bind, read_cell, gets. cbn -[first_ack up_to_ack].
      assert (cells s1 !! a = if kind_is k (b :: l) then Some (b :: l) else None)
        as Hca.
      { rewrite Hc, lookup_insert_ne by lia. rewrite Hmr.
        unfold Event.attach. rewrite deliver_app. cbn.
        rewrite deliver_other by by apply cb_below_other.
        rewrite lookup_delete_ne by lia. rewrite Hcell. cbn.
        destruct (b =? MessageType.value k); [by rewrite lookup_insert_eq|].
        rewrite deliver_other by by apply cb_below_other.
        by rewrite lookup_delete_ne by lia. }
      rewrite Hca.
      destruct (kind_is k (b :: l)) eqn:Ek.
      * intros [= <- <-]. cbn [first_ack up_to_ack]. rewrite Ek.
        split; [done|]. split; [by rewrite Hp|]. by rewrite Hpub.
      * unfold perf_counter. cbn -[first_ack up_to_ack]. intros Hloop.
        apply IH in Hloop;
          [|by rewrite (lp_event _ _ Hl), Hmr|pose proof (lp_next _ _ Hl); lia
           |by rewrite Hca|rewrite Hp; cbn in Hfuel; lia|done
           |apply Z.leb_le in Ed; lia].
        unfold ack_result in Hloop. cbn zeta in Hloop.
        replace (timeout - (clock s1 - t0)) with (timeout - (clock s - t0) - delay)
          in Hloop by lia.
        rewrite Hp in Hloop. cbn [first_ack up_to_ack]. rewrite Ek.
        destruct r as [m|e|]; [| |done].
        -- destruct Hloop as (Hf & Hpend & Hpubl). split; [done|].
           split; [cbn; by rewrite Hpend|].
           rewrite Hpubl, Hpub. cbn. by rewrite <- app_assoc.
        -- destruct Hloop as [(-> & Hf & Hpend & Hpubl)
                             |(pre & m & later & σ & HA & Hpre & Hrd & Hrun & Hpend & Hpubl)].
           ++ left. split; [done|]. split; [done|].
              split; [cbn; by rewrite Hpend|].
              rewrite Hpubl, Hpub. cbn. by rewrite <- app_assoc.
           ++ right. exists ((b :: l) :: pre), m, later, σ.
              split; [by rewrite HA|]. split; [cbn [first_ack]; by rewrite Ek|].
              split; [intros Hready; by apply Hrd, (lp_ready _ _ Hl)|].
              split; [done|]. split; [cbn; by rewrite Hpend|].
              rewrite Hpubl, Hpub. cbn. by rewrite <- app_assoc.
    + cbn. intros [= <- <-]. right.
      destruct (Hraise e eq_refl) as (σ & Hrd & Hrun).
      exists [], data, (arrivals (timeout - (clock s - t0) - delay) rest), σ.
      split; [done|]. split; [done|]. split; [done|]. split; [done|].
      split; [cbn; by rewrite Hp|]. by rewrite Hpub, !app_nil_r.
  - rewrite wait_for_message_expired in Ew by done. simplify_eq.
    cbn. intros [= <- <-]. left.
    assert (arrivals (timeout - (clock s - t0)) (pending s) = []) as ->.
    { unfold arrives_within in Ea. destruct (pending s) as [|[d0 m0] rest]; [done|].
      cbn. by destruct (d0 <=? timeout - (clock s - t0)). }
    split; [done|]. split; [done|]. split.
    + cbn. by destruct (pending s) as [|[] ?].
    + cbn. rewrite !published_app. cbn. by rewrite !app_nil_r.
Qed.

(** ** The call once its request is written *)

Lemma send_and_ack_block msg_type msg_data ack_type timeout s :
  0 <= timeout -> all_bytes msg_data = true ->
  _send_and_ack msg_type msg_data ack_type timeout s
  = ack_block ack_type timeout (written msg_type msg_data s).
Proof.
  intros Ht%Z.leb_le Hb.
  unfold _send_and_ack, _send, assert, ack_block, written, emit, modify.
  rewrite Ht, Hb. reflexivity.
Qed.

Lemma ack_block_exact ack_type timeout s r s' :
  fresh s -> 0 <= timeout ->
  ack_block ack_type timeout s = (r, s') ->
  ack_result ack_type timeout timeout s s' r.
Proof.
  intros Hfresh Ht.
  unfold ack_block, try_finally, new_cell, attach, detach, emit, modify,
    perf_counter, gets.
  unfold bind. cbn -[ack_loop].
  destruct (ack_loop _ _ _ _ _ _ _) as [r2 s2] eqn:El.
  eapply ack_loop_exact in El;
    [|exact Hfresh|done|cbn; lia|cbn; apply lookup_delete_eq|cbn; lia
     |cbn; lia|lia].
  rewrite Z.sub_0_r in El. unfold ack_result in *. cbn in El.
  destruct r2 as [m|e|]; [| |done]; intros [= <- <-]; cbn;
    rewrite ?published_app in *; cbn in *; rewrite ?app_nil_r in *; done.
Qed.

Lemma send_and_ack_exact msg_type msg_data ack_type timeout s r s' :
  fresh s -> 0 <= timeout -> all_bytes msg_data = true ->
  _send_and_ack msg_type msg_data ack_type timeout s = (r, s') ->
  ack_result ack_type timeout timeout s s' r.
Proof.
  intros Hfresh Ht Hb. rewrite send_and_ack_block by done. intros Hrun.
  apply ack_block_exact in Hrun; [|exact Hfresh|done].
  unfold ack_result, written in *. cbn in Hrun.
  rewrite !published_app in Hrun. cbn in Hrun. rewrite !app_nil_r in Hrun.
  exact Hrun.
Qed.

(** When the handlers accept what arrives, up to the acknowledgement, the
    outcome is the first acknowledgement, or the timeout error. *)
Lemma ack_result_accepted k timeout budget s s' r :
  ack_result k timeout budget s s' r ->
  ready s ->
  Forall (fun m => well_formed m = true)
    (up_to_ack k (arrivals budget (pending s))) ->
  r = match first_ack k (arrivals budget (pending s)) with
      | Some m => Ret m
      | None => Raise (Exception_ack_not_received k timeout)
      end
  /\ map snd (pending s)
     = up_to_ack k (arrivals budget (pending s)) ++ map snd (pending s')
  /\ published (log s')
     = published (log s) ++ up_to_ack k (arrivals budget (pending s)).
Proof.
  unfold ack_result. cbn zeta. set (A := arrivals budget (pending s)).
  intros Hres Hready Hwf. destruct r as [m|e|]; [| |done].
  - destruct Hres as (-> & ? & ?). done.
  - destruct Hres as [(-> & Hnone & ? & ?)
                     |(pre & m & later & σ & HA & Hpre & Hrd & Hrun & _)].
    + by rewrite Hnone, (first_ack_none_up_to _ _ Hnone).
    + exfalso. rewrite HA, up_to_ack_app in Hwf by done.
      apply Forall_app in Hwf as [_ Hwf].
      assert (well_formed m = true) as Hm.
      { cbn in Hwf. destruct (kind_is k m); by apply Forall_cons in Hwf as [? _]. }
      destruct (_process_message m σ) as [r0 s0] eqn:Ep.
      apply process_message_spec in Ep as (_ & _ & _ & Hok).
      cbn in Hrun. rewrite (Hok Hm (Hrd Hready)) in Hrun. done.
Qed.

(** ** The claims on the acknowledgement *)

(** C4, as stated, fails: a call with [timeout >= 0], on a constructed link
    and with byte arguments, can end in a third way.  Here a [BatteryLevel]
    reading that is one byte short arrives during the wait, and the
    [struct.error] of its handler leaves through the call. *)
Lemma send_and_ack_can_end_otherwise :
  ~ (forall msg_type msg_data ack_type timeout s,
       fresh s -> ready s -> 0 <= timeout -> all_bytes msg_data = true ->
       let r := (_send_and_ack msg_type msg_data ack_type timeout s).1 in
       (exists m, r = Ret m /\ kind_is ack_type m = true)
       \/ r = Raise (Exception_ack_not_received ack_type timeout)).
Proof.
  intros H.
  assert ((_send_and_ack MessageType.BulkSetup [40; 0] MessageType.BulkSetupAck
             10 garbled).1 = Raise struct_error) as Hrun by (by vm_compute).
  assert (fresh garbled) as Hf by repeat constructor.
  assert (ready garbled) as Hr by done.
  destruct (H MessageType.BulkSetup [40; 0] MessageType.BulkSetupAck 10 garbled
              Hf Hr ltac:(lia) eq_refl) as [(m & Hm & _)|Ht].
  - rewrite Hrun in Hm. discriminate.
  - rewrite Hrun in Ht. discriminate.
Qed.

(** C4, amended: a call [_send_and_ack(msgType, msgData, ackType, timeout)]
    with [timeout >= 0] ends in one of four ways, decided by the
    notifications that arrive during its waits before the deadline.  It
    returns the first of them that is of kind [ackType], having taken and
    published everything up to it and nothing after it; it raises the
    acknowledgement-timeout error for [ackType] and [timeout] when none of
    them is of kind [ackType], having taken and published them all; it
    raises the [ValueError] of [bytes()], the link untouched, when a
    request argument is no byte; or it ends with the exception that the
    dispatch of one of these notifications raises, no message of kind
    [ackType] having come before it.  On a constructed link, when the
    arguments are bytes and the notifications up to the acknowledgement
    have the shape their handlers read, only the first two remain: the
    call returns the acknowledgement if one arrives before the deadline,
    and raises the timeout error if none does. *)
Theorem send_and_ack_returns_ack_or_times_out
    msg_type msg_data ack_type timeout s :
  fresh s -> 0 <= timeout ->
  let r := (_send_and_ack msg_type msg_data ack_type timeout s).1 in
  let s' := (_send_and_ack msg_type msg_data ack_type timeout s).2 in
  let A := arrivals timeout (pending s) in
  (if all_bytes msg_data then ack_result ack_type timeout timeout s s' r
   else r = Raise ValueError /\ s' = s)
  /\ (forall m, r = Ret m -> kind_is ack_type m = true)
  /\ (all_bytes msg_data = true -> ready s ->
      Forall (fun m => well_formed m = true) (up_to_ack ack_type A) ->
      r = match first_ack ack_type A with
          | Some m => Ret m
          | None => Raise (Exception_ack_not_received ack_type timeout)
          end).
Proof.
  intros Hfresh Ht. cbn zeta.
  destruct (_send_and_ack msg_type msg_data ack_type timeout s) as [r s'] eqn:Es.
  cbn [fst snd].
  destruct (all_bytes msg_data) eqn:Eb.
  - pose proof (send_and_ack_exact _ _ _ _ _ _ _ Hfresh Ht Eb Es) as Hres.
    split; [done|]. split.
    + intros m ->. destruct Hres as (Hf & _). by eapply first_ack_kind.
    + intros _ Hready Hwf.
      by destruct (ack_result_accepted _ _ _ _ _ _ Hres Hready Hwf) as [-> _].
  - apply send_and_ack_spec in Es as
      [(_ & _ & ?)|[(-> & -> & _)|(_ & ? & _)]]; [lia| |congruence|done].
    done.
Qed.

Lemma send_and_ack_returns_ack_or_times_out_witness :
  fresh listening /\ 0 <= 10
  /\ all_bytes [40; 0] = true /\ ready listening
  /\ Forall (fun m => well_formed m = true)
       (up_to_ack MessageType.BulkSetupAck (arrivals 10 (pending listening)))
  /\ first_ack MessageType.BulkSetupAck (arrivals 10 (pending listening))
     = Some [6]
  /\ let r := (_send_and_ack MessageType.BulkSetup [40; 0]
                 MessageType.BulkSetupAck 10 listening).1 in
     let s' := (_send_and_ack MessageType.BulkSetup [40; 0]
                  MessageType.BulkSetupAck 10 listening).2 in
     let A := arrivals 10 (pending listening) in
     (if all_bytes [40; 0]
      then ack_result MessageType.BulkSetupAck 10 10 listening s' r
      else r = Raise ValueError /\ s' = listening)
     /\ (forall m, r = Ret m -> kind_is MessageType.BulkSetupAck m = true)
     /\ (all_bytes [40; 0] = true -> ready listening ->
         Forall (fun m => well_formed m = true)
           (up_to_ack MessageType.BulkSetupAck A) ->
         r = match first_ack MessageType.BulkSetupAck A with
             | Some m => Ret m
             | None =>
               Raise (Exception_ack_not_received MessageType.BulkSetupAck 10)
             end).
Proof.
  assert (fresh listening) as Hf by repeat constructor.
  assert (0 <= 10) as Ht by lia.
  split; [exact Hf|]. split; [exact Ht|]. split; [reflexivity|].
  split; [done|]. split; [repeat constructor|]. split; [reflexivity|].
  exact (send_and_ack_returns_ack_or_times_out MessageType.BulkSetup [40; 0]
           MessageType.BulkSetupAck 10 listening Hf Ht).
Defined.

(** The scenario of the sample link: a [State] message, then the
    acknowledgement, arrive within the ten ticks; the call returns the
    acknowledgement and leaves the second one with the transport. *)
Example send_and_ack_scenario :
  let run := _send_and_ack MessageType.BulkSetup [40; 0]
               MessageType.BulkSetupAck 10 listening in
  run.1 = Ret [6]
  /\ published (log run.2) = [[3; 1; 3]; [6]]
  /\ map snd (pending run.2) = [[6]].
Proof. by vm_compute. Qed.

Lemma send_written msg_type msg_data s :
  all_bytes msg_data = true ->
  _send msg_type msg_data s = (Ret tt, written msg_type msg_data s).
Proof. intros Hb. unfold _send. by rewrite Hb. Qed.

(** A message dispatched once the request is written and before the
    observer is attached. *)
Lemma dispatch_after_write msg_type msg_data msg s :
  fresh s -> ready s -> well_formed msg = true ->
  exists s2,
    _process_message msg (written msg_type msg_data s) = (Ret tt, s2)
    /\ fresh s2 /\ ready s2 /\ pending s2 = pending s
    /\ published (log s2) = published (log s) ++ [msg].
Proof.
  intros Hfresh Hready Hwf.
  set (s1 := written msg_type msg_data s).
  pose proof (process_message_published msg s1) as Hpub.
  destruct (_process_message msg s1) as [r s2] eqn:Ep.
  apply process_message_spec in Ep as (Hh & _ & _ & Hok).
  rewrite (Hok Hwf Hready) in *. exists s2. split; [done|].
  cbn [fst snd] in Hpub. subst s1. unfold written in Hpub. cbn in Hpub.
  rewrite published_app in Hpub. cbn in Hpub. rewrite app_nil_r in Hpub.
  split.
  { unfold fresh. rewrite (hd_event _ _ Hh), (hd_next _ _ Hh). exact Hfresh. }
  split; [by apply (hd_ready _ _ Hh)|]. split; [exact (hd_pending _ _ Hh)|].
  exact Hpub.
Qed.

(** C1, amended: a call of [_send_and_ack] that passes its checks writes
    the encoded request first and attaches its observer only afterwards,
    as the first step of its [try] block; everything else the call does
    is logged after that and before the observer is detached, which is the
    last thing the call does.  A message of the acknowledgement kind that
    arrives during the waits of the call, before the deadline, is
    therefore observed: on a constructed link the call returns the first
    such message, everything up to it having been dispatched and published
    while the observer was attached.  A message dispatched after the write
    and before the attach is not observed: it is published to the callbacks
    attached then, and the call, when no other acknowledgement arrives,
    ends with the timeout error. *)
Theorem observer_attached_right_after_write
    msg_type msg_data ack_type timeout s :
  fresh s -> 0 <= timeout -> all_bytes msg_data = true ->
  let r := (_send_and_ack msg_type msg_data ack_type timeout s).1 in
  let s' := (_send_and_ack msg_type msg_data ack_type timeout s).2 in
  let on_message := ack_on_message (next_cell s) ack_type in
  let A := arrivals timeout (pending s) in
  (exists mid,
    log s' = log s
             ++ Write (MessageType.value msg_type :: msg_data)
             :: Attach on_message
             :: mid ++ [Detach on_message]
    /\ forallb during_wait mid = true
    /\ (forall m, r = Ret m ->
        first_ack ack_type A = Some m
        /\ published mid = up_to_ack ack_type A))
  /\ (ready s ->
      Forall (fun m => well_formed m = true) (up_to_ack ack_type A) ->
      forall ack, first_ack ack_type A = Some ack -> r = Ret ack)
  /\ (forall msg,
        ready s -> well_formed msg = true -> kind_is ack_type msg = true ->
        first_ack ack_type A = None ->
        Forall (fun m => well_formed m = true) A ->
        let early := (_send msg_type msg_data;;
                      _process_message msg;;
                      ack_block ack_type timeout) s in
        early.1 = Raise (Exception_ack_not_received ack_type timeout)
        /\ published (log early.2) = published (log s) ++ msg :: A).
Proof.
  intros Hfresh Ht Hb. cbn zeta.
  destruct (_send_and_ack msg_type msg_data ack_type timeout s) as [r s'] eqn:Es.
  cbn [fst snd].
  pose proof (send_and_ack_exact _ _ _ _ _ _ _ Hfresh Ht Hb Es) as Hres.
  apply send_and_ack_spec in Es as
    [(_ & _ & ?)|[(_ & _ & ?)|(_ & _ & Hacked & _)]]; [lia|congruence| |done].
  destruct (ak_log _ _ _ _ _ Hacked) as (mid & Hlog & Hmid).
  split; [|split].
  - exists mid. split; [done|]. split; [done|]. intros m ->.
    destruct Hres as (Hf & _ & Hpub). split; [done|].
    rewrite Hlog in Hpub.
    change (?a :: ?b :: mid ++ ?c) with ([a; b] ++ mid ++ c) in Hpub.
    rewrite !published_app in Hpub. cbn in Hpub. rewrite app_nil_r in Hpub.
    by apply app_inv_head in Hpub.
  - intros Hready Hwf ack Hack.
    destruct (ack_result_accepted _ _ _ _ _ _ Hres Hready Hwf) as [-> _].
    by rewrite Hack.
  - intros msg Hready Hwf Hk Hnone HA.
    destruct (dispatch_after_write msg_type msg_data msg s Hfresh Hready Hwf)
      as (s2 & Hrun & Hf2 & Hr2 & Hp2 & Hpub2).
    assert ((_send msg_type msg_data;; _process_message msg;;
             ack_block ack_type timeout) s = ack_block ack_type timeout s2)
      as ->.
    { unfold bind. rewrite send_written by done. by rewrite Hrun. }
    destruct (ack_block ack_type timeout s2) as [r3 s3] eqn:Eb.
    apply ack_block_exact in Eb; [|done|done].
    apply ack_result_accepted in Eb; [|done|].
    + rewrite Hp2, Hnone in Eb. destruct Eb as (-> & _ & Hpub3).
      split; [done|]. cbn [snd].
      rewrite Hpub3, Hpub2, (first_ack_none_up_to _ _ Hnone).
      by rewrite <- app_assoc.
    + by rewrite Hp2, (first_ack_none_up_to _ _ Hnone).
Qed.

Lemma observer_attached_right_after_write_witness :
  fresh listening /\ 0 <= 10 /\ all_bytes [40; 0] = true
  /\ let r := (_send_and_ack MessageType.BulkSetup [40; 0]
                 MessageType.BulkSetupAck 10 listening).1 in
     let s' := (_send_and_ack MessageType.BulkSetup [40; 0]
                  MessageType.BulkSetupAck 10 listening).2 in
     let on_message :=
       ack_on_message (next_cell listening) MessageType.BulkSetupAck in
     let A := arrivals 10 (pending listening) in
     (exists mid,
       log s' = log listening
                ++ Write (MessageType.value MessageType.BulkSetup :: [40; 0])
                :: Attach on_message
                :: mid ++ [Detach on_message]
       /\ forallb during_wait mid = true
       /\ (forall m, r = Ret m ->
           first_ack MessageType.BulkSetupAck A = Some m
           /\ published mid = up_to_ack MessageType.BulkSetupAck A))
     /\ (ready listening ->
         Forall (fun m => well_formed m = true)
           (up_to_ack MessageType.BulkSetupAck A) ->
         forall ack, first_ack MessageType.BulkSetupAck A = Some ack ->
                     r = Ret ack)
     /\ (forall msg,
           ready listening -> well_formed msg = true ->
           kind_is MessageType.BulkSetupAck msg = true ->
           first_ack MessageType.BulkSetupAck A = None ->
           Forall (fun m => well_formed m = true) A ->
           let early := (_send MessageType.BulkSetup [40; 0];;
                         _process_message msg;;
                         ack_block MessageType.BulkSetupAck 10) listening in
           early.1
           = Raise (Exception_ack_not_received MessageType.BulkSetupAck 10)
           /\ published (log early.2)
              = published (log listening) ++ msg :: A).
Proof.
  assert (fresh listening) as Hf by repeat constructor.
  assert (0 <= 10) as Ht by lia.
  split; [exact Hf|]. split; [exact Ht|]. split; [reflexivity|].
  exact (observer_attached_right_after_write MessageType.BulkSetup [40; 0]
           MessageType.BulkSetupAck 10 listening Hf Ht eq_refl).
Defined.

(** An acknowledgement handed to the dispatcher between the write and the
    attach, on a link on which nothing else arrives: it is published, and
    the call times out. *)
Example ack_before_attach_is_missed :
  let early := (_send MessageType.BulkSetup [40; 0];;
                _process_message [6];;
                ack_block MessageType.BulkSetupAck 10)
                 (session false [] (fun _ => true)) in
  early.1 = Raise (Exception_ack_not_received MessageType.BulkSetupAck 10)
  /\ published (log early.2) = [[6]].
Proof. by vm_compute. Qed.



(** ** The claim on construction *)

Lemma arrives_within_pending timeout s1 s2 :
  pending s1 = pending s2 -> arrives_within timeout s1 = arrives_within timeout s2.
Proof. unfold arrives_within. by intros ->. Qed.

(** What the second wait of [__init__] does, from the link [s2] on which
    [RequestBatteryLevel] has just been written. *)
Lemma second_wait s2 got s5 :
  wait_for_message (1 * second) MessageType.BatteryLevel (asked s2)
  = (Ret got, s5) ->
  exists l2,
    log s5 = log s2
             ++ Write [MessageType.value MessageType.RequestBatteryLevel] :: l2
    /\ match arrives_within (1 * second) s2 with
       | Some (delay2, data2) =>
         published l2 = [data2]
         /\ pending s5 = tl (pending s2)
         /\ clock s5 = clock s2 + delay2
       | None =>
         published l2 = []
         /\ map snd (pending s5) = map snd (pending s2)
         /\ clock s5 = clock s2 + 1 * second
         /\ _battery_voltage s5 = Some minus_one
       end.
Proof.
  intros Ew.
  pose proof (wait_for_message_spec _ _ _ _ _ Ew) as [W _].
  destruct (wt_log _ _ W) as (l2 & Hlog & _).
  change (log (asked s2))
    with (log s2 ++ [Write [MessageType.value MessageType.RequestBatteryLevel]])
    in Hlog.
  rewrite <- app_assoc in Hlog. exists l2. split; [exact Hlog|].
  rewrite (arrives_within_pending _ s2 (asked s2)) by done.
  destruct (arrives_within (1 * second) (asked s2)) as [[delay2 data2]|] eqn:Ea.
  - pose proof (wait_for_message_taken _ _ _ _ _ _ _ Ea Ew) as (Hc & Hpub & _).
    apply (wait_for_message_arrived _ _ _ _ _ _ _ Ea) in Ew as (Hp & _).
    split; [|by split].
    rewrite Hlog in Hpub.
    change (log (asked s2))
      with (log s2 ++ [Write [MessageType.value MessageType.RequestBatteryLevel]])
      in Hpub.
    rewrite !published_app in Hpub. cbn in Hpub. rewrite app_nil_r in Hpub.
    by apply app_inv_head in Hpub.
  - rewrite wait_for_message_expired in Ew by done. injection Ew as _ <-.
    cbn in Hlog. cbn. split.
    + rewrite <- !app_assoc in Hlog. apply app_inv_head in Hlog.
      injection Hlog as <-. done.
    + split; [by destruct (pending s2) as [|[] ?]|]. done.
Qed.

(** C2, amended: construction either identifies the die and returns, or
    disconnects the transport and re-raises.  It returns only if the
    notification received in the first one-second wait was an [IAmADie]
    carrying a non-zero [DiceType].  It has then written
    [RequestBatteryLevel] once and waited once more: the next notification,
    if it arrives within one second of the first, is taken and dispatched
    after that write, whatever its kind; otherwise the wait is over after
    one second and nothing is taken.  In neither case is the outcome of
    that wait looked at, and the transport is not disconnected.  The
    [BatteryLevel] reply is thus not needed: if the second wait receives
    nothing, construction still returns, the battery voltage keeping its
    initial -1. *)
Theorem construction_identifies_or_disconnects
    entry tracing notifications answers :
  let s0 := blank tracing notifications answers in
  let r := (__init__ entry s0).1 in
  let s' := (__init__ entry s0).2 in
  match r with
  | Ret _ =>
    (exists delay data,
        arrives_within (1 * second) s0 = Some (delay, data)
        /\ identified_by data s'
        /\ exists l1 l2,
             log s' = l1
                      ++ Write [MessageType.value MessageType.RequestBatteryLevel]
                      :: l2
             /\ published l1 = [data]
             /\ match arrives_within (1 * second)
                        (blank tracing (tl notifications) answers) with
                | Some (delay2, data2) =>
                  published l2 = [data2]
                  /\ pending s' = tl (tl notifications)
                  /\ clock s' = delay + delay2
                | None =>
                  published l2 = []
                  /\ map snd (pending s') = map snd (tl notifications)
                  /\ clock s' = delay + 1 * second
                  /\ _battery_voltage s' = Some minus_one
                end)
    /\ dtype_unset (_dtype s') = false
    /\ ready s'
    /\ message_received s' = []
    /\ sent MessageType.RequestBatteryLevel (log s')
       = [[MessageType.value MessageType.RequestBatteryLevel]]
    /\ ~ In Disconnect (log s')
  | Raise _ => exists l, log s' = l ++ [Disconnect]
  | Diverge => False
  end
  /\ (forall delay v rest d tail,
        has_service entry = true -> has_subscriber entry = true ->
        has_writer entry = true ->
        notifications
          = (delay, MessageType.value MessageType.IAmADie :: v :: rest) :: tail ->
        delay <= 1 * second ->
        DiceType.of_Z v = Some d -> d <> DiceType._None ->
        arrives_within (1 * second) (blank tracing tail answers) = None ->
        r = Ret tt /\ _battery_voltage s' = Some minus_one).
Proof.
  cbn zeta. set (s0 := blank tracing notifications answers).
  rewrite init_unfold. split.
  - destruct (has_service entry); [|by exists (log s0)].
    destruct (has_subscriber entry); [|by exists (log s0)].
    destruct (has_writer entry); [|by exists (log s0)].
    pose proof (wait_for_message_dtype (1 * second) MessageType.IAmADie
                  (greeted s0)) as D1.
    destruct (wait_for_message _ _ (greeted s0)) as [r1 s2] eqn:Ew1.
    pose proof (wait_for_message_spec _ _ _ _ _ Ew1) as [W1 Hd1].
    cbn [snd] in D1.
    destruct r1 as [got|e|]; [|by exists (log s2)|done].
    destruct (dtype_unset (_dtype s2)) eqn:Eu; [by exists (log s2)|].
    destruct (wait_for_message _ _ (asked s2)) as [r5 s5] eqn:Ew2.
    pose proof (wait_for_message_spec _ _ _ _ _ Ew2) as [W2 Hd2].
    destruct r5 as [got'|e|]; [|by exists (log s5)|done]. cbn [fst snd].
    assert (message_received s2 = []) as Hmr2
      by (apply (waited_event _ _ W1); constructor).
    assert (_dtype s5 = _dtype s2) as Hd5 by (by apply (wt_dtype _ _ W2)).
    destruct (wt_log _ _ W1) as (d1 & Hlog1 & Hq1).
    destruct (wt_log _ _ W2) as (d2 & Hlog2 & Hq2).
    change (log (asked s2))
      with (log s2 ++ [Write [MessageType.value MessageType.RequestBatteryLevel]])
      in Hlog2.
    rewrite Hlog1 in Hlog2.
    split; [|repeat split].
    + destruct D1 as [D1|(delay & data & Ha & v & rest & d & ? & ? & ?)];
        [by rewrite D1 in Eu|].
      exists delay, data. split; [done|].
      split; [exists v, rest, d; by rewrite Hd5|].
      pose proof (wait_for_message_taken _ _ _ _ _ _ _ Ha Ew1)
        as (Hc1 & Hpub1 & _).
      apply (wait_for_message_arrived _ _ _ _ _ _ _ Ha) in Ew1 as (Hp1 & _).
      cbn in Hc1, Hpub1, Hp1.
      destruct (second_wait _ _ _ Ew2) as (l2 & Hlog & Hsecond).
      exists (log s2), l2. split; [exact Hlog|]. split; [exact Hpub1|].
      rewrite (arrives_within_pending _ _ s2) by (by rewrite Hp1).
      rewrite Hp1, Hc1 in Hsecond. exact Hsecond.
    + by rewrite Hd5.
    + by apply (wt_ready _ _ W2).
    + rewrite (waited_event _ _ W2); [done|]. unfold fresh. cbn.
      rewrite Hmr2. constructor.
    + rewrite Hlog2, !sent_app.
      rewrite (sent_during_wait _ d1), (sent_during_wait _ d2) by done. done.
    + rewrite Hlog2, !in_app_iff. cbn.
      pose proof (during_wait_no_disconnect _ Hq1).
      pose proof (during_wait_no_disconnect _ Hq2). intuition discriminate.
  - intros delay v rest d tail -> -> -> Hn Hdelay Hv Hd Hnone.
    rewrite wait_for_message_unfold. cbn zeta.
    assert (arrives_within (1 * second) (greeted s0)
            = Some (delay, MessageType.value MessageType.IAmADie :: v :: rest))
      as ->.
    { unfold arrives_within, s0. cbn -[second]. rewrite Hn.
      apply Z.leb_le in Hdelay. by rewrite Hdelay. }
    rewrite (process_message_i_am_a_die v rest d) by done.
    assert ((DiceType.value d =? 0) = false) as Hset by (by destruct d).
    cbn -[wait_for_message second]. rewrite Hset.
    rewrite wait_for_message_expired.
    + done.
    + unfold arrives_within in *. cbn -[second] in *. rewrite Hn. exact Hnone.
Qed.

Lemma construction_identifies_or_disconnects_witness :
  let entry := mkScanEntry true true true in
  let s0 := blank false [(10, [2; 2; 7]); (2000, [28; 0; 0; 128; 64])]
              (fun _ => true) in
  has_service entry = true /\ has_subscriber entry = true
  /\ has_writer entry = true
  /\ 10 <= 1 * second /\ DiceType.of_Z 2 = Some DiceType._20
  /\ DiceType._20 <> DiceType._None
  /\ arrives_within (1 * second)
       (blank false [(2000, [28; 0; 0; 128; 64])] (fun _ => true)) = None
  /\ (__init__ entry s0).1 = Ret tt
  /\ _battery_voltage (__init__ entry s0).2 = Some minus_one.
Proof.
  cbn zeta.
  assert (10 <= 1 * second) as Hd by (vm_compute; discriminate).
  assert (DiceType._20 <> DiceType._None) as Hne by discriminate.
  do 7 (split; [first [reflexivity|assumption]|]).
  exact (proj2 (construction_identifies_or_disconnects
                  (mkScanEntry true true true) false
                  [(10, [2; 2; 7]); (2000, [28; 0; 0; 128; 64])]
                  (fun _ => true))
           10 2 [7] DiceType._20 [(2000, [28; 0; 0; 128; 64])]
           eq_refl eq_refl eq_refl eq_refl Hd eq_refl Hne eq_refl).
Defined.

(** Two runs of the second wait.  A reading of 4.0 volts that comes five
    ticks after the [IAmADie] is taken and dispatched after the request;
    one that comes two seconds after it is left with the transport, the
    wait giving up after its second. *)
Example construction_scenarios :
  let entry := mkScanEntry true true true in
  let prompt := 5 in
  let timely := __init__ entry
                  (blank false [(10, [2; 2; 7]); (prompt, [28; 0; 0; 128; 64])]
                     (fun _ => true)) in
  let tardy := __init__ entry
                 (blank false [(10, [2; 2; 7]); (2000, [28; 0; 0; 128; 64])]
                    (fun _ => true)) in
  (timely.1 = Ret tt
   /\ published (log timely.2) = [[2; 2; 7]; [28; 0; 0; 128; 64]]
   /\ pending timely.2 = [] /\ clock timely.2 = 15
   /\ _battery_voltage timely.2 = Some (float_of_le_bytes 0 0 128 64))
  /\ (tardy.1 = Ret tt
      /\ published (log tardy.2) = [[2; 2; 7]]
      /\ pending tardy.2 = [(1000, [28; 0; 0; 128; 64])]
      /\ clock tardy.2 = 1010
      /\ _battery_voltage tardy.2 = Some minus_one).
Proof. by vm_compute. Qed.

(** * The upload as a stop-and-wait exchange *)

Lemma first_ack_up_to k l : first_ack k (up_to_ack k l) = first_ack k l.
Proof.
  induction l as [|m l IH]; [done|]. cbn. destruct (kind_is k m) eqn:E; cbn;
    by rewrite E.
Qed.

Lemma stop_and_wait_app awaited l1 l2 :
  stop_and_wait awaited (l1 ++ l2)
  = match stop_and_wait awaited l1 with
    | Some awaited' => stop_and_wait awaited' l2
    | None => None
    end.
Proof.
  revert awaited. induction l1 as [|a l1 IH]; intros awaited; [done|].
  destruct a as [|data| | | | |msg| |]; cbn; try apply IH.
  - destruct (ack_of data), awaited; try apply IH. done.
  - destruct awaited; apply IH.
Qed.

(** While the call waits, no request is written. *)
Lemma stop_and_wait_idle mid :
  forallb during_wait mid = true -> stop_and_wait None mid = Some None.
Proof.
  induction mid as [|a mid IH]; [done|]. cbn. intros [Ha Hmid]%andb_prop.
  specialize (IH Hmid). destruct a as [|data| | | | | | |]; try done.
  destruct data as [|b data]; [done|]. cbn in Ha. apply Z.eqb_eq in Ha as ->.
  done.
Qed.

(** While the call waits, what it awaits is received when the first
    message of that kind is published. *)
Lemma stop_and_wait_waiting k mid :
  forallb during_wait mid = true ->
  stop_and_wait (Some k) mid
  = Some (match first_ack k (published mid) with
          | Some _ => None
          | None => Some k
          end).
Proof.
  induction mid as [|a mid IH]; [done|]. cbn -[kind_is].
  intros [Ha Hmid]%andb_prop. specialize (IH Hmid).
  destruct a as [|data| | | | |msg| |]; try done.
  - destruct data as [|b data]; [done|]. cbn in Ha. apply Z.eqb_eq in Ha as ->.
    done.
  - cbn [published first_ack]. destruct (kind_is k msg);
      [by apply stop_and_wait_idle|done].
Qed.

(** One request and the wait for its acknowledgement. *)
Lemma send_and_ack_stop_and_wait msg_type msg_data ack_type timeout s r s' :
  fresh s ->
  ack_of (MessageType.value msg_type :: msg_data) = Some ack_type ->
  _send_and_ack msg_type msg_data ack_type timeout s = (r, s') ->
  exists d awaited,
    log s' = log s ++ d
    /\ stop_and_wait None d = Some awaited
    /\ (forall m, r = Ret m -> awaited = None).
Proof.
  intros Hfresh Hack Es.
  pose proof Es as Hspec.
  apply send_and_ack_spec in Hspec as
    [(-> & -> & _)|[(-> & -> & _)|(Ht & Hb & Hacked & _)]]; [| | |done].
  { exists [], None. by rewrite app_nil_r. }
  { exists [], None. by rewrite app_nil_r. }
  pose proof (send_and_ack_exact _ _ _ _ _ _ _ Hfresh Ht Hb Es) as Hres.
  destruct (ak_log _ _ _ _ _ Hacked) as (mid & Hlog & Hmid).
  assert (published (log s') = published (log s) ++ published mid) as Hpub.
  { rewrite Hlog.
    change (?a :: ?b :: mid ++ ?c) with ([a; b] ++ mid ++ c).
    rewrite !published_app. cbn. by rewrite app_nil_r. }
  eexists. eexists. split; [exact Hlog|].
  cbn [stop_and_wait]. rewrite Hack, stop_and_wait_app.
  rewrite (stop_and_wait_waiting _ _ Hmid). cbn [stop_and_wait].
  split; [reflexivity|]. intros m ->.
  destruct Hres as (Hf & _ & Hpub'). rewrite Hpub in Hpub'.
  apply app_inv_head in Hpub'. by rewrite Hpub', first_ack_up_to, Hf.
Qed.

Lemma bulk_loop_stop_and_wait data timeout :
  forall fuel remainingSize offset s r s',
    fresh s ->
    bulk_loop fuel data timeout remainingSize offset s = (r, s') ->
    exists d awaited,
      log s' = log s ++ d
      /\ stop_and_wait None d = Some awaited
      /\ (r = Ret tt -> awaited = None).
Proof.
  induction fuel as [|fuel IH]; intros remainingSize offset s r s' Hfresh.
  { intros [= <- <-]. exists [], None. by rewrite app_nil_r. }
  cbn [bulk_loop]. destruct (0 <? remainingSize);
    [|intros [= <- <-]; exists [], None; by rewrite app_nil_r].
  unfold bind. destruct (_send_and_ack _ _ _ _ s) as [r1 s1] eqn:Es.
  pose proof Es as Hspec.
  apply send_and_ack_stop_and_wait in Es as (d1 & a1 & Hlog1 & Hsw1 & Hret1);
    [|done|done].
  assert (fresh s1) as Hfresh1.
  { apply send_and_ack_spec in Hspec as
      [(_ & -> & _)|[(_ & -> & _)|(_ & _ & Hacked & _)]]; [done|done| |done].
    by eapply acked_fresh. }
  destruct r1 as [m|e|].
  - intros Hloop. apply IH in Hloop as (d2 & a2 & Hlog2 & Hsw2 & Hret2); [|done].
    exists (d1 ++ d2), a2. split; [by rewrite Hlog2, Hlog1, app_assoc|].
    split; [|done]. by rewrite stop_and_wait_app, Hsw1, (Hret1 m eq_refl).
  - intros [= <- <-]. by exists d1, a1.
  - intros [= <- <-]. by exists d1, a1.
Qed.

Lemma upload_stop_and_wait data timeout s r s' :
  fresh s ->
  _upload_bulk_data data timeout s = (r, s') ->
  exists d awaited,
    log s' = log s ++ d
    /\ stop_and_wait None d = Some awaited
    /\ (r = Ret tt -> awaited = None).
Proof.
  intros Hfresh. unfold _upload_bulk_data, assert, bind.
  destruct (len data =? 0); cbn -[bulk_loop];
    [intros [= <- <-]; exists [], None; by rewrite app_nil_r|].
  destruct (0 <=? timeout); cbn -[bulk_loop];
    [|intros [= <- <-]; exists [], None; by rewrite app_nil_r].
  destruct (_send_and_ack _ _ _ _ s) as [r1 s1] eqn:Es.
  pose proof Es as Hspec.
  apply send_and_ack_stop_and_wait in Es as (d1 & a1 & Hlog1 & Hsw1 & Hret1);
    [|done|done].
  assert (fresh s1) as Hfresh1.
  { apply send_and_ack_spec in Hspec as
      [(_ & -> & _)|[(_ & -> & _)|(_ & _ & Hacked & _)]]; [done|done| |done].
    by eapply acked_fresh. }
  destruct r1 as [m|e|].
  - intros Hloop.
    apply bulk_loop_stop_and_wait in Hloop as (d2 & a2 & Hlog2 & Hsw2 & Hret2);
      [|done].
    exists (d1 ++ d2), a2. split; [by rewrite Hlog2, Hlog1, app_assoc|].
    split; [|done]. by rewrite stop_and_wait_app, Hsw1, (Hret1 m eq_refl).
  - intros [= <- <-]. by exists d1, a1.
  - intros [= <- <-]. by exists d1, a1.
Qed.

(** X9: in every run of [_upload_bulk_data], however it ends, the
    requests written are an initial part of the sequence [BulkSetup],
    chunk 0, chunk 1, ...: nothing is sent twice or out of order.  The
    exchange is stop-and-wait: a request is written only once the
    acknowledgement of the request before it has been published, so that
    after an acknowledgement that fails nothing more is sent.  When the
    upload returns, the sequence is complete and its last request is
    acknowledged.  Every packet has at most 20 bytes. *)
Theorem upload_writes_a_prefix_of_the_sequence data timeout s :
  fresh s ->
  let r := (_upload_bulk_data data timeout s).1 in
  let s' := (_upload_bulk_data data timeout s).2 in
  exists d awaited,
    log s' = log s ++ d
    /\ requests d `prefix_of` bulk_sequence data
    /\ Forall (fun m => (length m <= 20)%nat) (requests d)
    /\ stop_and_wait None d = Some awaited
    /\ (r = Ret tt -> requests d = bulk_sequence data /\ awaited = None).
Proof.
  intros Hfresh. cbn zeta.
  destruct (_upload_bulk_data data timeout s) as [r s'] eqn:Eu. cbn [fst snd].
  pose proof Eu as Eu'.
  apply upload_run in Eu as (_ & _ & _ & d & Hlog & Hp & Hr); [|done].
  apply upload_stop_and_wait in Eu' as (d' & awaited & Hlog' & Hsw & Hret);
    [|done].
  assert (d' = d) as -> by (rewrite Hlog in Hlog'; by apply app_inv_head in Hlog').
  exists d, awaited. split; [done|]. split; [done|]. split.
  - destruct Hp as [k Hk]. pose proof (bulk_sequence_fits data) as Hf.
    rewrite Hk in Hf. by apply Forall_app in Hf as [? _].
  - split; [done|]. intros ->. split; [by apply Hr|by apply Hret].
Qed.

Lemma upload_writes_a_prefix_of_the_sequence_witness :
  let r := (_upload_bulk_data payload40 10 late).1 in
  let s' := (_upload_bulk_data payload40 10 late).2 in
  fresh late
  /\ exists d awaited,
       log s' = log late ++ d
       /\ requests d `prefix_of` bulk_sequence payload40
       /\ Forall (fun m => (length m <= 20)%nat) (requests d)
       /\ stop_and_wait None d = Some awaited
       /\ (r = Ret tt -> requests d = bulk_sequence payload40 /\ awaited = None).
Proof.
  cbn zeta. assert (fresh late) as Hf by repeat constructor.
  split; [exact Hf|].
  exact (upload_writes_a_prefix_of_the_sequence payload40 10 late Hf).
Defined.

(** The two ways the exchange of a 40-byte upload can go on the sample
    links: acknowledged throughout, it ends with nothing awaited; with the
    [BulkSetupAck] late, the [BulkSetup] is the only request and is still
    awaiting its acknowledgement at the end.  A log in which a chunk follows
    a [BulkSetup] that was never acknowledged is no stop-and-wait
    exchange. *)
Example stop_and_wait_scenarios :
  let whole := (_upload_bulk_data payload40 10 acknowledging).2 in
  let cut := (_upload_bulk_data payload40 10 late).2 in
  stop_and_wait None (log whole) = Some None
  /\ requests (log whole) = bulk_sequence payload40
  /\ stop_and_wait None (log cut) = Some (Some MessageType.BulkSetupAck)
  /\ requests (log cut) = [[5; 40; 0]]
  /\ stop_and_wait None
       [Write [5; 40; 0]; MessageReceived [3; 1; 3];
        Write (chunk_message payload40 0)] = None.
Proof. by vm_compute. Qed.
